(** * Alaphanex order core: [createCheckoutSession] and [stripeWebhook]

    A shallow embedding of [functions/index.js].  The two HTTPS handlers
    are written as programs of a small state-and-reply monad over a
    document store (collections [products] and [orders]); the properties
    of the order life cycle are stated and proved on them.

    What the model takes as given:
    - JavaScript Numbers are IEEE 754 binary64 values, computed with the
      Standard Library's executable specification of floating-point
      arithmetic; every numeric field of a document is a Number.
    - The store is reliable.  A read answers the document or its
      absence, [add] stores a document under an identifier no order has,
      [update] is refused when the document does not exist, and a batch
      is applied as a whole or not at all.
    - Product and order identifiers are strings that name documents; a
      product's [price] and name are present.
    - The payment processor's library is a parameter of the handlers. *)

From Stdlib Require Import ZArith Bool Lia Ascii String.
From Stdlib Require Import SpecFloat.
From Stdlib Require Import QArith Qpower Lqa.
From stdpp Require Import gmap strings list fin_maps relations pretty infinite.

(** ** JavaScript Numbers *)

Module JS.

Local Open Scope Z_scope.

Abbreviation number := spec_float.

Definition prec : Z := 53.
Definition emax : Z := 1024.

(** The Number nearest to an integer (ties to even). *)
Definition of_Z (z : Z) : number := binary_normalize prec emax z 0 false.

Definition add : number -> number -> number := SFadd prec emax.
Definition sub : number -> number -> number := SFsub prec emax.
Definition mul : number -> number -> number := SFmul prec emax.
Definition div : number -> number -> number := SFdiv prec emax.
Definition neg : number -> number := SFopp.

(** [a < b] of the language: false as soon as one side is NaN. *)
Definition lt : number -> number -> bool := SFltb.

Definition NaN : number := S754_nan.
Definition zero : number := S754_zero false.
Definition one : number := of_Z 1.
Definition hundred : number := of_Z 100.

(** A decimal literal [m / 10^d], for [m] and [10^d] below [2^53]: the
    quotient of two exact Numbers is the correctly rounded literal. *)
Definition dec (m : Z) (d : Z) : number := div (of_Z m) (of_Z (10 ^ d)).

(** [Number.EPSILON] is [2^-52]. *)
Definition Number_EPSILON : number := S754_finite false 4503599627370496 (-104).

Definition is_nan (x : number) : bool :=
  match x with S754_nan => true | _ => false end.

Definition is_zero (x : number) : bool :=
  match x with S754_zero _ => true | _ => false end.

(** The sign bit; NaN has none. *)
Definition sign_bit (x : number) : bool :=
  match x with
  | S754_zero s | S754_infinity s | S754_finite s _ _ => s
  | S754_nan => false
  end.

(** [Math.round]: the nearest integer, a tie going towards +infinity; a
    result of zero keeps the sign of the argument.  The integer
    [floor (x + 1/2)] is computed exactly on mantissa and exponent. *)
Definition Math_round (x : number) : number :=
  match x with
  | S754_finite s m e =>
      if 0 <=? e then x
      else
        let d := 2 ^ (- e) in
        let k := (2 * cond_Zopp s (Zpos m) + d) / (2 * d) in
        if k =? 0 then S754_zero s else of_Z k
  | _ => x
  end.

(** Rounding to the nearest integer with a tie going away from zero. *)
Definition round_half_away (x : number) : number :=
  match x with
  | S754_finite s m e =>
      if 0 <=? e then x
      else
        let d := 2 ^ (- e) in
        let k := (2 * Zpos m + d) / (2 * d) in
        if k =? 0 then S754_zero s else of_Z (cond_Zopp s k)
  | _ => x
  end.

(** The integer part, towards zero. *)
Definition trunc (x : number) : number :=
  match x with
  | S754_finite s m e =>
      if 0 <=? e then x
      else
        let k := Zpos m / 2 ^ (- e) in
        if k =? 0 then S754_zero s else of_Z (cond_Zopp s k)
  | _ => x
  end.

(** [Math.max] of two Numbers: NaN if either is, and [+0] above [-0]. *)
Definition Math_max (a b : number) : number :=
  match SFcompare a b with
  | None => NaN
  | Some Lt => b
  | Some Gt => a
  | Some Eq => match a with S754_zero true => b | _ => a end
  end.

(** [parseFloat] of a Number prints it and reads it back: the value
    itself, except that [-0] prints as ["0"]. *)
Definition parseFloat (x : number) : number :=
  match x with S754_zero _ => zero | _ => x end.

(** [const round2 = n => Math.round((n + Number.EPSILON) * 100) / 100] *)
Definition round2 (n : number) : number :=
  div (Math_round (mul (add n Number_EPSILON) hundred)) hundred.

(** The same with the tie going away from zero. *)
Definition round2_half_away (n : number) : number :=
  div (round_half_away (mul (add n Number_EPSILON) hundred)) hundred.

(** *** Dynamically typed values, as far as the cart uses them *)

Inductive value :=
  | VUndefined
  | VNull
  | VBool (b : bool)
  | VNumber (x : number)
  | VString (s : string).

(** ToBoolean. *)
Definition truthy (v : value) : bool :=
  match v with
  | VUndefined | VNull => false
  | VBool b => b
  | VNumber x => negb (is_nan x || is_zero x)
  | VString s => negb (String.eqb s "")
  end.

(** *** [parseInt(v, 10)] *)

Definition is_white (c : ascii) : bool :=
  let n := Z.of_nat (nat_of_ascii c) in
  ((9 <=? n) && (n <=? 13)) || (n =? 32).

Fixpoint skip_white (s : string) : string :=
  match s with
  | String c r => if is_white c then skip_white r else s
  | EmptyString => s
  end.

Definition digit_of (c : ascii) : option Z :=
  let n := Z.of_nat (nat_of_ascii c) in
  if (48 <=? n) && (n <=? 57) then Some (n - 48) else None.

(** The value of the longest prefix of decimal digits, if there is one. *)
Fixpoint read_digits (s : string) (acc : option Z) : option Z :=
  match s with
  | String c r =>
      match digit_of c with
      | Some d => read_digits r (Some (10 * default 0 acc + d))
      | None => acc
      end
  | EmptyString => acc
  end.

Definition split_sign (s : string) : bool * string :=
  match s with
  | String "-" r => (true, r)
  | String "+" r => (false, r)
  | _ => (false, s)
  end.

(** [parseInt] of a string in radix 10: leading white space (the ASCII
    one), an optional sign, then digits up to the first other
    character; NaN when no digit is found. *)
Definition parseInt_string (s : string) : number :=
  let '(sg, r) := split_sign (skip_white s) in
  match read_digits r None with
  | None => NaN
  | Some 0 => S754_zero sg
  | Some n => of_Z (cond_Zopp sg n)
  end.

(** A Number prints in plain decimal notation when its magnitude is in
    [1e-6, 1e21), in exponent notation outside. *)
Definition plain_notation (x : number) : bool :=
  let a := SFabs x in
  negb (lt a (dec 1 6)) && lt a (of_Z (10 ^ 21)).

(** [parseInt] of a Number goes through its printed form.  In plain
    notation the digits before the point are the integer part.  In
    exponent notation only the leading digit is read; [lead] stands for
    that digit of the runtime's shortest rendering. *)
Definition parseInt_number (lead : number -> Z) (x : number) : number :=
  match x with
  | S754_nan | S754_infinity _ => NaN
  | S754_zero _ => zero
  | S754_finite s _ _ =>
      if plain_notation x then trunc x
      else of_Z (cond_Zopp s (lead x))
  end.

Definition parseInt (lead : number -> Z) (v : value) : number :=
  match v with
  | VString s => parseInt_string s
  | VNumber x => parseInt_number lead x
  | VUndefined | VNull | VBool _ => NaN
  end.

End JS.

Import JS.

(** ** Documents of the store *)

(** A document of [products].  [stock] is [Some] exactly when the field
    holds a Number ([typeof p.stock === 'number']); an empty [image]
    stands for an absent one. *)
Record Product := {
  prod_name : string;
  prod_price : number;
  prod_stock : option number;
  prod_image : string
}.

(** One element of an order's [items]: [{ productId, name, qty, price }]. *)
Record OrderItem := {
  productId : string;
  item_name : string;
  qty : number;
  price : number
}.

Inductive Status := pending | paid.

(** A document of [orders].  [stripeSessionId], [stripePaymentIntentId]
    and [paidAt] are absent until an update sets them. *)
Record Order := {
  userUID : string;
  userEmail : string;
  userName : string;
  date : string;
  items : list OrderItem;
  subtotal : number;
  tps : number;
  tvq : number;
  taxes : number;
  total : number;
  status : Status;
  createdAt : Z;
  stripeSessionId : option string;
  stripePaymentIntentId : option string;
  paidAt : option Z
}.

(** ** Requests, responses and the payment processor's objects *)

(** An element of [req.body.cart].  An absent [id] is the empty string;
    [others] are the remaining properties of the object (a [price] sent
    by the client is one of them). *)
Record CartEntry := {
  entry_id : string;
  quantity : value;
  others : list (string * value)
}.

(** The request of [createCheckoutSession]: [cart] is [None] when
    [req.body.cart] is not an array; absent strings are empty. *)
Record CheckoutRequest := {
  method : string;
  cart : option (list CartEntry);
  user_uid : string;
  user_email : string;
  user_name : string;
  origin_header : string;
  referer_header : string
}.

Inductive Body :=
  | JsonError (error : string)
  | JsonUrl (url : string)
  | Text (text : string)
  | NoBody.

Record Response := { code : Z; body : Body }.

(** An entry of the local array [items]. *)
Record Item := {
  it_id : string;
  it_name : string;
  unit_amount : number;
  it_quantity : number;
  it_image : string
}.

(** An element of [line_items] sent to the processor. *)
Record LineItem := {
  li_quantity : number;
  li_currency : string;
  li_unit_amount : number;
  li_name : string;
  li_images : list string
}.

(** The argument of [stripe.checkout.sessions.create]. *)
Record SessionParams := {
  sp_mode : string;
  sp_payment_method_types : list string;
  sp_customer_email : string;
  sp_line_items : list LineItem;
  sp_success_url : string;
  sp_cancel_url : string;
  sp_metadata_firebaseOrderId : string;
  sp_metadata_userUID : string
}.

(** What the processor answers: [session.id] and [session.url]. *)
Record CreatedSession := { session_id : string; session_url : string }.

(** [event.data.object] of a webhook event, as far as the handler reads
    it.  An absent [metadata.firebaseOrderId] is the empty string. *)
Record Session := {
  metadata_firebaseOrderId : string;
  amount_total : option number;
  amount_subtotal : option number;
  payment_intent : option string
}.

Record Event := { type : string; data_object : Session }.

Record WebhookRequest := { rawBody : string; stripe_signature : option string }.

(** ** The world the handlers run in *)

(** The side effects a handler performs, in the order it performs them. *)
Inductive Effect :=
  | OrderAdded (orderId : string)
  | SessionCreateCalled (params : SessionParams)
  | OrderUpdated (orderId : string)
  | BatchCommitted (orderId : string).

Record World := {
  products : gmap string Product;
  orders : gmap string Order;
  clock : Z;
  effects : list Effect
}.

(** What the handlers take from outside: the processor's library
    ([constructEvent] answers the event or the message of the error it
    throws, [sessions_create] likewise), the configured webhook secret,
    the date string of the day, and the leading digit of a Number printed
    in exponent notation. *)
Record Env := {
  constructEvent : string -> option string -> string -> string + Event;
  sessions_create : SessionParams -> string + CreatedSession;
  WH_SECRET : string;
  toLocaleDateString : string;
  lead_digit : number -> Z
}.

(** ** The handler monad *)

(** A step answers a value, sends the response and leaves the handler
    ([return res...]), or throws. *)
Inductive Outcome (A : Type) :=
  | Ret (a : A)
  | Reply (r : Response)
  | Throw (msg : string).

Arguments Ret {A} a.
Arguments Reply {A} r.
Arguments Throw {A} msg.

Definition M (A : Type) : Type := World -> Outcome A * World.

#[global] Instance M_ret : MRet M := fun A a w => (Ret a, w).

#[global] Instance M_bind : MBind M := fun A B f m w =>
  match m w with
  | (Ret a, w') => f a w'
  | (Reply r, w') => (Reply r, w')
  | (Throw msg, w') => (Throw msg, w')
  end.

Definition reply {A} (r : Response) : M A := fun w => (Reply r, w).
Definition throw {A} (msg : string) : M A := fun w => (Throw msg, w).

(** [try { ... } catch (e) { return on_throw(e) }] around a handler body. *)
Definition try_catch (m : M Response) (on_throw : string -> Response)
  (w : World) : Response * World :=
  match m w with
  | (Ret r, w') | (Reply r, w') => (r, w')
  | (Throw msg, w') => (on_throw msg, w')
  end.

Definition json_error (c : Z) (msg : string) : Response :=
  {| code := c; body := JsonError msg |}.

Definition send (c : Z) (t : string) : Response := {| code := c; body := Text t |}.

Definition end_ (c : Z) : Response := {| code := c; body := NoBody |}.

(** ** The store's operations *)

Definition log (e : Effect) (w : World) : World :=
  {| products := products w; orders := orders w; clock := clock w;
     effects := effects w ++ [e] |}.

Definition set_orders (o : gmap string Order) (w : World) : World :=
  {| products := products w; orders := o; clock := clock w; effects := effects w |}.

Definition set_store (p : gmap string Product) (o : gmap string Order) (w : World) : World :=
  {| products := p; orders := o; clock := clock w; effects := effects w |}.

(** [db.collection('products').doc(id).get()]: [None] is [!snap.exists]. *)
Definition products_get (k : string) : M (option Product) :=
  fun w => (Ret (products w !! k), w).

Definition orders_get (k : string) : M (option Order) :=
  fun w => (Ret (orders w !! k), w).

(** [db.collection('orders').add(doc)]: the document is stored under an
    identifier no order has yet, with the server's time put where the
    document says [serverTimestamp()]; the identifier is answered. *)
Definition orders_add (doc : Z -> Order) : M string :=
  fun w =>
    let k := fresh (dom (orders w)) in
    (Ret k, log (OrderAdded k) (set_orders (<[k := doc (clock w)]> (orders w)) w)).

Definition with_session (sid : string) (o : Order) : Order :=
  {| userUID := userUID o; userEmail := userEmail o; userName := userName o;
     date := date o; items := items o; subtotal := subtotal o; tps := tps o;
     tvq := tvq o; taxes := taxes o; total := total o; status := status o;
     createdAt := createdAt o; stripeSessionId := Some sid;
     stripePaymentIntentId := stripePaymentIntentId o; paidAt := paidAt o |}.

(** [orderRef.update({ stripeSessionId })]: an update of a document that
    does not exist is refused by the store. *)
Definition order_update_session (k sid : string) : M unit :=
  fun w =>
    match orders w !! k with
    | Some o => (Ret tt, log (OrderUpdated k) (set_orders (<[k := with_session sid o]> (orders w)) w))
    | None => (Throw "NOT_FOUND", w)
    end.

(** The writes put in a batch. *)
Inductive Write :=
  | IncrementStock (product : string) (delta : number)
  | MarkPaid (order : string) (taxes_ total_ : number) (intent : option string).

(** [FieldValue.increment(delta)]: added to a numeric field, written as
    such when the field is absent or not a Number. *)
Definition increment (delta : number) (field : option number) : option number :=
  match field with
  | Some x => Some (add x delta)
  | None => Some delta
  end.

Definition with_stock (s : option number) (p : Product) : Product :=
  {| prod_name := prod_name p; prod_price := prod_price p; prod_stock := s;
     prod_image := prod_image p |}.

Definition mark_paid (taxes_ total_ : number) (intent : option string) (now : Z)
  (o : Order) : Order :=
  {| userUID := userUID o; userEmail := userEmail o; userName := userName o;
     date := date o; items := items o; subtotal := subtotal o; tps := zero;
     tvq := zero; taxes := taxes_; total := total_; status := paid;
     createdAt := createdAt o; stripeSessionId := stripeSessionId o;
     stripePaymentIntentId := intent; paidAt := Some now |}.

(** One write of a batch on the two collections; [None] when the
    document to update does not exist. *)
Definition apply_write (now : Z) (st : gmap string Product * gmap string Order)
  (wr : Write) : option (gmap string Product * gmap string Order) :=
  match wr with
  | IncrementStock k delta =>
      match st.1 !! k with
      | Some p => Some (<[k := with_stock (increment delta (prod_stock p)) p]> st.1, st.2)
      | None => None
      end
  | MarkPaid k tx tot intent =>
      match st.2 !! k with
      | Some o => Some (st.1, <[k := mark_paid tx tot intent now o]> st.2)
      | None => None
      end
  end.

Fixpoint apply_writes (now : Z) (st : gmap string Product * gmap string Order)
  (ws : list Write) : option (gmap string Product * gmap string Order) :=
  match ws with
  | [] => Some st
  | wr :: rest =>
      match apply_write now st wr with
      | Some st' => apply_writes now st' rest
      | None => None
      end
  end.

(** [batch.commit()]: every write is applied, in the order it was added,
    or none is and the commit throws. *)
Definition batch_commit (k : string) (ws : list Write) : M unit :=
  fun w =>
    match apply_writes (clock w) (products w, orders w) ws with
    | Some st => (Ret tt, log (BatchCommitted k) (set_store st.1 st.2 w))
    | None => (Throw "NOT_FOUND", w)
    end.

(** ** [createCheckoutSession] *)

Section Handlers.

Variable env : Env.

(** [typeof p.stock === 'number' && p.stock < qty] *)
Definition stock_below (p : Product) (q : number) : bool :=
  match prod_stock p with
  | Some s => lt s q
  | None => false
  end.

(** [Math.max(1, parseInt(i.quantity, 10))] *)
Definition effective_quantity (v : value) : number :=
  Math_max one (parseInt (lead_digit env) v).

(** [Math.round(parseFloat(p.price) * 100)], the price in cents. *)
Definition unit_cents (p : Product) : number :=
  Math_round (mul (parseFloat (prod_price p)) hundred).

Definition make_item (i : CartEntry) (p : Product) : Item :=
  {| it_id := entry_id i; it_name := prod_name p; unit_amount := unit_cents p;
     it_quantity := effective_quantity (quantity i); it_image := prod_image p |}.

(** The loop [for (const i of cart)] that reloads and validates the
    entries, [items] being the array built so far. *)
Fixpoint load_items (cart_ : list CartEntry) (items_ : list Item) : M (list Item) :=
  match cart_ with
  | [] => mret items_
  | i :: rest =>
      if negb (truthy (VString (entry_id i))) || negb (truthy (quantity i))
      then load_items rest items_
      else
        snap ← products_get (entry_id i);
        match snap with
        | None => load_items rest items_
        | Some p =>
            if stock_below p (effective_quantity (quantity i))
            then reply (json_error 400 ("Stock insuffisant: " +:+ prod_name p))
            else load_items rest (items_ ++ [make_item i p])
        end
  end.

(** [items.reduce((s, it) => s + (it.unit_amount / 100) * it.quantity, 0)] *)
Definition items_sum (items_ : list Item) : number :=
  fold_left (fun s it => add s (mul (div (unit_amount it) hundred) (it_quantity it)))
    items_ zero.

Definition order_item (it : Item) : OrderItem :=
  {| productId := it_id it; item_name := it_name it; qty := it_quantity it;
     price := div (unit_amount it) hundred |}.

(** [a || b] on strings. *)
Definition or_else (a b : string) : string := if String.eqb a "" then b else a.

(** The document given to [add]; [now] is the server's time. *)
Definition pending_order (req : CheckoutRequest) (items_ : list Item) (now : Z) : Order :=
  {| userUID := user_uid req; userEmail := user_email req;
     userName := or_else (user_name req) (user_email req);
     date := toLocaleDateString env;
     items := order_item <$> items_;
     subtotal := round2 (items_sum items_);
     tps := zero; tvq := zero; taxes := zero; total := zero;
     status := pending; createdAt := now;
     stripeSessionId := None; stripePaymentIntentId := None; paidAt := None |}.

Definition line_item (it : Item) : LineItem :=
  {| li_quantity := it_quantity it; li_currency := "cad";
     li_unit_amount := unit_amount it; li_name := it_name it;
     li_images := if String.eqb (it_image it) "" then [] else [it_image it] |}.

(** [s.replace(/\/$/, '')] *)
Fixpoint strip_final_slash (s : string) : string :=
  match s with
  | EmptyString => EmptyString
  | String c r =>
      if String.eqb r "" && Ascii.eqb c "/" then EmptyString
      else String c (strip_final_slash r)
  end.

Definition request_origin (req : CheckoutRequest) : string :=
  or_else (strip_final_slash (or_else (origin_header req) (referer_header req)))
    "http://localhost:5000".

Definition session_params (req : CheckoutRequest) (items_ : list Item) (k : string)
  : SessionParams :=
  {| sp_mode := "payment"; sp_payment_method_types := ["card"];
     sp_customer_email := user_email req;
     sp_line_items := line_item <$> items_;
     sp_success_url := request_origin req +:+ "/?payment=success&order=" +:+ k;
     sp_cancel_url := request_origin req +:+ "/?payment=cancel";
     sp_metadata_firebaseOrderId := k;
     sp_metadata_userUID := user_uid req |}.

(** [stripe.checkout.sessions.create(params)] *)
Definition checkout_sessions_create (params : SessionParams) : M CreatedSession :=
  fun w =>
    match sessions_create env params with
    | inr s => (Ret s, log (SessionCreateCalled params) w)
    | inl msg => (Throw msg, log (SessionCreateCalled params) w)
    end.

Definition createCheckoutSession_body (req : CheckoutRequest) : M Response :=
  if negb (String.eqb (method req) "POST") then reply (send 405 "Method Not Allowed")
  else
    match cart req with
    | None => reply (json_error 400 "Payload invalide")
    | Some cart_ =>
        if String.eqb (user_uid req) "" || String.eqb (user_email req) ""
        then reply (json_error 400 "Payload invalide")
        else
          items_ ← load_items cart_ [];
          if (length items_ =? 0)%nat then reply (json_error 400 "Panier vide")
          else
            k ← orders_add (pending_order req items_);
            session ← checkout_sessions_create (session_params req items_ k);
            order_update_session k (session_id session);;
            mret {| code := 200; body := JsonUrl (session_url session) |}
    end.

Definition createCheckoutSession (req : CheckoutRequest) (w : World) : Response * World :=
  try_catch (createCheckoutSession_body req)
    (fun msg => json_error 500 ("Erreur serveur: " +:+ msg)) w.

(** ** [stripeWebhook] *)

(** [(x || 0)] on an optional Number. *)
Definition or_zero (x : option number) : number :=
  match x with
  | Some n => if truthy (VNumber n) then n else zero
  | None => zero
  end.

(** The loop over [order.items] that fills the batch with the stock
    decrements. *)
Fixpoint stock_writes (its : list OrderItem) : list Write :=
  match its with
  | [] => []
  | it :: rest =>
      if negb (truthy (VString (productId it))) || negb (truthy (VNumber (qty it)))
      then stock_writes rest
      else IncrementStock (productId it) (neg (qty it)) :: stock_writes rest
  end.

Definition session_total (session : Session) : number :=
  div (or_zero (amount_total session)) hundred.

Definition session_taxes (session : Session) : number :=
  round2 (sub (session_total session) (div (or_zero (amount_subtotal session)) hundred)).

Definition stripeWebhook_body (event : Event) : M Response :=
  if String.eqb (type event) "checkout.session.completed" then
    let session := data_object event in
    let orderId := metadata_firebaseOrderId session in
    if negb (truthy (VString orderId)) then reply (end_ 200)
    else
      snap ← orders_get orderId;
      match snap with
      | None => reply (end_ 200)
      | Some order =>
          batch_commit orderId
            (stock_writes (items order) ++
             [MarkPaid orderId (session_taxes session) (session_total session)
                (payment_intent session)]);;
          mret (end_ 200)
      end
  else mret (end_ 200).

Definition stripeWebhook (req : WebhookRequest) (w : World) : Response * World :=
  match constructEvent env (rawBody req) (stripe_signature req) (WH_SECRET env) with
  | inl msg => (send 400 ("Webhook Error: " +:+ msg), w)
  | inr event =>
      try_catch (stripeWebhook_body event) (fun _ => send 500 "Webhook handling error") w
  end.

End Handlers.

(** ** Notions used to state the properties *)

(** The request is a POST with a cart array [c] and a buyer. *)
Definition well_formed (req : CheckoutRequest) (c : list CartEntry) : Prop :=
  method req = "POST" ∧ cart req = Some c ∧ user_uid req ≠ "" ∧ user_email req ≠ "".

Definition with_cart (c : list CartEntry) (req : CheckoutRequest) : CheckoutRequest :=
  {| method := method req; cart := Some c; user_uid := user_uid req;
     user_email := user_email req; user_name := user_name req;
     origin_header := origin_header req; referer_header := referer_header req |}.

(** The entry passes [if (!i?.id || !i?.quantity) continue]. *)
Definition reaches_lookup (i : CartEntry) : bool :=
  truthy (VString (entry_id i)) && truthy (quantity i).

(** The entry is looked up, its product exists, declares a numeric stock,
    and that stock is below the quantity asked for. *)
Definition short_of_stock (env : Env) (ps : gmap string Product) (i : CartEntry) : bool :=
  reaches_lookup i &&
  match ps !! entry_id i with
  | Some p => stock_below p (effective_quantity env (quantity i))
  | None => false
  end.

(** The entry is left out of the order: it is not looked up, or its
    identifier names no product. *)
Definition dropped (ps : gmap string Product) (i : CartEntry) : bool :=
  negb (reaches_lookup i) || bool_decide (ps !! entry_id i = None).

(** The line items of the entries that are looked up and found. *)
Definition retained (env : Env) (ps : gmap string Product) (c : list CartEntry) : list Item :=
  omap (fun i => if reaches_lookup i then make_item env i <$> ps !! entry_id i else None) c.

(** Two carts that agree on every identifier and quantity. *)
Definition same_ids_quantities (c1 c2 : list CartEntry) : Prop :=
  (fun i => (entry_id i, quantity i)) <$> c1 = (fun i => (entry_id i, quantity i)) <$> c2.

(** The world after a checkout that created order [k] from [its]. *)
Definition order_placed (env : Env) (req : CheckoutRequest) (its : list Item) (k : string)
  (w : World) : World :=
  log (SessionCreateCalled (session_params req its k))
    (log (OrderAdded k)
       (set_orders (<[k := pending_order env req its (clock w)]> (orders w)) w)).

Definition session_linked (env : Env) (req : CheckoutRequest) (its : list Item) (k sid : string)
  (w : World) : World :=
  let w1 := order_placed env req its k w in
  log (OrderUpdated k)
    (set_orders (<[k := with_session sid (pending_order env req its (clock w))]> (orders w1)) w1).

(** The order of effects the specification's summary line gives:
    creation, update, session call. *)
Definition summary_order (l : list Effect) : Prop :=
  ∃ k params, l = [OrderAdded k; OrderUpdated k; SessionCreateCalled params].

(** The line is given a stock decrement by the webhook's loop. *)
Definition counted (it : OrderItem) : bool :=
  truthy (VString (productId it)) && truthy (VNumber (qty it)).

(** Every counted line names a product document that exists. *)
Definition products_exist (ps : gmap string Product) (its : list OrderItem) : bool :=
  forallb (fun it => negb (counted it) || bool_decide (is_Some (ps !! productId it))) its.

(** The [stock] field of product [k] once each counted line on [k] has
    taken its quantity off it, in the order of the lines. *)
Definition stock_after (its : list OrderItem) (k : string) (s : option number) : option number :=
  fold_left
    (fun s it =>
       if counted it && bool_decide (productId it = k)
       then increment (neg (qty it)) s else s)
    its s.

Definition decrement_all (its : list OrderItem) (ps : gmap string Product) : gmap string Product :=
  fold_left
    (fun ps it =>
       if counted it
       then alter (fun p => with_stock (increment (neg (qty it)) (prod_stock p)) p)
              (productId it) ps
       else ps)
    its ps.

(** The world after the batch for [session] and order document [o] is
    committed. *)
Definition settled (session : Session) (o : Order) (w : World) : World :=
  log (BatchCommitted (metadata_firebaseOrderId session))
    (set_store (decrement_all (items o) (products w))
       (<[metadata_firebaseOrderId session :=
            mark_paid (session_taxes session) (session_total session)
              (payment_intent session) (clock w) o]> (orders w))
       w).

(** The amount is omitted from the event, or is a falsy Number. *)
Definition absent_or_falsy (x : option number) : bool :=
  match x with
  | Some n => negb (truthy (VNumber n))
  | None => true
  end.

(** The taxes computed for an event without [amount_total] and with
    [amount_subtotal = z] are below zero. *)
Definition negative_taxes (z : Z) : bool :=
  lt (session_taxes {| metadata_firebaseOrderId := ""; amount_total := None;
                       amount_subtotal := Some (of_Z z); payment_intent := None |})
     zero.

(** The event is one the webhook acts on in world [w]. *)
Definition reconcilable (ev : Event) (w : World) : Prop :=
  type ev = "checkout.session.completed"
  ∧ metadata_firebaseOrderId (data_object ev) ≠ ""
  ∧ is_Some (orders w !! metadata_firebaseOrderId (data_object ev)).

(** The request carries a payload the processor's library accepts as [ev]. *)
Definition verified (env : Env) (req : WebhookRequest) (ev : Event) : Prop :=
  constructEvent env (rawBody req) (stripe_signature req) (WH_SECRET env) = inr ev.

(** The same world at a later (or any other) time of the server. *)
Definition at_time (t : Z) (w : World) : World :=
  {| products := products w; orders := orders w; clock := t; effects := effects w |}.

(** [x] has sign [s] and is infinite, or is finite with a mantissa of at
    most 53 bits and a magnitude of at least [2^(E-1)]. *)
Definition mag (s : bool) (E : Z) (x : number) : Prop :=
  x = S754_infinity s
  ∨ ∃ m e, x = S754_finite s m e ∧ (E <= Zpos (digits2_pos m) + e)%Z
           ∧ (Zpos (digits2_pos m) <= prec)%Z.

(** The mantissa of the normal form of [m * 2^e], for [m] of [d] digits. *)
Definition normal_mantissa (m d : Z) : Z :=
  (m * 2 ^ Z.max 0 (prec - d) / 2 ^ Z.max 0 (d - prec))%Z.

(** The integers a Number holds exactly, whatever their low bits. *)
Definition safe (z : Z) : Prop := (Z.abs z < 2 ^ 53)%Z.

(** The sign bit is clear: a non-negative Number, [+0], [+Infinity] or NaN. *)
Definition nonneg (x : number) : Prop := sign_bit x = false.

(** ** The outcomes of the two handlers, and the life of the store *)

(** The answers and final worlds [createCheckoutSession] can give on
    request [req] in world [w], one constructor for each way out of the
    handler. *)
Inductive checkout_run (env : Env) (req : CheckoutRequest) (w : World)
  : Response * World -> Prop :=
  | run_method :
      method req ≠ "POST" ->
      checkout_run env req w (send 405 "Method Not Allowed", w)
  | run_payload :
      method req = "POST" ->
      cart req = None ∨ user_uid req = "" ∨ user_email req = "" ->
      checkout_run env req w (json_error 400 "Payload invalide", w)
  | run_stock (c : list CartEntry) (i : CartEntry) (p : Product) :
      well_formed req c ->
      find (short_of_stock env (products w)) c = Some i ->
      products w !! entry_id i = Some p ->
      checkout_run env req w (json_error 400 ("Stock insuffisant: " +:+ prod_name p), w)
  | run_empty (c : list CartEntry) :
      well_formed req c ->
      existsb (short_of_stock env (products w)) c = false ->
      retained env (products w) c = [] ->
      checkout_run env req w (json_error 400 "Panier vide", w)
  | run_processor (c : list CartEntry) (msg : string) :
      well_formed req c ->
      existsb (short_of_stock env (products w)) c = false ->
      retained env (products w) c ≠ [] ->
      sessions_create env
        (session_params req (retained env (products w) c) (fresh (dom (orders w))))
      = inl msg ->
      checkout_run env req w
        (json_error 500 ("Erreur serveur: " +:+ msg),
         order_placed env req (retained env (products w) c) (fresh (dom (orders w))) w)
  | run_linked (c : list CartEntry) (s : CreatedSession) :
      well_formed req c ->
      existsb (short_of_stock env (products w)) c = false ->
      retained env (products w) c ≠ [] ->
      sessions_create env
        (session_params req (retained env (products w) c) (fresh (dom (orders w))))
      = inr s ->
      checkout_run env req w
        ({| code := 200; body := JsonUrl (session_url s) |},
         session_linked env req (retained env (products w) c) (fresh (dom (orders w)))
           (session_id s) w).

(** The same for [stripeWebhook]. *)
Inductive webhook_run (env : Env) (req : WebhookRequest) (w : World)
  : Response * World -> Prop :=
  | run_rejected (msg : string) :
      constructEvent env (rawBody req) (stripe_signature req) (WH_SECRET env) = inl msg ->
      webhook_run env req w (send 400 ("Webhook Error: " +:+ msg), w)
  | run_ignored (ev : Event) :
      verified env req ev -> ¬ reconcilable ev w ->
      webhook_run env req w (end_ 200, w)
  | run_refused (ev : Event) (o : Order) :
      verified env req ev -> reconcilable ev w ->
      orders w !! metadata_firebaseOrderId (data_object ev) = Some o ->
      products_exist (products w) (items o) = false ->
      webhook_run env req w (send 500 "Webhook handling error", w)
  | run_settled (ev : Event) (o : Order) :
      verified env req ev -> reconcilable ev w ->
      orders w !! metadata_firebaseOrderId (data_object ev) = Some o ->
      products_exist (products w) (items o) = true ->
      webhook_run env req w (end_ 200, settled (data_object ev) o w).

(** One thing that happens to the store: a call of either handler, by
    any caller and with any processor, or time passing. *)
Inductive step : World -> World -> Prop :=
  | step_checkout (env : Env) (req : CheckoutRequest) (w : World) :
      step w (createCheckoutSession env req w).2
  | step_webhook (env : Env) (req : WebhookRequest) (w : World) :
      step w (stripeWebhook env req w).2
  | step_clock (t : Z) (w : World) :
      step w (at_time t w).

(** What a handler never changes in an order document. *)
Definition order_identity (o : Order)
  : string * string * string * string * list OrderItem * number * Z * option string :=
  (userUID o, userEmail o, userName o, date o, items o, subtotal o, createdAt o,
   stripeSessionId o).

(** What a handler never changes in a product document. *)
Definition product_identity (p : Product) : string * number * string :=
  (prod_name p, prod_price p, prod_image p).

(** What the loop has checked of a line it keeps. *)
Definition checked_line (ps : gmap string Product) (it : OrderItem) : Prop :=
  ∃ p, productId it ≠ "" ∧ ps !! productId it = Some p
       ∧ item_name it = prod_name p
       ∧ price it = div (unit_cents p) hundred
       ∧ stock_below p (qty it) = false
       ∧ lt (qty it) one = false ∧ is_zero (qty it) = false.

(** An entry whose identifier names a product with a whole stock [a],
    and whose quantity is the whole Number [k]. *)
Definition integral_entry (ps : gmap string Product) (i : CartEntry) (k a : Z) : Prop :=
  entry_id i ≠ "" ∧ quantity i = VNumber (of_Z k) ∧ k ≠ 0%Z ∧ safe k ∧ safe a
  ∧ ∃ p, ps !! entry_id i = Some p ∧ prod_stock p = Some (of_Z a).

(** ** Values and amounts in cents *)

(** A line item of [u] cents taken [q] times. *)
Definition whole_line (it : Item) (l : Z * Z) : Prop :=
  unit_amount it = of_Z l.1 ∧ it_quantity it = of_Z l.2
  ∧ (0 <= l.1)%Z ∧ (1 <= l.2 < 2 ^ 53)%Z.

(** The cents such lines add up to. *)
Definition total_cents (lines : list (Z * Z)) : Z :=
  foldr (fun l acc => (l.1 * l.2 + acc)%Z) 0%Z lines.


(** [2^-52], the relative distance between a Number and the next. *)
Definition ulp_ratio : Q := 1 # 4503599627370496.

(** The value of a finite Number of mantissa [m] and exponent [e]. *)
Definition dyadic (m e : Z) : Q := (inject_Z m * 2 ^ e)%Q.

(** The value of a Number that has one. *)
Definition val (x : number) : Q :=
  match x with
  | S754_finite s m e => dyadic (cond_Zopp s (Zpos m)) e
  | _ => 0
  end.

(** Its exponent. *)
Definition expo (x : number) : Z :=
  match x with
  | S754_finite _ _ e => e
  | _ => 0
  end.

(** A positive Number in normal form: the mantissa has 53 bits. *)
Definition pnormal (x : number) : Prop :=
  match x with
  | S754_finite false m _ => (2 ^ 52 <= Zpos m < 2 ^ 53)%Z
  | _ => False
  end.

(** The running sum [s] stands for [S] cents, up to [d]. *)
Definition tracks (s : number) (S : Z) (d : Q) : Prop :=
  (S = 0%Z ∧ s = zero)
  ∨ ((1 <= S)%Z ∧ pnormal s
     ∧ (inject_Z S * (1 # 100) - d <= val s)%Q ∧ (val s <= inject_Z S * (1 # 100) + d)%Q).

(** What one more line adds to the distance, for sums of at most [B] cents. *)
Definition line_error (B : Z) : Q :=
  ((inject_Z B * (1 # 100) + 1) * (4 # 4503599627370496))%Q.

(** [r] is [t] rounded: within one part in [2^52] of it. *)
Definition near (r : number) (t : Q) : Prop :=
  pnormal r ∧ (t * (1 - ulp_ratio) <= val r)%Q ∧ (val r <= t * (1 + ulp_ratio))%Q.

(** An entry of whole quantity on a product priced in whole cents: [l]
    is the price in cents and the quantity the order takes. *)
Definition priced_entry (ps : gmap string Product) (i : CartEntry) (l : Z * Z) : Prop :=
  entry_id i ≠ ""
  ∧ ∃ k p, quantity i = VNumber (of_Z k) ∧ k ≠ 0%Z ∧ safe k
           ∧ ps !! entry_id i = Some p ∧ prod_price p = dec l.1 2
           ∧ (0 <= l.1 <= 2 ^ 46)%Z ∧ l.2 = Z.max 1 k.

(** ** A test double of the environment, and the example of the specification *)

Module Example.

Local Open Scope Z_scope.

(** A processor that accepts exactly the signature ["good"], decodes
    every accepted payload as [ev], and opens a session for every
    request. *)
Definition test_env (ev : Event) : Env :=
  {| constructEvent := fun _ sig _ =>
       match sig with
       | Some "good"%string => inr ev
       | _ => inl "No signatures found matching the expected signature for payload"%string
       end;
     sessions_create := fun params =>
       inr {| session_id := "cs_test_" +:+ sp_metadata_firebaseOrderId params;
              session_url := "https://checkout.stripe.com/c/pay/cs_test_"
                             +:+ sp_metadata_firebaseOrderId params |};
     WH_SECRET := "whsec_test";
     toLocaleDateString := "2024-01-15";
     lead_digit := fun _ => 1 |}.

Definition p1 : Product :=
  {| prod_name := "Widget"; prod_price := dec 999 2; prod_stock := Some (of_Z 5);
     prod_image := "" |}.

Definition world0 : World :=
  {| products := {[ "p1"%string := p1 ]}; orders := ∅; clock := 1000; effects := [] |}.

Definition entry (k : string) (q : value) : CartEntry :=
  {| entry_id := k; quantity := q; others := [] |}.

Definition checkout (c : list CartEntry) : CheckoutRequest :=
  {| method := "POST"; cart := Some c; user_uid := "u1";
     user_email := "ana@example.org"; user_name := "";
     origin_header := "https://shop.example/"; referer_header := "" |}.

Definition completed (k : string) (tot sub_ : option number) : Event :=
  {| type := "checkout.session.completed";
     data_object := {| metadata_firebaseOrderId := k; amount_total := tot;
                       amount_subtotal := sub_; payment_intent := Some "pi_1"%string |} |}.

Definition signed : WebhookRequest := {| rawBody := "{}"; stripe_signature := Some "good"%string |}.

Definition unsigned : WebhookRequest := {| rawBody := "{}"; stripe_signature := Some "bad"%string |}.

(** The cart of the example, and the line it gives in the order. *)
Definition cart1 : list CartEntry := [entry "p1" (VNumber (of_Z 2))].

Definition line1 : OrderItem :=
  {| productId := "p1"; item_name := "Widget"; qty := of_Z 2; price := dec 999 2 |}.

(** The event of the example: [amount_total = 2258], [amount_subtotal = 1998]. *)
Definition ev1 : Event := completed "0" (Some (of_Z 2258)) (Some (of_Z 1998)).

Definition env1 : Env := test_env ev1.

(** The cart of the example, checked out and then paid. *)
Definition after_checkout : Response * World :=
  createCheckoutSession env1 (checkout cart1) world0.

Definition after_payment : Response * World :=
  stripeWebhook env1 signed after_checkout.2.

(** The order document the checkout of the example leaves in the store. *)
Definition order0 : Order :=
  with_session "cs_test_0"
    (pending_order env1 (checkout cart1) (retained env1 (products world0) cart1) 1000).

(** The world after that checkout, once the product document has been
    deleted from the store. *)
Definition product_deleted : World :=
  set_store ∅ (orders after_checkout.2) after_checkout.2.

(** The same delivery a second time, one hour later. *)
Definition after_replay : Response * World :=
  stripeWebhook env1 signed (at_time 4600 after_payment.2).

(** An event that carries no amounts, and one that lacks the total only. *)
Definition ev_no_amounts : Event := completed "0" None None.

Definition ev_no_total : Event := completed "0" None (Some (of_Z 1998)).

(** An event for an order that does not exist, and one of another type. *)
Definition ev_unknown_order : Event := completed "nope" (Some (of_Z 2258)) (Some (of_Z 1998)).

Definition ev_other_type : Event :=
  {| type := "payment_intent.created"; data_object := data_object ev1 |}.

(** Three units in stock, and two buyers who each check out two. *)
Definition p1_three : Product :=
  {| prod_name := "Widget"; prod_price := dec 999 2; prod_stock := Some (of_Z 3);
     prod_image := "" |}.

Definition world_three : World :=
  {| products := {[ "p1"%string := p1_three ]}; orders := ∅; clock := 1000; effects := [] |}.

Definition two_checkouts : Response * World :=
  createCheckoutSession env1 (checkout cart1)
    (createCheckoutSession env1 (checkout cart1) world_three).2.

Definition ev2 : Event := completed "1" (Some (of_Z 2258)) (Some (of_Z 1998)).

Definition both_paid : Response * World :=
  stripeWebhook (test_env ev2) signed (stripeWebhook env1 signed two_checkouts.2).2.

End Example.
Import Example.

(** ** Further scenarios for the test double *)

(** The request of the example sent with another method. *)
Definition get_request : CheckoutRequest :=
  {| method := "GET"; cart := Some cart1; user_uid := "u1";
     user_email := "ana@example.org"; user_name := "";
     origin_header := "https://shop.example/"; referer_header := "" |}.

(** A processor whose session call throws. *)
Definition failing_env : Env :=
  {| constructEvent := constructEvent env1;
     sessions_create := fun _ => inl "api_connection_error"%string;
     WH_SECRET := WH_SECRET env1;
     toLocaleDateString := toLocaleDateString env1;
     lead_digit := lead_digit env1 |}.

Definition failed_checkout : Response * World :=
  createCheckoutSession failing_env (checkout cart1) world0.

(** A product whose document has no [stock] field, bought once. *)
Definition p2 : Product :=
  {| prod_name := "Gift card"; prod_price := dec 2500 2; prod_stock := None;
     prod_image := "https://shop.example/gift.png" |}.

Definition world_untracked : World :=
  {| products := {[ "p2"%string := p2 ]}; orders := ∅; clock := 1000; effects := [] |}.

Definition cart2 : list CartEntry := [entry "p2" (VNumber (of_Z 1))].

Definition untracked_checkout : Response * World :=
  createCheckoutSession env1 (checkout cart2) world_untracked.

Definition untracked_sold : Response * World :=
  stripeWebhook env1 signed untracked_checkout.2.

(** The order and the line that checkout leaves in the store. *)
Definition order2 : Order :=
  with_session "cs_test_0"
    (pending_order env1 (checkout cart2) (retained env1 (products world_untracked) cart2) 1000).

Definition line2 : OrderItem :=
  {| productId := "p2"; item_name := "Gift card"; qty := of_Z 1; price := dec 2500 2 |}.

(** The difference of the two amounts of the example, before [round2]. *)
Definition raw_taxes : number := sub (dec 2258 2) (dec 1998 2).

(** * Properties *)

(** ** Numbers *)

Lemma one_value : one = S754_finite false 4503599627370496 (-52).
Proof. reflexivity. Qed.

Lemma hundred_value : hundred = S754_finite false 7036874417766400 (-46).
Proof. reflexivity. Qed.

(** [Number.EPSILON] is the gap between 1 and the next Number. *)
Lemma Number_EPSILON_value : Number_EPSILON = SFldexp prec emax one (-52).
Proof. reflexivity. Qed.

(** The literals of the language, read back. *)
Example Math_round_ties :
  Math_round (dec 25 1) = of_Z 3 ∧ Math_round (dec (-25) 1) = of_Z (-2)
  ∧ Math_round (dec (-5) 1) = S754_zero true
  ∧ Math_round (S754_finite false 9007199254740991 (-54)) = zero
  ∧ round_half_away (dec (-25) 1) = of_Z (-3).
Proof. repeat split. Qed.

(** The nudge by [Number.EPSILON] takes 1.005, which lies just below the
    half cent as a Number, up to 1.01. *)
Example round2_values :
  round2 (dec 1005 3) = dec 101 2
  ∧ div (Math_round (mul (dec 1005 3) hundred)) hundred = one
  ∧ round2 (sub (dec 2258 2) (dec 1998 2)) = dec 26 1
  ∧ round2 NaN = NaN.
Proof. repeat split. Qed.

Example parseInt_string_values :
  parseInt_string "  42px" = of_Z 42 ∧ parseInt_string "-3" = of_Z (-3)
  ∧ parseInt_string "+7.9" = of_Z 7 ∧ parseInt_string "0" = zero
  ∧ parseInt_string "-0" = S754_zero true ∧ parseInt_string "0x1A" = zero
  ∧ parseInt_string "abc" = NaN ∧ parseInt_string "" = NaN.
Proof. repeat split. Qed.

Example parseInt_number_values (lead : number -> Z) :
  parseInt_number lead (of_Z 2) = of_Z 2 ∧ parseInt_number lead (dec 27 1) = of_Z 2
  ∧ parseInt_number lead (dec (-5) 1) = S754_zero true
  ∧ parseInt_number lead (of_Z (10 ^ 20)) = of_Z (10 ^ 20)
  ∧ parseInt_number lead (S754_infinity false) = NaN.
Proof. repeat split. Qed.

Example Math_max_values :
  Math_max one (of_Z (-3)) = one ∧ Math_max one (of_Z 7) = of_Z 7
  ∧ Math_max one zero = one ∧ Math_max one NaN = NaN.
Proof. repeat split. Qed.

Lemma nonneg_round_aux (m e : Z) (l : location) :
  nonneg (binary_round_aux prec emax false m e l).
Proof.
  unfold nonneg, binary_round_aux.
  destruct (shr_fexp prec emax m e l) as [mrs e1].
  destruct (shr_fexp prec emax _ e1 loc_Exact) as [mrs2 e2].
  destruct (shr_m mrs2); [reflexivity| |reflexivity].
  destruct (Z.leb e2 _); reflexivity.
Qed.

Lemma nonneg_round (m : positive) (e : Z) : nonneg (binary_round prec emax false m e).
Proof.
  unfold binary_round. destruct (shl_align _ _ _) as [mz ez]. apply nonneg_round_aux.
Qed.

Lemma nonneg_of_Z (z : Z) : (0 <= z)%Z -> nonneg (of_Z z).
Proof.
  intros H. unfold of_Z, binary_normalize.
  destruct z as [|q|q]; [reflexivity|apply nonneg_round|lia].
Qed.

Lemma nonneg_mul (a b : number) : nonneg a -> nonneg b -> nonneg (mul a b).
Proof.
  unfold nonneg. destruct a as [sa|sa| |sa ma ea], b as [sb|sb| |sb mb eb];
    cbn; intros Ha Hb; subst; try reflexivity.
  apply nonneg_round_aux.
Qed.

Lemma nonneg_div (a b : number) : nonneg a -> nonneg b -> nonneg (div a b).
Proof.
  unfold nonneg. destruct a as [sa|sa| |sa ma ea], b as [sb|sb| |sb mb eb];
    cbn -[SFdiv_core_binary]; intros Ha Hb; subst; try reflexivity.
  destruct (SFdiv_core_binary _ _ _ _ _ _) as [[mz ez] lz]. apply nonneg_round_aux.
Qed.

Lemma nonneg_add (a b : number) : nonneg a -> nonneg b -> nonneg (add a b).
Proof.
  unfold nonneg. destruct a as [sa|sa| |sa ma ea], b as [sb|sb| |sb mb eb];
    cbn -[shl_align binary_normalize]; intros Ha Hb; subst; try reflexivity.
  cbn -[shl_align binary_round]. apply nonneg_round.
Qed.

Lemma nonneg_Math_round (x : number) : nonneg x -> nonneg (Math_round x).
Proof.
  unfold nonneg. destruct x as [s|s| |s m e]; try done.
  cbn [sign_bit]. intros ->. unfold Math_round.
  destruct (Z.leb_spec 0 e) as [He|He]; [reflexivity|].
  cbv zeta. destruct (_ =? 0)%Z; [reflexivity|].
  apply nonneg_of_Z. cbn [cond_Zopp].
  assert (0 < 2 ^ (- e))%Z by (apply Z.pow_pos_nonneg; lia).
  apply Z.div_pos; lia.
Qed.

Lemma nonneg_parseFloat (x : number) : nonneg x -> nonneg (parseFloat x).
Proof. unfold nonneg. by destruct x. Qed.

(** Whatever is parsed, the clamped quantity has a clear sign bit. *)
Lemma nonneg_Math_max_one (n : number) : nonneg (Math_max one n).
Proof.
  unfold nonneg, Math_max.
  change one with (S754_finite false 4503599627370496 (-52)).
  destruct n as [s|s| |s m e]; cbn [SFcompare].
  - by destruct s.
  - by destruct s.
  - reflexivity.
  - destruct s; [reflexivity|].
    destruct (Z.compare _ e); [|reflexivity..].
    destruct (Pos.compare_cont _ _ _); reflexivity.
Qed.

(** On a Number with a clear sign bit, a tie towards +infinity is a tie
    away from zero. *)
Lemma Math_round_half_away (x : number) : nonneg x -> Math_round x = round_half_away x.
Proof.
  unfold nonneg. destruct x as [s|s| |s m e]; try reflexivity.
  cbn [sign_bit]. intros ->. reflexivity.
Qed.

Lemma round2_half_away_nonneg (n : number) : nonneg n -> round2 n = round2_half_away n.
Proof.
  intros H. unfold round2, round2_half_away.
  rewrite Math_round_half_away; [reflexivity|].
  apply nonneg_mul; [apply nonneg_add|]; done.
Qed.

(** ** Magnitudes, and the Numbers that are integers *)

Section Magnitude.

Local Open Scope Z_scope.

Lemma digits2_size (p : positive) : digits2_pos p = Pos.size p.
Proof. induction p; cbn; congruence. Qed.

Lemma Zdigits2_log2 (m : Z) : 0 < m -> Zdigits2 m = Z.log2 m + 1.
Proof.
  destruct m as [|p|p]; try lia. intros _. cbn [Zdigits2].
  rewrite digits2_size. destruct p; cbn; lia.
Qed.

Lemma shr_1_m (r : shr_record) : 0 <= shr_m r -> shr_m (shr_1 r) = shr_m r / 2.
Proof.
  destruct r as [m a b]. cbn [shr_m]. intros H.
  destruct m as [|[p|p|]|p]; try lia; cbn [shr_1 shr_m].
  - reflexivity.
  - apply Z.div_unique with 1; [lia|]. rewrite Pos2Z.inj_xI. lia.
  - apply Z.div_unique with 0; [lia|]. rewrite Pos2Z.inj_xO. lia.
  - reflexivity.
Qed.

Lemma iter_shr_m (p : positive) (r : shr_record) :
  0 <= shr_m r -> shr_m (SpecFloat.iter_pos shr_1 p r) = shr_m r / 2 ^ Zpos p.
Proof.
  revert r. induction p as [p IH|p IH|]; intros r H; cbn [SpecFloat.iter_pos].
  - assert (H1 : 0 <= shr_m (shr_1 r)) by (rewrite shr_1_m by done; apply Z.div_pos; lia).
    assert (H2 : 0 <= shr_m (SpecFloat.iter_pos shr_1 p (shr_1 r)))
      by (rewrite IH by done; apply Z.div_pos; lia).
    rewrite IH, IH, shr_1_m by done.
    rewrite !Z.div_div by lia. f_equal.
    replace (Z.pos p~1) with (1 + Z.pos p + Z.pos p) by lia.
    rewrite !Z.pow_add_r by lia. change (2 ^ 1) with 2. ring.
  - assert (H2 : 0 <= shr_m (SpecFloat.iter_pos shr_1 p r))
      by (rewrite IH by done; apply Z.div_pos; lia).
    rewrite IH, IH by done. rewrite Z.div_div by lia. f_equal.
    replace (Z.pos p~0) with (Z.pos p + Z.pos p) by lia.
    rewrite !Z.pow_add_r by lia. ring.
  - rewrite shr_1_m by done. reflexivity.
Qed.

Lemma Zdigits2_shiftr (m n : Z) :
  0 < m -> 0 <= n < Zdigits2 m ->
  0 < m / 2 ^ n ∧ Zdigits2 (m / 2 ^ n) = Zdigits2 m - n.
Proof.
  intros Hm Hn. rewrite (Zdigits2_log2 m Hm) in Hn.
  assert (Hpos : 0 < m / 2 ^ n).
  { apply Z.div_str_pos. split; [apply Z.pow_pos_nonneg; lia|].
    transitivity (2 ^ Z.log2 m); [apply Z.pow_le_mono_r; lia|].
    apply Z.log2_spec. lia. }
  split; [done|]. rewrite !Zdigits2_log2 by done.
  rewrite <- Z.shiftr_div_pow2 by lia. rewrite Z.log2_shiftr by done. lia.
Qed.

(** Rounding a positive mantissa in the normal range keeps the sum of
    the number of digits and the exponent, or bumps it by one. *)
Lemma shr_fexp_normal (m e : Z) (l : location) :
  0 < m -> emin prec emax + prec <= Zdigits2 m + e ->
  0 < shr_m (shr_fexp prec emax m e l).1
  ∧ Zdigits2 (shr_m (shr_fexp prec emax m e l).1) + (shr_fexp prec emax m e l).2
    = Zdigits2 m + e
  ∧ Zdigits2 (shr_m (shr_fexp prec emax m e l).1) <= prec.
Proof.
  intros Hm Hn. unfold shr_fexp, shr, fexp.
  rewrite Z.max_l by lia.
  assert (Hrec : shr_m (shr_record_of_loc m l) = m) by by destruct l as [|[]].
  destruct (Zdigits2 m + e - prec - e) as [|p|p] eqn:Hp; cbn [fst snd]; rewrite ?Hrec.
  - split; [done|]. split; lia.
  - rewrite iter_shr_m by lia. rewrite Hrec.
    destruct (Zdigits2_shiftr m (Zpos p) Hm) as [H1 H2]; [unfold prec in *; lia|].
    split; [done|]. rewrite H2. unfold prec in *. split; lia.
  - split; [done|]. split; lia.
Qed.

Lemma Zdigits2_succ (m : Z) : 0 < m -> Zdigits2 m <= Zdigits2 (m + 1) <= Zdigits2 m + 1.
Proof.
  intros Hm. rewrite !Zdigits2_log2 by lia.
  pose proof (Z.log2_le_mono m (m + 1)). pose proof (Z.log2_succ_le m).
  unfold Z.succ in *. lia.
Qed.

Lemma round_nearest_even_range (m : Z) (l : location) :
  round_nearest_even m l = m ∨ round_nearest_even m l = m + 1.
Proof. destruct l as [|[]]; cbn; try tauto. destruct (Z.even m); tauto. Qed.

Lemma mag_round_aux (s : bool) (mx ex : Z) (l : location) (E : Z) :
  0 < mx -> emin prec emax + prec <= E -> E <= Zdigits2 mx + ex ->
  mag s E (binary_round_aux prec emax s mx ex l).
Proof.
  intros Hm HE Hd. unfold binary_round_aux.
  destruct (shr_fexp_normal mx ex l Hm ltac:(lia)) as (H1 & H2 & _).
  destruct (shr_fexp prec emax mx ex l) as [mrs e1]. cbn [fst snd] in H1, H2.
  set (m2 := round_nearest_even (shr_m mrs) (loc_of_shr_record mrs)).
  assert (Hm2 : 0 < m2 ∧ Zdigits2 (shr_m mrs) <= Zdigits2 m2).
  { unfold m2. destruct (round_nearest_even_range (shr_m mrs) (loc_of_shr_record mrs)) as [->| ->].
    - lia.
    - pose proof (Zdigits2_succ _ H1). lia. }
  destruct Hm2 as [Hm2 Hd2].
  destruct (shr_fexp_normal m2 e1 loc_Exact Hm2 ltac:(lia)) as (H3 & H4 & H5).
  destruct (shr_fexp prec emax m2 e1 loc_Exact) as [mrs2 e2]. cbn [fst snd] in H3, H4, H5.
  destruct (shr_m mrs2) as [|m3|m3] eqn:E3; try lia.
  destruct (e2 <=? emax - prec); [|by left].
  right. exists m3, e2. split; [done|]. cbn [Zdigits2] in H4, H5. lia.
Qed.

Lemma digits2_iter_xO (m d : positive) :
  Zpos (digits2_pos (Pos.iter xO m d)) = Zpos (digits2_pos m) + Zpos d.
Proof.
  induction d as [|d IH] using Pos.peano_ind.
  - cbn. lia.
  - rewrite Pos.iter_succ. cbn [digits2_pos]. lia.
Qed.

Lemma iter_xO_value (m d : positive) : Zpos (Pos.iter xO m d) = Zpos m * 2 ^ Zpos d.
Proof.
  induction d as [|d IH] using Pos.peano_ind.
  - cbn. lia.
  - rewrite Pos.iter_succ, Pos2Z.inj_xO, IH, Pos2Z.inj_succ, Z.pow_succ_r by lia. ring.
Qed.

(** Aligning a mantissa on a smaller exponent multiplies it by a power
    of two. *)
Lemma shl_align_value (m : positive) (e e' : Z) :
  e' <= e ->
  Zpos (shl_align m e e').1 = Zpos m * 2 ^ (e - e') ∧ (shl_align m e e').2 = e'.
Proof.
  intros H. unfold shl_align.
  destruct (e' - e) as [|d|d] eqn:Hd; cbn [fst snd]; try lia.
  - replace (e - e') with 0 by lia. split; lia.
  - rewrite iter_xO_value. replace (e - e') with (Zpos d) by lia. done.
Qed.

Lemma shl_align_digits (m : positive) (e e' : Z) :
  Zpos (digits2_pos (shl_align m e e').1) + (shl_align m e e').2
  = Zpos (digits2_pos m) + e.
Proof.
  unfold shl_align. destruct (e' - e) as [|d|d] eqn:Hd; cbn [fst snd]; try done.
  rewrite digits2_iter_xO. lia.
Qed.

Lemma mag_round (s : bool) (m : positive) (e E : Z) :
  emin prec emax + prec <= E -> E <= Zpos (digits2_pos m) + e ->
  mag s E (binary_round prec emax s m e).
Proof.
  intros HE Hd. unfold binary_round.
  pose proof (shl_align_digits m e (fexp prec emax (Zpos (digits2_pos m) + e))) as Hal.
  destruct (shl_align m e _) as [mz ez]. cbn [fst snd] in Hal.
  apply mag_round_aux; [lia|done|]. cbn [Zdigits2]. lia.
Qed.

Lemma mag_of_Z (z E : Z) :
  0 < z -> emin prec emax + prec <= E -> E <= Zdigits2 z -> mag false E (of_Z z).
Proof.
  intros Hz HE Hd. destruct z as [|p|p]; try lia.
  unfold of_Z, binary_normalize. apply mag_round; [done|]. cbn [Zdigits2] in Hd. lia.
Qed.

Lemma Zdigits2_lower (m : Z) : 0 < m -> 2 ^ (Zdigits2 m - 1) <= m < 2 ^ Zdigits2 m.
Proof.
  intros Hm. rewrite Zdigits2_log2 by done.
  replace (Z.log2 m + 1 - 1) with (Z.log2 m) by lia.
  pose proof (Z.log2_spec m Hm). unfold Z.succ in *. lia.
Qed.

Lemma Zdigits2_ge (m k : Z) : 0 <= k -> 2 ^ k <= m -> k + 1 <= Zdigits2 m.
Proof.
  intros Hk H. assert (0 < m) by (pose proof (Z.pow_pos_nonneg 2 k); lia).
  rewrite Zdigits2_log2 by done.
  apply Z.log2_le_pow2 in H; lia.
Qed.

Lemma mag_div_hundred (s : bool) (E : Z) (x : number) :
  emin prec emax + prec <= E - 7 -> mag s E x -> mag s (E - 7) (div x hundred).
Proof.
  intros HE [->|(m & e & -> & Hd)].
  - left. by destruct s.
  - unfold div. rewrite hundred_value. cbn [SFdiv].
    replace (xorb s false) with s by by destruct s.
    unfold SFdiv_core_binary.
    set (d1 := Zdigits2 (Zpos m)). set (d2 := Zdigits2 7036874417766400).
    assert (Hd2 : d2 = 53) by reflexivity.
    assert (Hd1 : d1 = Zpos (digits2_pos m)) by reflexivity.
    set (e' := Z.min (fexp prec emax (d1 + e - (d2 + -46))) (e - -46)).
    set (sh := e - -46 - e').
    assert (Hfexp : fexp prec emax (d1 + e - (d2 + -46)) = d1 + e - (d2 + -46) - prec).
    { unfold fexp. apply Z.max_l. unfold prec, emin, emax in *. lia. }
    assert (Hsh : 0 <= sh ∧ prec - d1 + d2 <= sh) by (unfold sh, e'; lia).
    set (m' := match sh with Zpos _ => Z.shiftl (Zpos m) sh | Z0 => Zpos m | Zneg _ => 0 end).
    assert (Hm' : m' = Zpos m * 2 ^ sh).
    { unfold m'. destruct sh as [|p|p] eqn:Hp; try lia.
      by rewrite Z.shiftl_mul_pow2. }
    pose proof (Z_div_mod m' 7036874417766400 ltac:(lia)) as Hdiv.
    destruct (Z.div_eucl m' 7036874417766400) as [q r].
    destruct Hdiv as [Hq Hr].
    assert (Hlow : 2 ^ (d1 + sh - 1 - d2) <= q).
    { pose proof (Zdigits2_lower (Zpos m) ltac:(lia)) as [Hl _]. fold d1 in Hl.
      assert (Hpow : 2 ^ (d1 - 1) * 2 ^ sh = 2 ^ (d1 + sh - 1 - d2) * 2 ^ d2).
      { rewrite <- !Z.pow_add_r by (unfold prec in *; lia). f_equal. lia. }
      assert (H2 : 7036874417766400 < 2 ^ d2) by (rewrite Hd2; reflexivity).
      assert (0 < 2 ^ (d1 + sh - 1 - d2)) by (apply Z.pow_pos_nonneg; unfold prec in *; lia).
      assert (0 < 2 ^ sh) by (apply Z.pow_pos_nonneg; lia).
      nia. }
    apply mag_round_aux.
    + assert (0 < 2 ^ (d1 + sh - 1 - d2)) by (apply Z.pow_pos_nonneg; unfold prec in *; lia).
      lia.
    + done.
    + apply Zdigits2_ge in Hlow; [|unfold prec in *; lia].
      unfold sh in *. unfold prec in *. lia.
Qed.

Lemma mag_mul_hundred (s : bool) (E : Z) (x : number) :
  emin prec emax + prec <= E + 6 -> mag s E x -> mag s (E + 6) (mul x hundred).
Proof.
  intros HE [->|(m & e & -> & Hd)].
  - left. by destruct s.
  - unfold mul. rewrite hundred_value. cbn [SFmul].
    replace (xorb s false) with s by by destruct s.
    apply mag_round_aux; [lia|done|].
    rewrite Pos2Z.inj_mul, !Zdigits2_log2 by lia.
    pose proof (Z.log2_mul_below (Zpos m) 7036874417766400 ltac:(lia) ltac:(lia)) as Hlog.
    change (Z.log2 7036874417766400) with 52 in Hlog.
    pose proof (Zdigits2_log2 (Zpos m) ltac:(lia)) as Hm. cbn [Zdigits2] in Hm. lia.
Qed.

(** [0 - x] for a positive [x]. *)
Lemma mag_sub_zero (E : Z) (x : number) : mag false E x -> mag true E (sub zero x).
Proof.
  intros [->|(m & e & -> & Hd)]; [by left|].
  right. by exists m, e.
Qed.

Lemma mag_add_epsilon (E : Z) (x : number) :
  emin prec emax + prec <= E - 1 -> -49 <= E ->
  mag true E x -> mag true (E - 1) (add x Number_EPSILON).
Proof.
  intros HE HE' [->|(m & e & -> & Hd)]; [by left|].
  unfold add, Number_EPSILON. cbn [SFadd cond_Zopp].
  set (ez := Z.min e (-104)).
  destruct (shl_align_value m e ez ltac:(lia)) as [Ha _].
  destruct (shl_align_value 4503599627370496 (-104) ez ltac:(lia)) as [Hb _].
  set (Ma := Zpos (shl_align m e ez).1) in *.
  set (Me := Zpos (shl_align 4503599627370496 (-104) ez).1) in *.
  assert (Hpa : 0 < 2 ^ (e - ez)) by (apply Z.pow_pos_nonneg; lia).
  assert (Hpb : 0 < 2 ^ (-104 - ez)) by (apply Z.pow_pos_nonneg; lia).
  assert (Hda : Zdigits2 Ma = Zpos (digits2_pos m) + (e - ez)).
  { rewrite Ha, Zdigits2_log2, Z.log2_mul_pow2 by lia.
    pose proof (Zdigits2_log2 (Zpos m) ltac:(lia)) as Hm. cbn [Zdigits2] in Hm. lia. }
  assert (Hdb : Me < 2 ^ (Zdigits2 Ma - 2)).
  { rewrite Hb. change 4503599627370496 with (2 ^ 52).
    rewrite <- Z.pow_add_r by lia. apply Z.pow_lt_mono_r; lia. }
  pose proof (Zdigits2_lower Ma ltac:(lia)) as [Hla _].
  assert (Hsplit : 2 ^ (Zdigits2 Ma - 1) = 2 * 2 ^ (Zdigits2 Ma - 2)).
  { rewrite <- Z.pow_succ_r by lia. f_equal. lia. }
  assert (Hdiff : 2 ^ (Zdigits2 Ma - 2) <= Ma - Me) by lia.
  assert (0 < 2 ^ (Zdigits2 Ma - 2)) by (apply Z.pow_pos_nonneg; lia).
  destruct (- Ma + Me) as [|p|p] eqn:Hp; try lia.
  unfold binary_normalize. apply mag_round; [done|].
  assert (Hpv : Zpos p = Ma - Me) by lia.
  apply Zdigits2_ge in Hdiff; [|lia]. rewrite <- Hpv in Hdiff. cbn [Zdigits2] in Hdiff.
  lia.
Qed.

Lemma mag_Math_round (E : Z) (x : number) :
  1 <= E -> mag true E x -> mag true 1 (Math_round x).
Proof.
  intros HE [->|(m & e & -> & Hd)]; [by left|].
  unfold Math_round. destruct (Z.leb_spec 0 e) as [He|He].
  - right. exists m, e. split; [done|lia].
  - cbv zeta. cbn [cond_Zopp].
    assert (Hd' : 0 < 2 ^ (- e)) by (apply Z.pow_pos_nonneg; lia).
    pose proof (Zdigits2_lower (Zpos m) ltac:(lia)) as [Hl _]. cbn [Zdigits2] in Hl.
    assert (Hm : 2 ^ (- e) <= Zpos m).
    { etransitivity; [|exact Hl]. apply Z.pow_le_mono_r; lia. }
    assert (Hk : (2 * - Zpos m + 2 ^ (- e)) / (2 * 2 ^ (- e)) <= -1).
    { apply Z.lt_succ_r. apply Z.div_lt_upper_bound; lia. }
    destruct ((2 * - Zpos m + 2 ^ (- e)) / (2 * 2 ^ (- e))) as [|k|k] eqn:Ek; try lia.
    cbn [Z.eqb]. unfold of_Z, binary_normalize.
    apply mag_round; [unfold emin, prec, emax; lia|]. lia.
Qed.

Lemma mag_of_Z_neg (z E : Z) :
  z < 0 -> emin prec emax + prec <= E -> E <= Zdigits2 z -> mag true E (of_Z z).
Proof.
  intros Hz HE Hd. destruct z as [|p|p]; try lia.
  unfold of_Z, binary_normalize. apply mag_round; [done|]. cbn [Zdigits2] in Hd. lia.
Qed.

(** A Number of magnitude at least 2 is above 1. *)
Lemma mag_above_one (x : number) : mag false 2 x -> lt one x = true.
Proof.
  intros [->|(m & e & -> & Hd & Hp)]; [reflexivity|].
  unfold lt, SFltb. rewrite one_value. cbn [SFcompare].
  unfold prec in Hp. destruct (Z.compare_spec (-52) e); [lia|reflexivity|lia].
Qed.

Lemma mag_not_above_one (E : Z) (x : number) :
  mag true E x -> lt one x = false ∧ is_nan x = false.
Proof. by intros [->|(m & e & -> & Hd)]. Qed.

(** Clamping at 1 on the Numbers that are integers. *)
Lemma Math_max_one_of_Z (k : Z) : Math_max one (of_Z k) = of_Z (Z.max 1 k).
Proof.
  destruct (Z.lt_trichotomy k 1) as [Hk|[->|Hk]].
  - rewrite Z.max_l by lia. destruct (Z.eq_dec k 0) as [->|Hne]; [reflexivity|].
    assert (Hm : mag true 1 (of_Z k)).
    { apply mag_of_Z_neg; [lia|unfold emin, prec, emax; lia|].
      destruct k as [|p|p]; cbn [Zdigits2]; lia. }
    destruct Hm as [->|(m & e & -> & _)]; reflexivity.
  - reflexivity.
  - rewrite Z.max_r by lia.
    assert (Hm : mag false 2 (of_Z k)).
    { apply mag_of_Z; [lia|unfold emin, prec, emax; lia|]. apply (Zdigits2_ge k 1); lia. }
    apply mag_above_one in Hm. unfold lt, SFltb, Math_max in *.
    by destruct (SFcompare one (of_Z k)) as [[]|].
Qed.

Lemma mag_negative (E : Z) (x : number) : mag true E x -> lt x zero = true.
Proof. by intros [->|(m & e & -> & Hd)]. Qed.

Lemma mag_truthy (s : bool) (E : Z) (x : number) : mag s E x -> truthy (VNumber x) = true.
Proof. by intros [->|(m & e & -> & Hd)]. Qed.

(** The taxes computed from [amount_subtotal = z] alone are below zero. *)
Lemma negative_taxes_from (z : Z) : 1 <= z -> negative_taxes z = true.
Proof.
  intros Hz. destruct (Z.lt_ge_cases z 4) as [Hsmall|Hbig].
  - assert (z = 1 ∨ z = 2 ∨ z = 3) as [->|[->| ->]] by lia; reflexivity.
  - assert (Hx : mag false 3 (of_Z z)).
    { apply mag_of_Z; [lia|unfold emin, prec, emax; lia|].
      apply (Zdigits2_ge z 2); lia. }
    unfold negative_taxes, session_taxes, session_total. cbn [amount_total amount_subtotal].
    change (or_zero None) with zero. cbn [or_zero]. rewrite (mag_truthy _ _ _ Hx).
    change (div zero hundred) with zero.
    apply (mag_negative (-6)). unfold round2.
    apply (mag_div_hundred true 1); [unfold emin, prec, emax; lia|].
    apply (mag_Math_round 1); [lia|].
    apply (mag_mul_hundred true (-5)); [unfold emin, prec, emax; lia|].
    apply (mag_add_epsilon (-4)); [unfold emin, prec, emax; lia|lia|].
    apply mag_sub_zero.
    apply (mag_div_hundred false 3); [unfold emin, prec, emax; lia|done].
Qed.

Lemma shr_1_even (m : Z) :
  0 <= m -> (2 | m) ->
  shr_1 {| shr_m := m; shr_r := false; shr_s := false |}
  = {| shr_m := m / 2; shr_r := false; shr_s := false |}.
Proof.
  intros Hm [c Hc]. destruct m as [|[p|p|]|p]; try lia; cbn [shr_1 orb].
  - reflexivity.
  - f_equal. apply Z.div_unique with 0; [lia|]. rewrite Pos2Z.inj_xO. lia.
Qed.

Lemma iter_shr_exact (p : positive) (m : Z) :
  0 <= m -> (2 ^ Zpos p | m) ->
  SpecFloat.iter_pos shr_1 p {| shr_m := m; shr_r := false; shr_s := false |}
  = {| shr_m := m / 2 ^ Zpos p; shr_r := false; shr_s := false |}.
Proof.
  revert m. induction p as [p IH|p IH|]; intros m Hm [c Hc]; cbn [SpecFloat.iter_pos].
  - assert (Hp : 0 < 2 ^ Zpos p) by (apply Z.pow_pos_nonneg; lia).
    assert (Hm2 : m = c * 2 ^ Zpos p * 2 ^ Zpos p * 2).
    { rewrite Hc. replace (Z.pos p~1) with (Zpos p + Zpos p + 1) by lia.
      rewrite !Z.pow_add_r by lia. change (2 ^ 1) with 2. ring. }
    assert (H1 : m / 2 = c * 2 ^ Zpos p * 2 ^ Zpos p).
    { rewrite Hm2. apply Z.div_mul. lia. }
    assert (H2 : m / 2 / 2 ^ Zpos p = c * 2 ^ Zpos p).
    { rewrite H1. apply Z.div_mul. lia. }
    assert (Hc0 : 0 <= c) by nia.
    rewrite shr_1_even; [|done|exists (c * 2 ^ Zpos p * 2 ^ Zpos p); lia].
    rewrite IH; [|rewrite H1; nia|rewrite H1; by exists (c * 2 ^ Zpos p)].
    rewrite IH; [|rewrite H2; nia|rewrite H2; by exists c].
    f_equal. rewrite H2, Z.div_mul by lia. symmetry. rewrite Hm2.
    replace (Z.pos p~1) with (Zpos p + Zpos p + 1) by lia.
    rewrite !Z.pow_add_r by lia. change (2 ^ 1) with 2.
    replace (c * 2 ^ Z.pos p * 2 ^ Z.pos p * 2)
      with (c * (2 ^ Z.pos p * 2 ^ Z.pos p * 2)) by ring.
    apply Z.div_mul. nia.
  - assert (Hp : 0 < 2 ^ Zpos p) by (apply Z.pow_pos_nonneg; lia).
    assert (Hm2 : m = c * 2 ^ Zpos p * 2 ^ Zpos p).
    { rewrite Hc. replace (Z.pos p~0) with (Zpos p + Zpos p) by lia.
      rewrite !Z.pow_add_r by lia. ring. }
    assert (H2 : m / 2 ^ Zpos p = c * 2 ^ Zpos p).
    { rewrite Hm2. apply Z.div_mul. lia. }
    assert (Hc0 : 0 <= c) by nia.
    rewrite IH; [|done|by exists (c * 2 ^ Zpos p)].
    rewrite IH; [|rewrite H2; nia|rewrite H2; by exists c].
    f_equal. rewrite H2, Z.div_mul by lia. symmetry. rewrite Hm2.
    replace (Z.pos p~0) with (Zpos p + Zpos p) by lia.
    rewrite !Z.pow_add_r by lia.
    replace (c * 2 ^ Z.pos p * 2 ^ Z.pos p)
      with (c * (2 ^ Z.pos p * 2 ^ Z.pos p)) by ring.
    apply Z.div_mul. nia.
  - apply shr_1_even; [done|]. by exists c.
Qed.

(** A mantissa whose bits below the 53rd from the top are zero is
    rounded without loss. *)
Lemma binary_round_aux_exact (s : bool) (mz : positive) (ez : Z) :
  let d := Zpos (digits2_pos mz) in
  prec <= d -> (2 ^ (d - prec) | Zpos mz) ->
  emin prec emax + prec <= d + ez -> d + ez <= emax ->
  binary_round_aux prec emax s (Zpos mz) ez loc_Exact
  = S754_finite s (Z.to_pos (Zpos mz / 2 ^ (d - prec))) (d + ez - prec).
Proof.
  intros d Hd Hdiv Hlo Hhi. unfold binary_round_aux.
  assert (Hfexp : ∀ E, emin prec emax + prec <= E -> fexp prec emax E = E - prec).
  { intros E HE. unfold fexp. apply Z.max_l. lia. }
  assert (Hq : 0 < Zpos mz / 2 ^ (d - prec)
               ∧ Zdigits2 (Zpos mz / 2 ^ (d - prec)) = prec).
  { destruct (Zdigits2_shiftr (Zpos mz) (d - prec) ltac:(lia)) as [H1 H2].
    - cbn [Zdigits2]. fold d. unfold prec in *. lia.
    - split; [done|]. rewrite H2. cbn [Zdigits2]. fold d. lia. }
  destruct Hq as [Hq Hdq].
  assert (Hfirst : shr_fexp prec emax (Zpos mz) ez loc_Exact
                   = ({| shr_m := Zpos mz / 2 ^ (d - prec); shr_r := false; shr_s := false |},
                      d + ez - prec)).
  { unfold shr_fexp, shr. cbn [Zdigits2 shr_record_of_loc]. fold d.
    rewrite Hfexp by done.
    destruct (d + ez - prec - ez) as [|p|p] eqn:Hp; try lia.
    - replace (d - prec) with 0 by lia. rewrite Z.pow_0_r, Z.div_1_r. f_equal. lia.
    - replace (d - prec) with (Zpos p) in * by lia.
      rewrite iter_shr_exact by (done || lia). f_equal. lia. }
  rewrite Hfirst. cbn [shr_m loc_of_shr_record round_nearest_even].
  assert (Hsecond : shr_fexp prec emax (Zpos mz / 2 ^ (d - prec)) (d + ez - prec) loc_Exact
                    = ({| shr_m := Zpos mz / 2 ^ (d - prec); shr_r := false; shr_s := false |},
                       d + ez - prec)).
  { unfold shr_fexp, shr. rewrite Hdq, Hfexp by lia. cbn [shr_record_of_loc].
    replace (prec + (d + ez - prec) - prec - (d + ez - prec)) with 0 by lia. reflexivity. }
  rewrite Hsecond. cbn [shr_m].
  destruct (Zpos mz / 2 ^ (d - prec)) as [|q|q] eqn:Eq; try lia.
  rewrite (proj2 (Z.leb_le _ _)) by lia. reflexivity.
Qed.

Lemma binary_round_exact (s : bool) (m : positive) (e : Z) :
  let d := Zpos (digits2_pos m) in
  (2 ^ Z.max 0 (d - prec) | Zpos m) ->
  emin prec emax + prec <= d + e -> d + e <= emax ->
  binary_round prec emax s m e
  = S754_finite s (Z.to_pos (normal_mantissa (Zpos m) d)) (d + e - prec).
Proof.
  intros d Hdiv Hlo Hhi. unfold binary_round, normal_mantissa.
  assert (Hfexp : fexp prec emax (d + e) = d + e - prec).
  { unfold fexp. apply Z.max_l. lia. }
  fold d. rewrite Hfexp.
  pose proof (shl_align_digits m e (d + e - prec)) as Hdig. fold d in Hdig.
  destruct (Z.le_gt_cases d prec) as [Hle|Hgt].
  - destruct (shl_align_value m e (d + e - prec) ltac:(lia)) as [Hv He].
    destruct (shl_align m e (d + e - prec)) as [mz ez]. cbn [fst snd] in Hv, He, Hdig.
    subst ez.
    assert (Hdz : Zpos (digits2_pos mz) = prec) by lia.
    rewrite binary_round_aux_exact; rewrite ?Hdz, ?Z.sub_diag; try lia.
    + rewrite Z.pow_0_r, Z.div_1_r, Hv.
      rewrite (Z.max_r 0 (prec - d)), (Z.max_l 0 (d - prec)) by lia.
      rewrite Z.pow_0_r, Z.div_1_r. f_equal; [|lia].
      f_equal. f_equal. f_equal. lia.
    + rewrite Z.pow_0_r. apply Z.divide_1_l.
  - assert (Hal : shl_align m e (d + e - prec) = (m, e)).
    { unfold shl_align. destruct (d + e - prec - e) as [|p|p] eqn:Hp; try lia; done. }
    rewrite Z.max_r in Hdiv by lia.
    rewrite Hal. rewrite binary_round_aux_exact; fold d; try lia; [|done].
    rewrite (Z.max_l 0 (prec - d)), (Z.max_r 0 (d - prec)) by lia.
    rewrite Z.pow_0_r, Z.mul_1_r. reflexivity.
Qed.

(** Scaling an integer of at most 53 bits by a power of two and
    lowering the exponent as much gives the same Number. *)
Lemma binary_round_scaled (s : bool) (p q : positive) (k : Z) :
  0 <= k -> Zpos p = Zpos q * 2 ^ k -> Zpos (digits2_pos q) <= prec ->
  binary_round prec emax s p (- k) = binary_round prec emax s q 0.
Proof.
  intros Hk Hp Hq.
  assert (Hpk : 0 < 2 ^ k) by (apply Z.pow_pos_nonneg; lia).
  assert (Hd : Zpos (digits2_pos p) = Zpos (digits2_pos q) + k).
  { pose proof (Zdigits2_log2 (Zpos p) ltac:(lia)) as H1.
    pose proof (Zdigits2_log2 (Zpos q) ltac:(lia)) as H2.
    cbn [Zdigits2] in H1, H2. rewrite H1, H2, Hp, Z.log2_mul_pow2 by lia. lia. }
  rewrite !binary_round_exact; rewrite ?Hd; unfold prec, emin, emax in *; try lia.
  - f_equal; [|lia]. f_equal. unfold normal_mantissa, prec. rewrite Hp.
    set (dq := Zpos (digits2_pos q)) in *.
    rewrite (Z.max_r 0 (53 - dq)), (Z.max_l 0 (dq - 53)) by lia.
    rewrite Z.pow_0_r, Z.div_1_r.
    destruct (Z.le_gt_cases (dq + k) 53) as [Hle|Hgt].
    + rewrite (Z.max_r 0 (53 - (dq + k))), (Z.max_l 0 (dq + k - 53)) by lia.
      rewrite Z.pow_0_r, Z.div_1_r. rewrite <- Z.mul_assoc, <- Z.pow_add_r by lia.
      f_equal. f_equal. lia.
    + rewrite (Z.max_l 0 (53 - (dq + k))), (Z.max_r 0 (dq + k - 53)) by lia.
      rewrite Z.pow_0_r, Z.mul_1_r.
      replace k with ((53 - dq) + (dq + k - 53)) at 1 by lia.
      rewrite Z.pow_add_r, Z.mul_assoc by lia.
      apply Z.div_mul. apply Z.pow_nonzero; lia.
  - rewrite Z.max_l by lia. apply Z.divide_1_l.
  - rewrite Hp. destruct (Z.le_gt_cases (Zpos (digits2_pos q) + k) 53) as [Hle|Hgt].
    + rewrite Z.max_l by lia. apply Z.divide_1_l.
    + rewrite Z.max_r by lia.
      exists (Zpos q * 2 ^ (53 - Zpos (digits2_pos q))).
      rewrite <- Z.mul_assoc, <- Z.pow_add_r by lia. f_equal. f_equal. lia.
Qed.

Lemma safe_digits (z : Z) : safe z -> Zdigits2 z <= 53.
Proof.
  unfold safe. intros H. destruct z as [|p|p]; cbn [Zdigits2]; [lia| |].
  all: pose proof (Zdigits2_lower (Zpos p) ltac:(lia)) as [Hl _]; cbn [Zdigits2] in Hl.
  all: destruct (Z.le_gt_cases (Zpos (digits2_pos p)) 53) as [|Hgt]; [done|].
  all: assert (2 ^ 53 <= 2 ^ (Zpos (digits2_pos p) - 1)) by (apply Z.pow_le_mono_r; lia).
  all: cbn [Z.abs] in H; lia.
Qed.

Lemma binary_round_form (s : bool) (p : positive) :
  Zpos (digits2_pos p) <= 53 ->
  ∃ m, binary_round prec emax s p 0 = S754_finite s m (Zpos (digits2_pos p) - 53)
       ∧ Zpos m = Zpos p * 2 ^ (53 - Zpos (digits2_pos p)).
Proof.
  intros Hd.
  assert (Hpos : 0 < Zpos p * 2 ^ (53 - Zpos (digits2_pos p))).
  { apply Z.mul_pos_pos; [lia|]. apply Z.pow_pos_nonneg; lia. }
  exists (Z.to_pos (Zpos p * 2 ^ (53 - Zpos (digits2_pos p)))).
  split; [|by rewrite Z2Pos.id].
  rewrite binary_round_exact; unfold prec, emin, emax; try lia.
  - f_equal; try lia. unfold normal_mantissa, prec.
    rewrite Z.max_r, Z.max_l by lia. by rewrite Z.pow_0_r, Z.div_1_r.
  - rewrite Z.max_l by lia. apply Z.divide_1_l.
Qed.

(** A safe integer other than 0, as a Number. *)
Lemma of_Z_form (z : Z) :
  z ≠ 0 -> safe z ->
  ∃ m, of_Z z = S754_finite (z <? 0) m (Zdigits2 z - 53)
       ∧ Zpos m = Z.abs z * 2 ^ (53 - Zdigits2 z).
Proof.
  intros Hz Hs. pose proof (safe_digits z Hs) as Hd.
  destruct z as [|p|p]; [done| |]; cbn [Zdigits2] in *;
    unfold of_Z, binary_normalize; by apply binary_round_form.
Qed.

Lemma cond_Zopp_abs (z : Z) : cond_Zopp (z <? 0) (Z.abs z) = z.
Proof. destruct z; reflexivity. Qed.

Lemma binary_normalize_scaled (S z k : Z) :
  0 <= k -> S = z * 2 ^ k -> safe z ->
  binary_normalize prec emax S (- k) false = of_Z z.
Proof.
  intros Hk HS Hz. pose proof (safe_digits z Hz) as Hd.
  assert (Hpk : 0 < 2 ^ k) by (apply Z.pow_pos_nonneg; lia).
  unfold of_Z. destruct z as [|q|q].
  - by subst S.
  - destruct S as [|p|p]; try lia. cbn [binary_normalize].
    by apply binary_round_scaled.
  - destruct S as [|p|p]; try lia. cbn [binary_normalize].
    apply binary_round_scaled; [done|lia|done].
Qed.

(** On safe integers whose sum is safe, the sum of the Numbers is the
    Number of the sum. *)
Lemma add_of_Z (a b : Z) :
  safe a -> safe b -> safe (a + b) -> add (of_Z a) (of_Z b) = of_Z (a + b).
Proof.
  intros Ha Hb Hab.
  destruct (Z.eq_dec a 0) as [->|Ha0].
  { rewrite Z.add_0_l. change (of_Z 0) with (S754_zero false).
    destruct (Z.eq_dec b 0) as [->|Hb0]; [reflexivity|].
    destruct (of_Z_form b Hb0 Hb) as (m & -> & _). reflexivity. }
  destruct (Z.eq_dec b 0) as [->|Hb0].
  { rewrite Z.add_0_r. change (of_Z 0) with (S754_zero false).
    destruct (of_Z_form a Ha0 Ha) as (m & -> & _). reflexivity. }
  destruct (of_Z_form a Ha0 Ha) as (ma & Ea & Hma).
  destruct (of_Z_form b Hb0 Hb) as (mb & Eb & Hmb).
  pose proof (safe_digits a Ha) as Hda. pose proof (safe_digits b Hb) as Hdb.
  rewrite Ea, Eb. unfold add. cbn [SFadd].
  set (ez := Z.min (Zdigits2 a - 53) (Zdigits2 b - 53)).
  destruct (shl_align_value ma (Zdigits2 a - 53) ez ltac:(lia)) as [HMa _].
  destruct (shl_align_value mb (Zdigits2 b - 53) ez ltac:(lia)) as [HMb _].
  replace ez with (- - ez) at 3 by lia.
  apply binary_normalize_scaled; [lia| |done].
  rewrite HMa, HMb, Hma, Hmb.
  rewrite <- !Z.mul_assoc, <- !Z.pow_add_r by lia.
  replace (53 - Zdigits2 a + (Zdigits2 a - 53 - ez)) with (- ez) by lia.
  replace (53 - Zdigits2 b + (Zdigits2 b - 53 - ez)) with (- ez) by lia.
  rewrite <- (cond_Zopp_abs a) at 3. rewrite <- (cond_Zopp_abs b) at 3.
  destruct (a <? 0), (b <? 0); cbn [cond_Zopp]; ring.
Qed.

Lemma neg_of_Z (b : Z) : b ≠ 0 -> safe b -> neg (of_Z b) = of_Z (- b).
Proof.
  intros Hb0 Hb.
  assert (Hb' : safe (- b)) by (unfold safe in *; lia).
  destruct (of_Z_form b Hb0 Hb) as (m & E & Hm).
  destruct (of_Z_form (- b) ltac:(lia) Hb') as (m' & E' & Hm').
  rewrite E, E'. cbn [neg SFopp].
  assert (Hd : Zdigits2 (- b) = Zdigits2 b) by by destruct b.
  rewrite Hd in *. rewrite Z.abs_opp in Hm'.
  assert (m' = m) as -> by lia.
  f_equal. destruct b; try done.
Qed.

(** Taking a safe integer off a safe integer, as [increment(-q)] does. *)
Lemma decrement_of_Z (a b : Z) :
  safe a -> safe b -> safe (a - b) -> add (of_Z a) (neg (of_Z b)) = of_Z (a - b).
Proof.
  intros Ha Hb Hab. destruct (Z.eq_dec b 0) as [->|Hb0].
  - rewrite Z.sub_0_r. change (neg (of_Z 0)) with (S754_zero true).
    destruct (Z.eq_dec a 0) as [->|Ha0]; [reflexivity|].
    destruct (of_Z_form a Ha0 Ha) as (m & -> & _). reflexivity.
  - rewrite neg_of_Z by done. apply add_of_Z; [done| |done].
    unfold safe in *. lia.
Qed.

Lemma Zdigits2_mono (a b : Z) : 0 < a -> a <= b -> Zdigits2 a <= Zdigits2 b.
Proof.
  intros Ha Hab. rewrite !Zdigits2_log2 by lia.
  pose proof (Z.log2_le_mono a b Hab). lia.
Qed.

(** Two positive safe integers compare as their Numbers do. *)
Lemma compare_form (a b : Z) (ma mb : positive) :
  0 < a -> 0 < b -> Zdigits2 a <= 53 -> Zdigits2 b <= 53 ->
  Zpos ma = a * 2 ^ (53 - Zdigits2 a) -> Zpos mb = b * 2 ^ (53 - Zdigits2 b) ->
  match Z.compare (Zdigits2 a - 53) (Zdigits2 b - 53) with
  | Lt => Lt
  | Gt => Gt
  | Eq => Pos.compare_cont Eq ma mb
  end = (a ?= b).
Proof.
  intros Ha Hb Hda Hdb Hma Hmb.
  pose proof (Zdigits2_lower a Ha) as [Hla Hua].
  pose proof (Zdigits2_lower b Hb) as [Hlb Hub].
  destruct (Z.compare_spec (Zdigits2 a - 53) (Zdigits2 b - 53)) as [He|He|He].
  - change (Pos.compare_cont Eq ma mb) with (Zpos ma ?= Zpos mb).
    rewrite Hma, Hmb. replace (Zdigits2 b) with (Zdigits2 a) by lia.
    assert (0 < 2 ^ (53 - Zdigits2 a)) by (apply Z.pow_pos_nonneg; lia).
    destruct (Z.compare_spec a b) as [->|Hlt|Hgt];
      [apply Z.compare_refl|apply Z.compare_lt_iff; nia|apply Z.compare_gt_iff; nia].
  - symmetry. apply Z.compare_lt_iff.
    assert (2 ^ Zdigits2 a <= 2 ^ (Zdigits2 b - 1)) by (apply Z.pow_le_mono_r; lia). lia.
  - symmetry. apply Z.compare_gt_iff.
    assert (2 ^ Zdigits2 b <= 2 ^ (Zdigits2 a - 1)) by (apply Z.pow_le_mono_r; lia). lia.
Qed.

Lemma compare_of_Z (a b : Z) :
  safe a -> safe b -> SFcompare (of_Z a) (of_Z b) = Some (a ?= b).
Proof.
  intros Ha Hb.
  pose proof (safe_digits a Ha) as Hda. pose proof (safe_digits b Hb) as Hdb.
  destruct (Z.eq_dec a 0) as [->|Ha0]; [|destruct (of_Z_form a Ha0 Ha) as (ma & Ea & Hma)];
    (destruct (Z.eq_dec b 0) as [->|Hb0]; [|destruct (of_Z_form b Hb0 Hb) as (mb & Eb & Hmb)]).
  - reflexivity.
  - rewrite Eb. change (of_Z 0) with (S754_zero false). cbn [SFcompare].
    f_equal. destruct b; done.
  - rewrite Ea. change (of_Z 0) with (S754_zero false). cbn [SFcompare].
    f_equal. destruct a; done.
  - rewrite Ea, Eb. cbn [SFcompare]. f_equal.
    destruct a as [|a|a], b as [|b|b]; try done; cbn [Z.ltb Z.compare Z.abs] in *.
    + apply (compare_form (Zpos a) (Zpos b)); by (done || lia).
    + change (a ?= b)%positive with (Zpos a ?= Zpos b).
      rewrite <- (compare_form (Zpos a) (Zpos b) ma mb) by (done || lia).
      cbn [Zdigits2].
      by destruct (Z.compare (Zpos (digits2_pos a) - 53) (Zpos (digits2_pos b) - 53)).
Qed.

(** [<] on the Numbers of two safe integers is [<] on the integers. *)
Lemma lt_of_Z (a b : Z) : safe a -> safe b -> lt (of_Z a) (of_Z b) = (a <? b).
Proof.
  intros Ha Hb. unfold lt, SFltb, Z.ltb. rewrite compare_of_Z by done. reflexivity.
Qed.

Lemma trunc_of_Z (k : Z) : safe k -> trunc (of_Z k) = of_Z k.
Proof.
  intros Hk. destruct (Z.eq_dec k 0) as [->|Hk0]; [reflexivity|].
  pose proof (safe_digits k Hk) as Hd.
  destruct (of_Z_form k Hk0 Hk) as (m & E & Hm). rewrite E. unfold trunc.
  destruct (Z.leb_spec 0 (Zdigits2 k - 53)) as [He|He]; [reflexivity|].
  cbv zeta. replace (- (Zdigits2 k - 53)) with (53 - Zdigits2 k) by lia.
  rewrite Hm, Z.div_mul by (apply Z.pow_nonzero; lia).
  destruct (Z.eqb_spec (Z.abs k) 0) as [H0|H0]; [lia|].
  by rewrite cond_Zopp_abs, E.
Qed.

Lemma plain_notation_of_Z (k : Z) : k ≠ 0 -> safe k -> plain_notation (of_Z k) = true.
Proof.
  intros Hk0 Hk. pose proof (safe_digits k Hk) as Hd.
  assert (Hd1 : 1 <= Zdigits2 k) by (destruct k; cbn [Zdigits2]; lia).
  destruct (of_Z_form k Hk0 Hk) as (m & E & Hm). rewrite E.
  unfold plain_notation, lt, SFltb. cbn [SFabs].
  change (dec 1 6) with (S754_finite false 4722366482869645 (-72)).
  change (of_Z (10 ^ 21)) with (S754_finite false 7629394531250000 17).
  cbn [SFcompare].
  destruct (Z.compare_spec (Zdigits2 k - 53) (-72)); [lia|lia|].
  destruct (Z.compare_spec (Zdigits2 k - 53) 17); [lia|reflexivity|lia].
Qed.

(** [parseInt] gives a safe integer back. *)
Lemma parseInt_number_of_Z (lead : number -> Z) (k : Z) :
  safe k -> parseInt_number lead (of_Z k) = of_Z k.
Proof.
  intros Hk. destruct (Z.eq_dec k 0) as [->|Hk0]; [reflexivity|].
  pose proof (plain_notation_of_Z k Hk0 Hk) as Hp. pose proof (trunc_of_Z k Hk) as Ht.
  destruct (of_Z_form k Hk0 Hk) as (m & E & Hm). rewrite E in *.
  unfold parseInt_number. by rewrite Hp.
Qed.

Lemma truthy_of_Z (k : Z) : k ≠ 0 -> safe k -> truthy (VNumber (of_Z k)) = true.
Proof.
  intros Hk0 Hk. destruct (of_Z_form k Hk0 Hk) as (m & E & Hm). by rewrite E.
Qed.

(** What [parseInt] reads off a string is NaN, a zero, or an integer. *)
Lemma parseInt_string_cases (s : string) :
  parseInt_string s = NaN ∨ is_zero (parseInt_string s) = true
  ∨ ∃ k, parseInt_string s = of_Z k.
Proof.
  unfold parseInt_string. destruct (split_sign _) as [sg r].
  destruct (read_digits r None) as [[|n|n]|]; [right; left|right; right..|left]; eauto.
Qed.

End Magnitude.

(** ** The loop over the cart *)

Section Checkout.

Variable env : Env.

(** One turn of the loop, with the store's answer read off the world. *)
Lemma load_items_cons (i : CartEntry) (rest : list CartEntry) (acc : list Item) (w : World) :
  load_items env (i :: rest) acc w =
  if reaches_lookup i then
    match products w !! entry_id i with
    | Some p =>
        if stock_below p (effective_quantity env (quantity i))
        then (Reply (json_error 400 ("Stock insuffisant: " +:+ prod_name p)), w)
        else load_items env rest (acc ++ [make_item env i p]) w
    | None => load_items env rest acc w
    end
  else load_items env rest acc w.
Proof.
  unfold reaches_lookup. cbn [load_items].
  destruct (truthy (VString (entry_id i))); [|reflexivity].
  destruct (truthy (quantity i)); [|reflexivity].
  cbn [negb orb andb]. unfold mbind, M_bind, products_get.
  destruct (products w !! entry_id i) as [p|]; [|reflexivity].
  destruct (stock_below p _); reflexivity.
Qed.

Lemma retained_cons (ps : gmap string Product) (i : CartEntry) (c : list CartEntry) :
  retained env ps (i :: c) =
  (if reaches_lookup i
   then match ps !! entry_id i with Some p => [make_item env i p] | None => [] end
   else []) ++ retained env ps c.
Proof.
  unfold retained. cbn [omap list_omap].
  destruct (reaches_lookup i); [|reflexivity].
  destruct (ps !! entry_id i); reflexivity.
Qed.

(** With no entry short of stock the loop answers the retained items. *)
Lemma load_items_retained (w : World) (c : list CartEntry) (acc : list Item) :
  existsb (short_of_stock env (products w)) c = false ->
  load_items env c acc w = (Ret (acc ++ retained env (products w) c), w).
Proof.
  revert acc. induction c as [|i c IH]; intros acc H.
  - cbn. by rewrite app_nil_r.
  - cbn [existsb] in H. apply orb_false_iff in H as [Hi Hc].
    rewrite load_items_cons, retained_cons.
    unfold short_of_stock in Hi.
    destruct (reaches_lookup i); cbn [andb] in Hi; [|by apply IH].
    destruct (products w !! entry_id i) as [p|]; [|by apply IH].
    rewrite Hi, IH by done. by rewrite <- app_assoc.
Qed.

(** The first entry short of stock stops the loop, and nothing before it
    touches the world. *)
Lemma load_items_short (w : World) (c : list CartEntry) (acc : list Item) (i : CartEntry) :
  find (short_of_stock env (products w)) c = Some i ->
  ∃ p, products w !! entry_id i = Some p
       ∧ load_items env c acc w
         = (Reply (json_error 400 ("Stock insuffisant: " +:+ prod_name p)), w).
Proof.
  revert acc. induction c as [|j c IH]; intros acc H; [discriminate|].
  cbn [find] in H. rewrite load_items_cons.
  destruct (short_of_stock env (products w) j) eqn:Hj.
  - injection H as ->. unfold short_of_stock in Hj.
    apply andb_true_iff in Hj as [-> Hj].
    destruct (products w !! entry_id i) as [p|]; [|discriminate].
    exists p. by rewrite Hj.
  - unfold short_of_stock in Hj.
    destruct (reaches_lookup j); cbn [andb] in Hj; [|by apply IH].
    destruct (products w !! entry_id j) as [p|]; [|by apply IH].
    rewrite Hj. by apply IH.
Qed.

(** ** The shape of a run of [createCheckoutSession] *)

(** Past the checks on the request, the handler is the loop followed by
    the three calls. *)
Lemma checkout_well_formed (req : CheckoutRequest) (c : list CartEntry) (w : World) :
  well_formed req c ->
  createCheckoutSession env req w =
  try_catch
    (items_ ← load_items env c [];
     if (length items_ =? 0)%nat then reply (json_error 400 "Panier vide")
     else
       k ← orders_add (pending_order env req items_);
       session ← checkout_sessions_create env (session_params req items_ k);
       order_update_session k (session_id session);;
       mret {| code := 200; body := JsonUrl (session_url session) |})
    (fun msg => json_error 500 ("Erreur serveur: " +:+ msg)) w.
Proof.
  intros (Hm & Hc & Hu & He).
  unfold createCheckoutSession, createCheckoutSession_body.
  rewrite Hm, Hc. cbn [negb].
  apply String.eqb_neq in Hu, He. rewrite Hu, He. reflexivity.
Qed.

Lemma checkout_short (req : CheckoutRequest) (c : list CartEntry) (w : World) (i : CartEntry) :
  well_formed req c ->
  find (short_of_stock env (products w)) c = Some i ->
  ∃ p, products w !! entry_id i = Some p
       ∧ createCheckoutSession env req w
         = (json_error 400 ("Stock insuffisant: " +:+ prod_name p), w).
Proof.
  intros Hwf Hfind.
  destruct (load_items_short w c [] i Hfind) as (p & Hp & Hload).
  exists p. split; [done|].
  rewrite (checkout_well_formed req c w Hwf).
  unfold try_catch, mbind, M_bind. by rewrite Hload.
Qed.

Lemma checkout_empty (req : CheckoutRequest) (c : list CartEntry) (w : World) :
  well_formed req c ->
  existsb (short_of_stock env (products w)) c = false ->
  retained env (products w) c = [] ->
  createCheckoutSession env req w = (json_error 400 "Panier vide", w).
Proof.
  intros Hwf Hshort Hret.
  rewrite (checkout_well_formed req c w Hwf).
  unfold try_catch, mbind, M_bind.
  rewrite (load_items_retained w c [] Hshort), Hret. reflexivity.
Qed.

Lemma checkout_placed (req : CheckoutRequest) (c : list CartEntry) (w : World) :
  well_formed req c ->
  existsb (short_of_stock env (products w)) c = false ->
  retained env (products w) c ≠ [] ->
  createCheckoutSession env req w =
  let its := retained env (products w) c in
  let k := fresh (dom (orders w)) in
  match sessions_create env (session_params req its k) with
  | inr s => ({| code := 200; body := JsonUrl (session_url s) |},
              session_linked env req its k (session_id s) w)
  | inl msg => (json_error 500 ("Erreur serveur: " +:+ msg),
                order_placed env req its k w)
  end.
Proof.
  intros Hwf Hshort Hret.
  rewrite (checkout_well_formed req c w Hwf).
  unfold try_catch, mbind, M_bind.
  rewrite (load_items_retained w c [] Hshort). cbn [app].
  destruct (retained env (products w) c) as [|it its] eqn:E; [done|].
  cbn [length Nat.eqb]. unfold orders_add, checkout_sessions_create.
  cbn zeta.
  destruct (sessions_create env _) as [msg|s] eqn:Es; [reflexivity|].
  unfold order_update_session, log, set_orders; cbn [orders products clock effects].
  rewrite lookup_insert_eq. reflexivity.
Qed.

(** ** What the loop does not look at *)

Lemma retained_app (ps : gmap string Product) (c1 c2 : list CartEntry) :
  retained env ps (c1 ++ c2) = retained env ps c1 ++ retained env ps c2.
Proof. apply omap_app. Qed.

Lemma retained_dropped (ps : gmap string Product) (i : CartEntry) :
  dropped ps i = true -> retained env ps [i] = [].
Proof.
  unfold dropped. rewrite retained_cons. intros H.
  destruct (reaches_lookup i); [|reflexivity].
  cbn in H. apply bool_decide_eq_true in H. by rewrite H.
Qed.

(** A dropped entry may as well not be in the cart. *)
Lemma load_items_dropped (w : World) (c1 c2 : list CartEntry) (i : CartEntry)
  (acc : list Item) :
  dropped (products w) i = true ->
  load_items env (c1 ++ i :: c2) acc w = load_items env (c1 ++ c2) acc w.
Proof.
  intros Hi. revert acc. induction c1 as [|j c1 IH]; intros acc.
  - cbn [app]. rewrite load_items_cons. unfold dropped in Hi.
    destruct (reaches_lookup i); [|reflexivity].
    cbn in Hi. apply bool_decide_eq_true in Hi. by rewrite Hi.
  - cbn [app]. rewrite !load_items_cons.
    destruct (reaches_lookup j); [|apply IH].
    destruct (products w !! entry_id j) as [p|]; [|apply IH].
    destruct (stock_below p _); [reflexivity|apply IH].
Qed.

(** Only the identifier and the quantity of an entry are read. *)
Lemma load_items_same (w : World) (c c' : list CartEntry) (acc : list Item) :
  same_ids_quantities c c' ->
  load_items env c acc w = load_items env c' acc w.
Proof.
  unfold same_ids_quantities. revert c' acc.
  induction c as [|i c IH]; intros [|j c'] acc H; try discriminate; [reflexivity|].
  cbn [fmap list_fmap] in H. injection H as Hid Hq Hrest.
  rewrite !load_items_cons. unfold reaches_lookup, make_item. rewrite Hid, Hq.
  destruct (truthy (VString (entry_id j)) && truthy (quantity j)); [|by apply IH].
  destruct (products w !! entry_id j) as [p|]; [|by apply IH].
  destruct (stock_below p _); [reflexivity|by apply IH].
Qed.

Lemma with_cart_well_formed (req : CheckoutRequest) (c c' : list CartEntry) :
  well_formed req c -> well_formed (with_cart c' req) c'.
Proof. intros (Hm & Hc & Hu & He). by repeat split. Qed.

(** The handler reads the cart through the loop only. *)
Lemma checkout_same_load (req : CheckoutRequest) (c c' : list CartEntry) (w : World) :
  well_formed req c ->
  load_items env c [] w = load_items env c' [] w ->
  createCheckoutSession env req w = createCheckoutSession env (with_cart c' req) w.
Proof.
  intros Hwf Hload.
  rewrite (checkout_well_formed req c w Hwf).
  rewrite (checkout_well_formed _ c' w (with_cart_well_formed req c c' Hwf)).
  unfold try_catch, mbind, M_bind. rewrite Hload. reflexivity.
Qed.

Lemma existsb_find {A} (f : A -> bool) (l : list A) :
  existsb f l = true -> ∃ x, find f l = Some x.
Proof.
  induction l as [|a l IH]; cbn; [discriminate|].
  destruct (f a); [by exists a|apply IH].
Qed.

Lemma all_dropped (ps : gmap string Product) (c : list CartEntry) :
  forallb (dropped ps) c = true ->
  existsb (short_of_stock env ps) c = false ∧ retained env ps c = [].
Proof.
  induction c as [|i c IH]; [done|].
  cbn [forallb existsb]. intros [Hi Hc]%andb_true_iff.
  destruct (IH Hc) as [IH1 IH2].
  rewrite retained_cons, IH1, IH2, app_nil_r, orb_false_r.
  unfold short_of_stock. unfold dropped in Hi.
  destruct (reaches_lookup i); [|done].
  cbn in Hi. apply bool_decide_eq_true in Hi. by rewrite Hi.
Qed.

Lemma fresh_order_id (w : World) : orders w !! fresh (dom (orders w)) = None.
Proof. apply not_elem_of_dom, is_fresh. Qed.

(** The order a placed checkout leaves in the store. *)
Lemma checkout_placed_order (req : CheckoutRequest) (c : list CartEntry) (w : World) :
  well_formed req c ->
  existsb (short_of_stock env (products w)) c = false ->
  retained env (products w) c ≠ [] ->
  ∃ k o, orders w !! k = None
    ∧ orders (createCheckoutSession env req w).2 = <[k := o]> (orders w)
    ∧ products (createCheckoutSession env req w).2 = products w
    ∧ status o = pending
    ∧ subtotal o = round2 (items_sum (retained env (products w) c))
    ∧ items o = order_item <$> retained env (products w) c
    ∧ (tps o, tvq o, taxes o, total o) = (zero, zero, zero, zero).
Proof.
  intros Hwf Hshort Hret.
  rewrite (checkout_placed req c w Hwf Hshort Hret). cbv zeta.
  exists (fresh (dom (orders w))).
  destruct (sessions_create env _) as [msg|s].
  - eexists. split; [apply fresh_order_id|].
    cbn [snd]. unfold order_placed, log, set_orders; cbn [orders products].
    split; [reflexivity|]. by repeat split.
  - eexists. split; [apply fresh_order_id|].
    cbn [snd]. unfold session_linked, order_placed, log, set_orders; cbn [orders products].
    split; [apply insert_insert_eq|]. by repeat split.
Qed.

(** ** Claims on [createCheckoutSession] *)

(** C3.  When some entry of the cart is looked up, finds its product, and
    that product declares a numeric stock below the quantity asked for
    (the quantity after parsing and clamping), the handler answers 400
    with the message ["Stock insuffisant: "] followed by the name of the
    product of the first such entry, and leaves the world as it was: no
    order is added, no document is written, the processor is not called. *)
Theorem insufficient_stock_aborts (req : CheckoutRequest) (c : list CartEntry) (w : World) :
  well_formed req c ->
  existsb (short_of_stock env (products w)) c = true ->
  ∃ i p, find (short_of_stock env (products w)) c = Some i
    ∧ products w !! entry_id i = Some p
    ∧ stock_below p (effective_quantity env (quantity i)) = true
    ∧ createCheckoutSession env req w
      = (json_error 400 ("Stock insuffisant: " +:+ prod_name p), w).
Proof.
  intros Hwf Hex.
  destruct (existsb_find _ _ Hex) as [i Hi].
  destruct (checkout_short req c w i Hwf Hi) as (p & Hp & Hrun).
  exists i, p. repeat split; try done.
  apply find_some in Hi as [_ Hi]. unfold short_of_stock in Hi.
  apply andb_true_iff in Hi as [_ Hi]. by rewrite Hp in Hi.
Qed.

(** On a stock and a quantity that are safe integers, the stock check
    compares the stock with the larger of 1 and the quantity. *)
Lemma short_of_stock_integers (ps : gmap string Product) (i : CartEntry) (p : Product)
  (a k : Z) :
  entry_id i ≠ "" -> ps !! entry_id i = Some p ->
  prod_stock p = Some (of_Z a) -> quantity i = VNumber (of_Z k) ->
  safe a -> safe k -> k ≠ 0%Z ->
  short_of_stock env ps i = (a <? Z.max 1 k)%Z.
Proof.
  intros Hid Hp Hs Hq Ha Hk Hk0.
  unfold short_of_stock, reaches_lookup, stock_below, effective_quantity.
  rewrite Hp, Hs, Hq, (truthy_of_Z k Hk0 Hk). cbn [truthy parseInt].
  apply String.eqb_neq in Hid. rewrite Hid. cbn [negb andb].
  rewrite parseInt_number_of_Z, Math_max_one_of_Z by done.
  apply lt_of_Z; [done|]. unfold safe in *. lia.
Qed.

(** C9.  An entry whose identifier names no product is passed over
    without an error: the handler does what it does on the cart without
    that entry, and when the remaining entries give line items the order
    is made of exactly those.  When every entry is dropped (an empty cart
    and a cart of unknown identifiers are such carts) the answer is 400
    ["Panier vide"] and the world is left as it was. *)
Theorem unknown_products_dropped (req : CheckoutRequest) (c : list CartEntry) (w : World) :
  well_formed req c ->
  (∀ c1 i c2, c = c1 ++ i :: c2 -> products w !! entry_id i = None ->
     createCheckoutSession env req w = createCheckoutSession env (with_cart (c1 ++ c2) req) w
     ∧ retained env (products w) c = retained env (products w) (c1 ++ c2))
  ∧ (existsb (short_of_stock env (products w)) c = false ->
     retained env (products w) c ≠ [] ->
     ∃ k o, orders w !! k = None
       ∧ orders (createCheckoutSession env req w).2 = <[k := o]> (orders w)
       ∧ items o = order_item <$> retained env (products w) c)
  ∧ (forallb (dropped (products w)) c = true ->
     createCheckoutSession env req w = (json_error 400 "Panier vide", w)).
Proof.
  intros Hwf. split; [|split].
  - intros c1 i c2 -> Hi.
    assert (Hd : dropped (products w) i = true).
    { unfold dropped. rewrite (bool_decide_eq_true_2 _ Hi). apply orb_true_r. }
    split.
    + apply (checkout_same_load req _ _ w Hwf), load_items_dropped, Hd.
    + rewrite !retained_app. change (i :: c2) with ([i] ++ c2).
      by rewrite retained_app, (retained_dropped _ _ Hd).
  - intros Hshort Hret.
    destruct (checkout_placed_order req c w Hwf Hshort Hret)
      as (k & o & Hk & Ho & _ & _ & _ & Hitems & _).
    by exists k, o.
  - intros Hall. destruct (all_dropped _ _ Hall) as [Hshort Hret].
    by apply (checkout_empty req c).
Qed.

Lemma nonneg_items_sum (its : list Item) :
  (∀ it, it ∈ its -> nonneg (unit_amount it) ∧ nonneg (it_quantity it)) ->
  nonneg (items_sum its).
Proof.
  unfold items_sum. assert (H0 : nonneg zero) by reflexivity. revert H0.
  generalize zero. induction its as [|it its IH]; intros s Hs H; [done|].
  cbn [fold_left]. apply IH.
  - destruct (H it) as [Hu Hq]; [left|].
    apply nonneg_add; [done|]. apply nonneg_mul; [|done].
    apply nonneg_div; [done|reflexivity].
  - intros it' Hin. apply H. by right.
Qed.

Lemma nonneg_retained (ps : gmap string Product) (c : list CartEntry) :
  (∀ k p, ps !! k = Some p -> nonneg (prod_price p)) ->
  ∀ it, it ∈ retained env ps c -> nonneg (unit_amount it) ∧ nonneg (it_quantity it).
Proof.
  intros Hps it Hin. unfold retained in Hin.
  apply list_elem_of_omap in Hin as (i & _ & Hi).
  destruct (reaches_lookup i); [|discriminate].
  destruct (ps !! entry_id i) as [p|] eqn:Hp; [|discriminate].
  injection Hi as <-. cbn [unit_amount it_quantity make_item]. split.
  - apply nonneg_Math_round, nonneg_mul; [|reflexivity].
    apply nonneg_parseFloat, (Hps _ _ Hp).
  - apply nonneg_Math_max_one.
Qed.

(** C4.  On a cart with no entry short of stock and at least one line
    item, the handler adds exactly one order to the store, under an
    identifier no order had; it is [pending], its taxes and total are
    zero, and its subtotal is [round2] of the sum, over the retained
    entries in cart order, of (the cents of the product's price in the
    store, divided by 100) times the clamped quantity.  When no price in
    the store is negative that rounding is the one with ties away from
    zero.  A cart that agrees on identifiers and quantities gives the same
    run whatever else its entries carry, a price sent by the client
    included. *)
Theorem pending_order_subtotal (req : CheckoutRequest) (c : list CartEntry) (w : World) :
  well_formed req c ->
  existsb (short_of_stock env (products w)) c = false ->
  retained env (products w) c ≠ [] ->
  (∃ k o, orders w !! k = None
     ∧ orders (createCheckoutSession env req w).2 = <[k := o]> (orders w)
     ∧ status o = pending
     ∧ (tps o, tvq o, taxes o, total o) = (zero, zero, zero, zero)
     ∧ subtotal o
       = round2 (fold_left
                   (fun s it => add s (mul (div (unit_amount it) hundred) (it_quantity it)))
                   (retained env (products w) c) zero)
     ∧ ((∀ k' p, products w !! k' = Some p -> nonneg (prod_price p)) ->
        subtotal o = round2_half_away (items_sum (retained env (products w) c))))
  ∧ (∀ c', same_ids_quantities c c' ->
       createCheckoutSession env (with_cart c' req) w = createCheckoutSession env req w).
Proof.
  intros Hwf Hshort Hret. split.
  - destruct (checkout_placed_order req c w Hwf Hshort Hret)
      as (k & o & Hk & Ho & _ & Hst & Hsub & _ & Hzero).
    exists k, o. repeat split; try done.
    intros Hps. rewrite Hsub. apply round2_half_away_nonneg, nonneg_items_sum.
    by apply nonneg_retained.
  - intros c' Hsame. symmetry.
    apply (checkout_same_load req c c' w Hwf), load_items_same, Hsame.
Qed.

(** C5 (amended).  A run that answers 200 has performed exactly three
    effects, in this order: the order is added under an identifier no
    order had, then the processor is asked for a session whose metadata
    carry that identifier, then the order is updated with the identifier
    of the session the processor answered. *)
Theorem checkout_effects_in_order (req : CheckoutRequest) (w : World) :
  code (createCheckoutSession env req w).1 = 200%Z ->
  ∃ k params s o,
    effects (createCheckoutSession env req w).2
    = effects w ++ [OrderAdded k; SessionCreateCalled params; OrderUpdated k]
    ∧ orders w !! k = None
    ∧ sp_metadata_firebaseOrderId params = k
    ∧ sessions_create env params = inr s
    ∧ orders (createCheckoutSession env req w).2 !! k = Some o
    ∧ stripeSessionId o = Some (session_id s).
Proof.
  unfold createCheckoutSession at 1, createCheckoutSession_body.
  destruct (String.eqb (method req) "POST") eqn:Hm; [|discriminate].
  destruct (cart req) as [c|] eqn:Hc; [|discriminate].
  destruct (String.eqb (user_uid req) "") eqn:Hu; [discriminate|].
  destruct (String.eqb (user_email req) "") eqn:He; [discriminate|].
  assert (Hwf : well_formed req c).
  { apply String.eqb_eq in Hm. apply String.eqb_neq in Hu, He. by repeat split. }
  cbn [negb orb]. fold (createCheckoutSession_body env req).
  destruct (existsb (short_of_stock env (products w)) c) eqn:Hshort.
  { destruct (existsb_find _ _ Hshort) as [i Hi].
    destruct (checkout_short req c w i Hwf Hi) as (p & _ & Hrun).
    pose proof Hrun as Hrun'. unfold createCheckoutSession, createCheckoutSession_body in Hrun'.
    rewrite Hm, Hc, Hu, He in Hrun'. cbn [negb orb] in Hrun'. rewrite Hrun'. discriminate. }
  destruct (decide (retained env (products w) c = [])) as [Hret|Hret].
  { pose proof (checkout_empty req c w Hwf Hshort Hret) as Hrun'.
    unfold createCheckoutSession, createCheckoutSession_body in Hrun'.
    rewrite Hm, Hc, Hu, He in Hrun'. cbn [negb orb] in Hrun'. rewrite Hrun'. discriminate. }
  pose proof (checkout_placed req c w Hwf Hshort Hret) as Hrun. cbv zeta in Hrun.
  pose proof Hrun as Hrun'. unfold createCheckoutSession, createCheckoutSession_body in Hrun'.
  rewrite Hm, Hc, Hu, He in Hrun'. cbn [negb orb] in Hrun'. rewrite Hrun'. rewrite Hrun.
  destruct (sessions_create env _) as [msg|s] eqn:Es; [discriminate|].
  intros _. eexists _, _, s, _. cbn [snd].
  unfold session_linked, order_placed, log, set_orders; cbn [effects orders].
  split; [by rewrite <- !app_assoc|].
  split; [apply fresh_order_id|].
  split; [reflexivity|]. split; [exact Es|].
  split; [apply lookup_insert_eq|reflexivity].
Qed.

End Checkout.

(** ** The batch of [stripeWebhook] *)

Section Webhook.

Variable env : Env.

Lemma insert_as_alter (ps : gmap string Product) (k : string) (p : Product)
  (f : Product -> Product) :
  ps !! k = Some p -> <[k := f p]> ps = alter f k ps.
Proof.
  intros Hk. apply map_eq. intros j. rewrite lookup_alter.
  destruct (decide (k = j)) as [<-|Hne].
  - by rewrite lookup_insert_eq, Hk.
  - by rewrite lookup_insert_ne.
Qed.

Lemma products_exist_alter (ps : gmap string Product) (k : string)
  (f : Product -> Product) (its : list OrderItem) :
  products_exist (alter f k ps) its = products_exist ps its.
Proof.
  unfold products_exist. induction its as [|it its IH]; [reflexivity|].
  cbn [forallb]. rewrite IH. f_equal. f_equal.
  apply bool_decide_ext. rewrite lookup_alter.
  destruct (decide (k = productId it)) as [<-|Hne]; [|done].
  apply fmap_is_Some.
Qed.

Lemma stock_writes_cons (it : OrderItem) (its : list OrderItem) :
  stock_writes (it :: its) =
  if counted it then IncrementStock (productId it) (neg (qty it)) :: stock_writes its
  else stock_writes its.
Proof.
  unfold counted. cbn [stock_writes].
  by destruct (truthy (VString _)), (truthy (VNumber _)).
Qed.

(** The stock writes go through exactly when every counted line names a
    product that exists; the products then hold the decrements. *)
Lemma apply_stock_writes (now : Z) (ps : gmap string Product) (os : gmap string Order)
  (its : list OrderItem) (rest : list Write) :
  apply_writes now (ps, os) (stock_writes its ++ rest) =
  if products_exist ps its then apply_writes now (decrement_all its ps, os) rest else None.
Proof.
  revert ps. induction its as [|it its IH]; intros ps; [reflexivity|].
  rewrite stock_writes_cons.
  change (products_exist ps (it :: its))
    with ((negb (counted it) || bool_decide (is_Some (ps !! productId it)))
          && products_exist ps its).
  change (decrement_all (it :: its) ps)
    with (decrement_all its
            (if counted it
             then alter (fun p => with_stock (increment (neg (qty it)) (prod_stock p)) p)
                    (productId it) ps
             else ps)).
  destruct (counted it); cbn [negb orb andb]; [|apply IH].
  cbn [app apply_writes apply_write fst snd].
  destruct (ps !! productId it) as [p|] eqn:Hp.
  - rewrite (bool_decide_eq_true_2 _ (mk_is_Some _ _ eq_refl)). cbn [andb].
    rewrite (insert_as_alter ps _ p
               (fun p => with_stock (increment (neg (qty it)) (prod_stock p)) p) Hp).
    rewrite IH, products_exist_alter. reflexivity.
  - rewrite bool_decide_eq_false_2; [reflexivity|]. by intros [? ?].
Qed.

(** The stock of each product after the decrements of a batch. *)
Lemma decrement_all_lookup (its : list OrderItem) (ps : gmap string Product) (j : string) :
  decrement_all its ps !! j
  = (fun p => with_stock (stock_after its j (prod_stock p)) p) <$> ps !! j.
Proof.
  revert ps. induction its as [|it its IH]; intros ps.
  - cbn. destruct (ps !! j) as [[]|]; reflexivity.
  - unfold decrement_all, stock_after. cbn [fold_left].
    fold (decrement_all its). fold (stock_after its j).
    destruct (counted it); cbn [andb]; [|apply IH].
    rewrite IH, lookup_alter.
    destruct (decide (productId it = j)) as [Hj|Hj].
    + rewrite (bool_decide_eq_true_2 _ Hj). subst j.
      destruct (ps !! productId it) as [p|]; reflexivity.
    + by rewrite (bool_decide_eq_false_2 _ Hj).
Qed.

(** A product named by one counted line loses that line's quantity. *)
Lemma stock_after_single (its : list OrderItem) (j : string) (it : OrderItem)
  (s : option number) :
  filter (fun it' => counted it' && bool_decide (productId it' = j) = true) its = [it] ->
  stock_after its j s = increment (neg (qty it)) s.
Proof.
  unfold stock_after. revert s. induction its as [|it' its IH]; intros s H; [discriminate|].
  cbn [fold_left]. rewrite filter_cons in H.
  destruct (decide _) as [Hd|Hd].
  - injection H as -> Hnil. rewrite Hd.
    clear IH. generalize (increment (neg (qty it)) s). intros s'.
    induction its as [|a its IH]; [reflexivity|].
    rewrite filter_cons in Hnil. destruct (decide _) as [|Ha]; [discriminate|].
    cbn [fold_left]. apply not_true_is_false in Ha. rewrite Ha. by apply IH.
  - apply not_true_is_false in Hd. rewrite Hd. by apply IH.
Qed.

(** ** The shape of a run of [stripeWebhook] *)

Lemma webhook_rejected (req : WebhookRequest) (w : World) (msg : string) :
  constructEvent env (rawBody req) (stripe_signature req) (WH_SECRET env) = inl msg ->
  stripeWebhook env req w = (send 400 ("Webhook Error: " +:+ msg), w).
Proof. intros H. unfold stripeWebhook. by rewrite H. Qed.

Lemma webhook_unmatched (req : WebhookRequest) (w : World) (ev : Event) :
  verified env req ev -> ¬ reconcilable ev w ->
  stripeWebhook env req w = (end_ 200, w).
Proof.
  unfold verified, reconcilable. intros Hv Hn. unfold stripeWebhook. rewrite Hv.
  unfold stripeWebhook_body, try_catch.
  destruct (String.eqb (type ev) _) eqn:Ht; [|reflexivity].
  apply String.eqb_eq in Ht. cbv zeta. cbn [truthy].
  destruct (String.eqb (metadata_firebaseOrderId (data_object ev)) "") eqn:Hk; [reflexivity|].
  apply String.eqb_neq in Hk. cbn [negb].
  unfold mbind, M_bind, orders_get.
  destruct (orders w !! _) as [o|] eqn:Ho; [|reflexivity].
  destruct Hn. by repeat split.
Qed.

Lemma webhook_matched (req : WebhookRequest) (w : World) (ev : Event) (o : Order) :
  verified env req ev ->
  type ev = "checkout.session.completed" ->
  metadata_firebaseOrderId (data_object ev) ≠ "" ->
  orders w !! metadata_firebaseOrderId (data_object ev) = Some o ->
  stripeWebhook env req w =
  if products_exist (products w) (items o)
  then (end_ 200, settled (data_object ev) o w)
  else (send 500 "Webhook handling error", w).
Proof.
  unfold verified. intros Hv Ht Hk Ho. unfold stripeWebhook. rewrite Hv.
  unfold stripeWebhook_body, try_catch. rewrite Ht, String.eqb_refl. cbv zeta.
  cbn [truthy]. apply String.eqb_neq in Hk. rewrite Hk. cbn [negb].
  unfold mbind, M_bind, orders_get. rewrite Ho.
  unfold batch_commit. rewrite apply_stock_writes.
  destruct (products_exist _ _); [|reflexivity].
  cbn [apply_writes apply_write fst snd]. rewrite Ho. reflexivity.
Qed.

Lemma products_exist_decrement_all (its' its : list OrderItem) (ps : gmap string Product) :
  products_exist (decrement_all its' ps) its = products_exist ps its.
Proof.
  revert ps. induction its' as [|it its' IH]; intros ps; [reflexivity|].
  change (decrement_all (it :: its') ps)
    with (decrement_all its'
            (if counted it
             then alter (fun p => with_stock (increment (neg (qty it)) (prod_stock p)) p)
                    (productId it) ps
             else ps)).
  rewrite IH. destruct (counted it); [apply products_exist_alter|reflexivity].
Qed.

Lemma stock_after_single_lookup (its : list OrderItem) (ps : gmap string Product)
  (j : string) (it : OrderItem) (p : Product) (s : number) :
  ps !! j = Some p -> prod_stock p = Some s ->
  filter (fun it' => counted it' && bool_decide (productId it' = j) = true) its = [it] ->
  prod_stock <$> decrement_all its ps !! j = Some (Some (add s (neg (qty it)))).
Proof.
  intros Hp Hs Hone. rewrite decrement_all_lookup, Hp. cbn.
  by rewrite (stock_after_single its j it _ Hone), Hs.
Qed.

(** A product that no counted line names keeps its document. *)
Lemma decrement_all_other (its : list OrderItem) (ps : gmap string Product) (j : string) :
  (∀ it, it ∈ its -> counted it = true -> productId it ≠ j) ->
  decrement_all its ps !! j = ps !! j.
Proof.
  intros Hother. rewrite decrement_all_lookup.
  assert (Hs : ∀ s, stock_after its j s = s).
  { unfold stock_after. induction its as [|it its IH]; intros s; [reflexivity|].
    cbn [fold_left]. destruct (counted it) eqn:Hc; cbn [andb].
    - rewrite bool_decide_eq_false_2; [|apply Hother; [left|done]].
      apply IH. intros it' Hin. apply Hother. by right.
    - apply IH. intros it' Hin. apply Hother. by right. }
  destruct (ps !! j) as [p|]; [|reflexivity]. cbn. rewrite Hs. by destruct p.
Qed.

(** ** Claims on [stripeWebhook] *)

(** C1 (amended).  For a verified [checkout.session.completed] event
    whose metadata name an existing order, the run has one of two
    outcomes and no other.  When every counted line of the order names a
    product document that exists, the answer is 200 and one batch is
    committed: the order becomes [paid], its total is the reported total
    over 100, its taxes are [round2] of that total minus the reported
    subtotal over 100, both sub-taxes are zero, the payment-intent
    identifier and the server's time are recorded, and each product's
    stock has lost the quantity of every counted line that names it (a
    product named by one such line has lost exactly that line's
    quantity, which on safe integers is the difference of the integers;
    a product named by none is untouched).  Otherwise the batch is
    refused as a whole: the answer is 500 and the world is left as it
    was. *)
Theorem completion_commits_atomically (req : WebhookRequest) (w : World) (ev : Event)
  (o : Order) :
  verified env req ev ->
  type ev = "checkout.session.completed" ->
  metadata_firebaseOrderId (data_object ev) ≠ "" ->
  orders w !! metadata_firebaseOrderId (data_object ev) = Some o ->
  let session := data_object ev in
  let k := metadata_firebaseOrderId session in
  let run := stripeWebhook env req w in
  (products_exist (products w) (items o) = true ->
     run.1 = end_ 200
     ∧ (∃ o', orders run.2 = <[k := o']> (orders w)
          ∧ status o' = paid
          ∧ total o' = div (or_zero (amount_total session)) hundred
          ∧ taxes o' = round2 (sub (total o')
                                 (div (or_zero (amount_subtotal session)) hundred))
          ∧ (tps o', tvq o') = (zero, zero)
          ∧ stripePaymentIntentId o' = payment_intent session
          ∧ paidAt o' = Some (clock w)
          ∧ (items o', subtotal o', createdAt o', stripeSessionId o')
            = (items o, subtotal o, createdAt o, stripeSessionId o))
     ∧ (∀ j, products run.2 !! j
             = (fun p => with_stock (stock_after (items o) j (prod_stock p)) p)
               <$> products w !! j)
     ∧ (∀ j it p s,
          products w !! j = Some p -> prod_stock p = Some s ->
          filter (fun it' => counted it' && bool_decide (productId it' = j) = true)
            (items o) = [it] ->
          prod_stock <$> products run.2 !! j = Some (Some (add s (neg (qty it)))))
     ∧ (∀ j it p a b,
          products w !! j = Some p -> prod_stock p = Some (of_Z a) -> qty it = of_Z b ->
          safe a -> safe b -> safe (a - b) ->
          filter (fun it' => counted it' && bool_decide (productId it' = j) = true)
            (items o) = [it] ->
          prod_stock <$> products run.2 !! j = Some (Some (of_Z (a - b))))
     ∧ (∀ j, (∀ it, it ∈ items o -> counted it = true -> productId it ≠ j) ->
          products run.2 !! j = products w !! j)
     ∧ effects run.2 = effects w ++ [BatchCommitted k])
  ∧ (products_exist (products w) (items o) = false ->
     run = (send 500 "Webhook handling error", w)).
Proof.
  intros Hv Ht Hk Ho session k run.
  unfold run. rewrite (webhook_matched req w ev o Hv Ht Hk Ho).
  split; intros ->; [|reflexivity].
  cbn [fst snd]. split; [reflexivity|]. split; [|split; [|split; [|split; [|split]]]].
  - eexists. split; [reflexivity|]. by repeat split.
  - intros j. apply decrement_all_lookup.
  - intros j it p s Hp Hs Hone. by apply stock_after_single_lookup with p.
  - intros j it p a b Hp Hs Hq Ha Hb Hab Hone.
    cbn [settled log set_store products].
    rewrite (stock_after_single_lookup _ _ j it p (of_Z a) Hp Hs Hone), Hq.
    by rewrite decrement_of_Z.
  - intros j Hother. by apply decrement_all_other.
  - reflexivity.
Qed.

(** C2.  A payload the processor's library does not accept is answered
    400 with the library's message and the world is left as it was,
    whatever the payload holds.  An accepted event that is not a
    [checkout.session.completed] event, or carries no order identifier,
    or names an order that does not exist, is answered 200 and the world
    is left as it was.  So a run that changes the world had an accepted
    event of that type naming an existing order. *)
Theorem webhook_ignores_unmatched (req : WebhookRequest) (w : World) :
  (∀ msg,
     constructEvent env (rawBody req) (stripe_signature req) (WH_SECRET env) = inl msg ->
     stripeWebhook env req w = (send 400 ("Webhook Error: " +:+ msg), w))
  ∧ (∀ ev, verified env req ev -> ¬ reconcilable ev w ->
       stripeWebhook env req w = (end_ 200, w))
  ∧ ((stripeWebhook env req w).2 ≠ w -> ∃ ev, verified env req ev ∧ reconcilable ev w).
Proof.
  split; [apply webhook_rejected|]. split; [apply webhook_unmatched|].
  intros Hchanged.
  destruct (constructEvent env (rawBody req) (stripe_signature req) (WH_SECRET env))
    as [msg|ev] eqn:Hc.
  - rewrite (webhook_rejected req w msg Hc) in Hchanged. by destruct Hchanged.
  - exists ev. split; [exact Hc|].
    destruct (decide (type ev = "checkout.session.completed")) as [Ht|Ht];
      [destruct (decide (metadata_firebaseOrderId (data_object ev) = "")) as [Hk|Hk];
       [|destruct (orders w !! metadata_firebaseOrderId (data_object ev)) as [o|] eqn:Ho;
         [by repeat split|]]|];
      (rewrite (webhook_unmatched req w ev Hc) in Hchanged; [by destruct Hchanged|]);
      unfold reconcilable; intros (? & ? & Hsome); try done.
    rewrite Ho in Hsome. by destruct Hsome.
Qed.

(** C8.  The same accepted event delivered a second time, at whatever
    time, is answered 200 again.  The order stays [paid] with the same
    taxes and total.  The stock is not left alone: every product loses
    the quantities of the lines that name it once more, so that a product
    named by one counted line has lost that line's quantity twice: a
    stock of [a] and a quantity of [b], safe integers, leave [a - b - b]. *)
Theorem replay_decrements_again (req : WebhookRequest) (w : World) (ev : Event)
  (o : Order) (t : Z) :
  verified env req ev ->
  type ev = "checkout.session.completed" ->
  metadata_firebaseOrderId (data_object ev) ≠ "" ->
  orders w !! metadata_firebaseOrderId (data_object ev) = Some o ->
  products_exist (products w) (items o) = true ->
  let k := metadata_firebaseOrderId (data_object ev) in
  let first := stripeWebhook env req w in
  let second := stripeWebhook env req (at_time t first.2) in
  first.1 = end_ 200 ∧ second.1 = end_ 200
  ∧ (∃ o1 o2, orders first.2 !! k = Some o1 ∧ orders second.2 !! k = Some o2
       ∧ status o1 = paid ∧ status o2 = paid
       ∧ (taxes o2, total o2, tps o2, tvq o2) = (taxes o1, total o1, tps o1, tvq o1))
  ∧ (∀ j, products second.2 !! j
          = (fun p => with_stock (stock_after (items o) j (prod_stock p)) p)
            <$> products first.2 !! j)
  ∧ (∀ j it p s,
       products w !! j = Some p -> prod_stock p = Some s ->
       filter (fun it' => counted it' && bool_decide (productId it' = j) = true)
         (items o) = [it] ->
       prod_stock <$> products first.2 !! j = Some (Some (add s (neg (qty it))))
       ∧ prod_stock <$> products second.2 !! j
         = Some (Some (add (add s (neg (qty it))) (neg (qty it))))
       ∧ (∀ a b, s = of_Z a -> qty it = of_Z b ->
            safe a -> safe b -> safe (a - b) -> safe (a - b - b) ->
            prod_stock <$> products second.2 !! j = Some (Some (of_Z (a - b - b))))).
Proof.
  intros Hv Ht Hk Ho Hex k first second.
  assert (Hfirst : first = (end_ 200, settled (data_object ev) o w)).
  { unfold first. by rewrite (webhook_matched req w ev o Hv Ht Hk Ho), Hex. }
  set (o1 := mark_paid (session_taxes (data_object ev)) (session_total (data_object ev))
               (payment_intent (data_object ev)) (clock w) o).
  assert (Ho1 : orders (at_time t first.2) !! k = Some o1).
  { rewrite Hfirst. cbn. apply lookup_insert_eq. }
  assert (Hex1 : products_exist (products (at_time t first.2)) (items o1) = true).
  { rewrite Hfirst. cbn [at_time products snd settled log set_store items o1 mark_paid].
    by rewrite products_exist_decrement_all. }
  assert (Hsecond : second = (end_ 200, settled (data_object ev) o1 (at_time t first.2))).
  { unfold second. by rewrite (webhook_matched req _ ev o1 Hv Ht Hk Ho1), Hex1. }
  rewrite Hsecond, Hfirst. cbn [fst snd].
  split; [reflexivity|]. split; [reflexivity|]. split; [|split].
  - exists o1, (mark_paid (session_taxes (data_object ev)) (session_total (data_object ev))
                  (payment_intent (data_object ev)) t o1).
    split; [apply lookup_insert_eq|]. split; [apply lookup_insert_eq|]. by repeat split.
  - intros j. apply decrement_all_lookup.
  - intros j it p s Hp Hs Hone. split.
    + by apply stock_after_single_lookup with p.
    + assert (Htwice : prod_stock <$>
                products (settled (data_object ev) o1 (at_time t (settled (data_object ev) o w)))
                !! j
              = Some (Some (add (add s (neg (qty it))) (neg (qty it))))).
      { cbn [settled log set_store products at_time items o1 mark_paid].
        rewrite !decrement_all_lookup, Hp. cbn.
        by rewrite !(stock_after_single (items o) j it _ Hone), Hs. }
      split; [exact Htwice|].
      intros a b -> Hq Ha Hb Hab Hab2. rewrite Htwice, Hq.
      by rewrite !decrement_of_Z.
Qed.

Lemma or_zero_absent_or_falsy (x : option number) :
  absent_or_falsy x = true -> or_zero x = zero.
Proof.
  destruct x as [n|]; [|reflexivity]. cbn [absent_or_falsy or_zero].
  by intros ->%negb_true_iff.
Qed.

(** C10 (amended).  An amount the accepted event omits, or carries as a
    falsy Number, counts as 0, and the batch is then committed under the
    condition it is committed under with both amounts: every counted
    line of the order names a product document that exists (otherwise
    the store refuses the batch and the answer is 500, as in C1).  The
    answer is then 200 and the order becomes [paid], with total the
    reported total (or 0) over 100 and taxes [round2] of that total
    minus the reported subtotal (or 0) over 100.  So without
    [amount_total] the total is 0; without both amounts the taxes are 0
    too; and without [amount_total] but with a truthy
    [amount_subtotal = s] the taxes are [round2 (0 - s / 100)], which is
    below zero for every whole number of cents [s] from 1 on. *)
Theorem missing_amounts_default_to_zero (req : WebhookRequest) (w : World) (ev : Event)
  (o : Order) :
  verified env req ev ->
  type ev = "checkout.session.completed" ->
  metadata_firebaseOrderId (data_object ev) ≠ "" ->
  orders w !! metadata_firebaseOrderId (data_object ev) = Some o ->
  products_exist (products w) (items o) = true ->
  let session := data_object ev in
  let run := stripeWebhook env req w in
  run.1 = end_ 200
  ∧ ∃ o', orders run.2 !! metadata_firebaseOrderId session = Some o'
      ∧ status o' = paid
      ∧ total o' = div (or_zero (amount_total session)) hundred
      ∧ taxes o' = round2 (sub (total o') (div (or_zero (amount_subtotal session)) hundred))
      ∧ (∀ x, absent_or_falsy x = true -> or_zero x = zero)
      ∧ (absent_or_falsy (amount_total session) = true ->
         total o' = zero
         ∧ (absent_or_falsy (amount_subtotal session) = true -> taxes o' = zero)
         ∧ (∀ s, amount_subtotal session = Some s -> truthy (VNumber s) = true ->
              taxes o' = round2 (sub zero (div s hundred)))
         ∧ (∀ z, (1 <= z)%Z -> amount_subtotal session = Some (of_Z z) ->
              lt (taxes o') zero = true)).
Proof.
  intros Hv Ht Hk Ho Hex session run. subst session run.
  rewrite (webhook_matched req w ev o Hv Ht Hk Ho), Hex. cbn [fst snd].
  split; [reflexivity|]. eexists. split; [apply lookup_insert_eq|].
  cbn [status total taxes mark_paid]. unfold session_taxes, session_total.
  split; [reflexivity|]. split; [reflexivity|]. split; [reflexivity|].
  split; [apply or_zero_absent_or_falsy|].
  intros Hfalsy. rewrite (or_zero_absent_or_falsy _ Hfalsy).
  change (div zero hundred) with zero.
  split; [reflexivity|]. split; [|split].
  - intros Hsub. rewrite (or_zero_absent_or_falsy _ Hsub). reflexivity.
  - intros s Hs Htruthy. rewrite Hs. cbn [or_zero]. by rewrite Htruthy.
  - intros z Hz Hs. rewrite Hs. exact (negative_taxes_from z Hz).
Qed.

End Webhook.

(** ** The clamp on the quantity *)

Section Quantity.

Variable env : Env.




End Quantity.

(** ** The example of the specification, and other runs *)

Lemma checkout_is_well_formed (c : list CartEntry) : well_formed (checkout c) c.
Proof. by repeat split. Defined.

(** The cart [[{id:"p1",quantity:2}]] against a price of 9.99: the order
    is pending with subtotal 19.98 and the session line asks for 999
    cents. *)
Lemma subtotal_example :
  (∃ k o, orders world0 !! k = None
     ∧ orders after_checkout.2 = <[k := o]> (orders world0)
     ∧ status o = pending
     ∧ subtotal o = dec 1998 2)
  ∧ (∃ params, effects after_checkout.2 !! 1%nat = Some (SessionCreateCalled params)
       ∧ (fun l => (li_unit_amount l, li_quantity l)) <$> sp_line_items params
         = [(of_Z 999, of_Z 2)]).
Proof.
  split; [|eexists; split; vm_compute; reflexivity].
  destruct (pending_order_subtotal env1 (checkout cart1) cart1 world0
              (checkout_is_well_formed cart1) eq_refl ltac:(discriminate))
    as [(k & o & Hk & Ho & Hst & _ & Hsub & _) _].
  exists k, o. split; [exact Hk|]. split; [exact Ho|]. split; [exact Hst|].
  rewrite Hsub. vm_compute. reflexivity.
Defined.

(** Nine units asked of a stock of five. *)
Lemma insufficient_stock_example :
  createCheckoutSession env1 (checkout [entry "p1" (VString "9")]) world0
  = (json_error 400 "Stock insuffisant: Widget", world0).
Proof.
  destruct (insufficient_stock_aborts env1 (checkout [entry "p1" (VString "9")]) _ world0
              (checkout_is_well_formed _) eq_refl)
    as (i & p & Hi & Hp & _ & Hrun).
  rewrite Hrun. vm_compute in Hi. injection Hi as <-.
  vm_compute in Hp. injection Hp as <-. reflexivity.
Defined.

(** An unknown identifier next to a known one, and on its own. *)
Lemma unknown_products_example :
  createCheckoutSession env1 (checkout [entry "ghost" (VNumber (of_Z 1)); entry "p1" (VNumber (of_Z 2))]) world0
  = createCheckoutSession env1 (with_cart cart1 (checkout [entry "ghost" (VNumber (of_Z 1)); entry "p1" (VNumber (of_Z 2))])) world0
  ∧ createCheckoutSession env1 (checkout [entry "ghost" (VNumber (of_Z 1))]) world0
    = (json_error 400 "Panier vide", world0).
Proof.
  split.
  - destruct (unknown_products_dropped env1 (checkout [entry "ghost" (VNumber (of_Z 1)); entry "p1" (VNumber (of_Z 2))]) _ world0
                (checkout_is_well_formed _)) as (Hdrop & _ & _).
    apply (Hdrop [] (entry "ghost" (VNumber (of_Z 1))) cart1 eq_refl eq_refl).
  - destruct (unknown_products_dropped env1 (checkout [entry "ghost" (VNumber (of_Z 1))]) _ world0
                (checkout_is_well_formed _)) as (_ & _ & Hempty).
    apply Hempty. reflexivity.
Defined.

(** The effects of the example's checkout. *)
Lemma checkout_effects_example :
  code after_checkout.1 = 200%Z
  ∧ ∃ params, effects after_checkout.2
              = [OrderAdded "0"; SessionCreateCalled params; OrderUpdated "0"]
      ∧ sp_metadata_firebaseOrderId params = "0".
Proof.
  split; [reflexivity|].
  destruct (checkout_effects_in_order env1 (checkout cart1) world0 eq_refl)
    as (k & params & s & o & Heff & Hk & Hmeta & _).
  exists params. change (createCheckoutSession env1 (checkout cart1) world0)
    with after_checkout in Heff.
  assert (k = "0") as ->.
  { assert (H : head (effects after_checkout.2) = Some (OrderAdded k)) by by rewrite Heff.
    vm_compute in H. by injection H. }
  split; [exact Heff|exact Hmeta].
Defined.

(** C5, as the summary line has it, fails on the example: the update
    comes after the call to the processor, whose answer it stores. *)
Lemma summary_order_refuted :
  code after_checkout.1 = 200%Z ∧ ¬ summary_order (effects after_checkout.2).
Proof.
  split; [reflexivity|]. intros (k & params & H).
  assert (H2 : effects after_checkout.2 !! 1%nat = Some (OrderUpdated k)) by by rewrite H.
  vm_compute in H2. discriminate.
Qed.



(** A quantity that is not numeric is kept, and is NaN in the order. *)
Lemma non_numeric_quantity_is_NaN :
  it_quantity <$> retained env1 (products world0) [entry "p1" (VString "abc")] = [NaN].
Proof. reflexivity. Qed.

(** The completion of the example: taxes 2.60, total 22.58, stock 5 - 2. *)
Lemma completion_example :
  after_payment.1 = end_ 200
  ∧ (∃ o', orders after_payment.2 = <["0" := o']> (orders after_checkout.2)
       ∧ status o' = paid ∧ taxes o' = dec 26 1 ∧ total o' = dec 2258 2
       ∧ stripePaymentIntentId o' = Some "pi_1")
  ∧ prod_stock <$> products after_payment.2 !! "p1" = Some (Some (of_Z 3)).
Proof.
  destruct (completion_commits_atomically env1 signed after_checkout.2 ev1 order0
              eq_refl eq_refl ltac:(discriminate) eq_refl)
    as [Hok _].
  destruct (Hok eq_refl)
    as (Hcode & (o' & Ho & Hst & Htot & Htax & _ & Hpi & _) & _ & _ & Hstock & _).
  unfold after_payment. split; [exact Hcode|]. split.
  - exists o'. split; [exact Ho|]. split; [exact Hst|].
    rewrite Htax, Htot, Hpi. repeat split; vm_compute; reflexivity.
  - apply (Hstock "p1" line1 p1 5%Z 2%Z); reflexivity.
Defined.

(** C1, as stated, fails when a product of the order is gone: the event
    is accepted and names an existing order, yet the answer is 500 and
    the order stays pending. *)
Lemma completion_refused_when_product_deleted :
  verified env1 signed ev1
  ∧ type ev1 = "checkout.session.completed"
  ∧ orders product_deleted !! metadata_firebaseOrderId (data_object ev1) = Some order0
  ∧ stripeWebhook env1 signed product_deleted
    = (send 500 "Webhook handling error", product_deleted)
  ∧ status <$> orders (stripeWebhook env1 signed product_deleted).2 !! "0" = Some pending.
Proof. repeat split; vm_compute; reflexivity. Qed.

(** A bad signature, an order that does not exist, another type of event. *)
Lemma webhook_ignores_example :
  stripeWebhook env1 unsigned after_checkout.2
  = (send 400 "Webhook Error: No signatures found matching the expected signature for payload",
     after_checkout.2)
  ∧ stripeWebhook (test_env ev_unknown_order) signed after_checkout.2
    = (end_ 200, after_checkout.2)
  ∧ stripeWebhook (test_env ev_other_type) signed after_checkout.2
    = (end_ 200, after_checkout.2).
Proof.
  split; [|split].
  - destruct (webhook_ignores_unmatched env1 unsigned after_checkout.2) as (H & _ & _).
    apply (H _ eq_refl).
  - destruct (webhook_ignores_unmatched (test_env ev_unknown_order) signed after_checkout.2)
      as (_ & H & _).
    apply (H _ eq_refl). intros (_ & _ & [o Ho]). vm_compute in Ho. discriminate.
  - destruct (webhook_ignores_unmatched (test_env ev_other_type) signed after_checkout.2)
      as (_ & H & _).
    apply (H _ eq_refl). intros (Ht & _). discriminate.
Defined.

(** The event of the example delivered twice: the stock goes 5, 3, 1. *)
Lemma replay_example :
  after_replay.1 = end_ 200
  ∧ prod_stock <$> products after_payment.2 !! "p1" = Some (Some (of_Z 3))
  ∧ prod_stock <$> products after_replay.2 !! "p1" = Some (Some (of_Z 1))
  ∧ status <$> orders after_replay.2 !! "0" = Some paid.
Proof.
  destruct (replay_decrements_again env1 signed after_checkout.2 ev1 order0 4600
              eq_refl eq_refl ltac:(discriminate) eq_refl eq_refl)
    as (_ & Hcode & (o1 & o2 & _ & Ho2 & _ & Hst & _) & _ & Hstock).
  destruct (Hstock "p1" line1 p1 (of_Z 5) eq_refl eq_refl eq_refl) as (H1 & _ & H2).
  unfold after_replay, after_payment. split; [exact Hcode|]. split; [|split].
  - rewrite H1. vm_compute. reflexivity.
  - apply (H2 5%Z 2%Z); reflexivity.
  - change "0"%string with (metadata_firebaseOrderId (data_object ev1)).
    by rewrite Ho2, <- Hst.
Defined.

(** C10, as stated, fails when a product of the order is gone: the
    event without amounts is accepted and names an existing order, yet
    the batch is refused, the answer is 500 and the order stays pending
    with nothing persisted. *)
Lemma missing_amounts_refused_when_product_deleted :
  verified (test_env ev_no_amounts) signed ev_no_amounts
  ∧ type ev_no_amounts = "checkout.session.completed"
  ∧ absent_or_falsy (amount_total (data_object ev_no_amounts)) = true
  ∧ absent_or_falsy (amount_subtotal (data_object ev_no_amounts)) = true
  ∧ orders product_deleted !! metadata_firebaseOrderId (data_object ev_no_amounts)
    = Some order0
  ∧ stripeWebhook (test_env ev_no_amounts) signed product_deleted
    = (send 500 "Webhook handling error", product_deleted)
  ∧ status <$> orders (stripeWebhook (test_env ev_no_amounts) signed product_deleted).2 !! "0"
    = Some pending.
Proof. repeat split; vm_compute; reflexivity. Qed.

(** An event without amounts, and one without the total only. *)
Lemma missing_amounts_example :
  (∃ o', orders (stripeWebhook (test_env ev_no_amounts) signed after_checkout.2).2 !! "0"
         = Some o'
     ∧ status o' = paid ∧ total o' = zero ∧ taxes o' = zero)
  ∧ (∃ o', orders (stripeWebhook (test_env ev_no_total) signed after_checkout.2).2 !! "0"
           = Some o'
       ∧ status o' = paid ∧ total o' = zero ∧ taxes o' = dec (-1998) 2).
Proof.
  split.
  - destruct (missing_amounts_default_to_zero (test_env ev_no_amounts) signed
                after_checkout.2 ev_no_amounts order0
                eq_refl eq_refl ltac:(discriminate) eq_refl eq_refl)
      as (_ & o' & Ho & Hst & _ & _ & _ & Hzero).
    destruct (Hzero eq_refl) as (Htot & Htax & _).
    exists o'. split; [exact Ho|]. split; [exact Hst|]. split; [exact Htot|].
    apply Htax. reflexivity.
  - destruct (missing_amounts_default_to_zero (test_env ev_no_total) signed
                after_checkout.2 ev_no_total order0
                eq_refl eq_refl ltac:(discriminate) eq_refl eq_refl)
      as (_ & o' & Ho & Hst & _ & _ & _ & Hzero).
    destruct (Hzero eq_refl) as (Htot & _ & Htax & _).
    exists o'. split; [exact Ho|]. split; [exact Hst|]. split; [exact Htot|].
    rewrite (Htax (of_Z 1998) eq_refl eq_refl). vm_compute. reflexivity.
Defined.

(** C6.  Three units in stock; two buyers each check out two, each
    passing the stock check; both pay.  Both events are answered 200,
    both orders are paid, and the stock of the product is -1. *)
Theorem stock_goes_negative :
  prod_stock <$> products world_three !! "p1" = Some (Some (of_Z 3))
  ∧ code two_checkouts.1 = 200%Z
  ∧ both_paid.1 = end_ 200
  ∧ status <$> orders both_paid.2 !! "0" = Some paid
  ∧ status <$> orders both_paid.2 !! "1" = Some paid
  ∧ prod_stock <$> products both_paid.2 !! "p1" = Some (Some (of_Z (-1))).
Proof. repeat split; vm_compute; reflexivity. Qed.

(** * Further properties of the two handlers *)

(** ** Rounding, within one part in [2^52] *)

Section Enclosure.

Local Open Scope Z_scope.

Lemma Zdigits2_unique (m d : Z) : 0 < d -> 2 ^ (d - 1) <= m < 2 ^ d -> Zdigits2 m = d.
Proof.
  intros Hd [Hl Hu].
  assert (0 < m) by (pose proof (Z.pow_pos_nonneg 2 (d - 1)); lia).
  rewrite Zdigits2_log2 by done.
  rewrite (Z.log2_unique m (d - 1)); [lia|lia|].
  replace (Z.succ (d - 1)) with d by lia. done.
Qed.

Lemma shr_fexp_value (m e : Z) (l : location) :
  0 < m -> emin prec emax + prec <= Zdigits2 m + e ->
  shr_m (shr_fexp prec emax m e l).1 = m / 2 ^ Z.max 0 (Zdigits2 m - prec)
  ∧ (shr_fexp prec emax m e l).2 = e + Z.max 0 (Zdigits2 m - prec).
Proof.
  intros Hm Hn. unfold shr_fexp, shr, fexp.
  rewrite (Z.max_l (Zdigits2 m + e - prec)) by lia.
  assert (Hrec : shr_m (shr_record_of_loc m l) = m) by by destruct l as [|[]].
  destruct (Zdigits2 m + e - prec - e) as [|p|p] eqn:Hp; cbn [fst snd]; rewrite ?Hrec.
  - replace (Z.max 0 (Zdigits2 m - prec)) with 0 by lia.
    rewrite Z.div_1_r. split; lia.
  - rewrite iter_shr_m by lia. rewrite Hrec.
    replace (Z.max 0 (Zdigits2 m - prec)) with (Zpos p) by lia. done.
  - replace (Z.max 0 (Zdigits2 m - prec)) with 0 by lia.
    rewrite Z.div_1_r. split; lia.
Qed.

(** Rounding a mantissa of at least 53 bits, in the normal range: the
    result is one of the two neighbours of the mantissa cut to 53 bits. *)
Lemma round_aux_enclosure (mx ex : Z) (l : location) :
  2 ^ 52 <= mx ->
  emin prec emax + prec <= Zdigits2 mx + ex -> Zdigits2 mx + ex <= emax - 1 ->
  ∃ m e, binary_round_aux prec emax false mx ex l = S754_finite false m e
    ∧ 2 ^ 52 <= Zpos m < 2 ^ 53
    ∧ ex + (Zdigits2 mx - prec) <= e <= ex + (Zdigits2 mx - prec) + 1
    ∧ (Zpos m * 2 ^ (e - (ex + (Zdigits2 mx - prec))) = mx / 2 ^ (Zdigits2 mx - prec)
       ∨ Zpos m * 2 ^ (e - (ex + (Zdigits2 mx - prec)))
         = mx / 2 ^ (Zdigits2 mx - prec) + 1).
Proof.
  intros Hmx Hlo Hhi.
  assert (Hpos : 0 < mx) by lia.
  assert (Hd : prec <= Zdigits2 mx) by (apply (Zdigits2_ge mx 52); lia).
  set (n := Zdigits2 mx - prec) in *.
  unfold binary_round_aux.
  destruct (shr_fexp_value mx ex l Hpos Hlo) as [H1 H2].
  rewrite Z.max_r in H1, H2 by lia. fold n in H1, H2.
  destruct (shr_fexp prec emax mx ex l) as [mrs e1]. cbn [fst snd] in H1, H2.
  destruct (Zdigits2_shiftr mx n Hpos ltac:(unfold prec in *; lia)) as [Hq Hdq].
  set (m1 := mx / 2 ^ n) in *.
  assert (Hm1 : 2 ^ 52 <= m1 < 2 ^ 53).
  { pose proof (Zdigits2_lower m1 Hq) as Hl. rewrite Hdq in Hl.
    replace (Zdigits2 mx - n) with 53 in Hl by (unfold n, prec; lia). exact Hl. }
  set (m2 := round_nearest_even (shr_m mrs) (loc_of_shr_record mrs)).
  assert (Hm2 : m2 = m1 ∨ m2 = m1 + 1).
  { unfold m2. rewrite H1. apply round_nearest_even_range. }
  destruct (Z.eq_dec m2 (2 ^ 53)) as [Etop|Ntop].
  - assert (Hd2 : Zdigits2 m2 = 54) by (rewrite Etop; reflexivity).
    destruct (shr_fexp_value m2 e1 loc_Exact ltac:(lia)
                ltac:(unfold emin, prec, emax in *; lia)) as [H3 H4].
    rewrite Hd2 in H3, H4. change (Z.max 0 (54 - prec)) with 1 in H3, H4.
    destruct (shr_fexp prec emax m2 e1 loc_Exact) as [mrs2 e2]. cbn [fst snd] in H3, H4.
    rewrite H3, Etop. change (2 ^ 53 / 2 ^ 1) with (Zpos 4503599627370496).
    cbv iota beta.
    destruct (Z.leb_spec e2 (emax - prec)) as [_|Hbad];
      [|unfold n, emin, prec, emax in *; lia].
    exists 4503599627370496%positive, e2.
    split; [reflexivity|]. split; [lia|]. split; [lia|].
    right. replace (e2 - (ex + n)) with 1 by lia. lia.
  - assert (Hr : 2 ^ 52 <= m2 < 2 ^ 53) by lia.
    assert (Hd2 : Zdigits2 m2 = 53) by (apply Zdigits2_unique; [lia|exact Hr]).
    destruct (shr_fexp_value m2 e1 loc_Exact ltac:(lia)
                ltac:(unfold emin, prec, emax in *; lia)) as [H3 H4].
    rewrite Hd2 in H3, H4. change (Z.max 0 (53 - prec)) with 0 in H3, H4.
    rewrite Z.div_1_r in H3.
    destruct (shr_fexp prec emax m2 e1 loc_Exact) as [mrs2 e2]. cbn [fst snd] in H3, H4.
    rewrite H3. destruct m2 as [|p2|p2] eqn:Ep; try lia.
    destruct (Z.leb_spec e2 (emax - prec)) as [_|Hbad];
      [|unfold n, emin, prec, emax in *; lia].
    exists p2, e2. split; [reflexivity|]. split; [lia|]. split; [lia|].
    replace (e2 - (ex + n)) with 0 by lia. lia.
Qed.

End Enclosure.

Section Accuracy.

Local Open Scope Q_scope.

Lemma pow2_pos (e : Z) : 0 < 2 ^ e.
Proof. by apply Qpower_0_lt. Qed.

Lemma pow2_add (a b : Z) : 2 ^ (a + b) == 2 ^ a * 2 ^ b.
Proof. by apply Qpower_plus. Qed.

Lemma pow2_Z (n : Z) : (0 <= n)%Z -> inject_Z (2 ^ n) == 2 ^ n.
Proof. intros Hn. by rewrite Zpower_Qpower. Qed.

Lemma dyadic_shift (m e n : Z) : (0 <= n)%Z -> dyadic (m * 2 ^ n) e == dyadic m (e + n).
Proof.
  intros Hn. unfold dyadic. rewrite inject_Z_mult, pow2_Z, pow2_add by done. ring.
Qed.

Lemma dyadic_le (a b e : Z) : (a <= b)%Z -> dyadic a e <= dyadic b e.
Proof.
  intros H. unfold dyadic. apply Qmult_le_compat_r; [by rewrite <- Zle_Qle|].
  apply Qlt_le_weak, pow2_pos.
Qed.

Lemma round_aux_near (mx ex : Z) (l : location) (t : Q) :
  (2 ^ 52 <= mx)%Z ->
  (emin prec emax + prec <= Zdigits2 mx + ex)%Z -> (Zdigits2 mx + ex <= emax - 1)%Z ->
  dyadic mx ex <= t -> t <= dyadic (mx + 1) ex ->
  ∃ m e, binary_round_aux prec emax false mx ex l = S754_finite false m e
    ∧ (2 ^ 52 <= Zpos m < 2 ^ 53)%Z
    ∧ (ex + (Zdigits2 mx - prec) <= e <= ex + (Zdigits2 mx - prec) + 1)%Z
    ∧ t * (1 - ulp_ratio) <= dyadic (Zpos m) e
    ∧ dyadic (Zpos m) e <= t * (1 + ulp_ratio).
Proof.
  intros Hmx Hlo Hhi Ht1 Ht2.
  destruct (round_aux_enclosure mx ex l Hmx Hlo Hhi) as (m & e & E & Hm & He & HM).
  exists m, e. split; [exact E|]. split; [exact Hm|]. split; [exact He|].
  assert (Hd : (prec <= Zdigits2 mx)%Z) by (apply (Zdigits2_ge mx 52); lia).
  set (n := (Zdigits2 mx - prec)%Z) in *.
  set (m1 := (mx / 2 ^ n)%Z) in *.
  assert (Hn : (0 <= n)%Z) by lia.
  assert (Hp : (0 < 2 ^ n)%Z) by (apply Z.pow_pos_nonneg; lia).
  assert (Hdiv1 : (m1 * 2 ^ n <= mx)%Z).
  { unfold m1. rewrite Z.mul_comm. apply Z.mul_div_le. lia. }
  assert (Hdiv2 : (mx + 1 <= (m1 + 1) * 2 ^ n)%Z).
  { unfold m1. pose proof (Z.mul_succ_div_gt mx (2 ^ n) Hp). lia. }
  assert (Hm1 : (2 ^ 52 <= m1)%Z).
  { unfold m1. apply Z.div_le_lower_bound; [done|].
    pose proof (Zdigits2_lower mx ltac:(lia)) as [Hl _].
    replace (Zdigits2 mx - 1)%Z with (n + 52)%Z in Hl by (unfold n, prec; lia).
    rewrite Z.pow_add_r in Hl by lia. lia. }
  set (P := 2 ^ (ex + n)).
  assert (HP : 0 < P) by apply pow2_pos.
  set (u := dyadic m1 (ex + n)).
  assert (Hu1 : u <= t).
  { apply Qle_trans with (dyadic mx ex); [|exact Ht1].
    unfold u. rewrite <- dyadic_shift by done. by apply dyadic_le. }
  assert (Hu2 : t <= u + P).
  { apply Qle_trans with (dyadic (mx + 1) ex); [exact Ht2|].
    assert (E1 : u + P == dyadic (m1 + 1) (ex + n)).
    { unfold u, P, dyadic. rewrite inject_Z_plus. ring. }
    rewrite E1, <- dyadic_shift by done. by apply dyadic_le. }
  assert (HuP : P <= u * ulp_ratio).
  { unfold u, dyadic. fold P.
    assert (1 <= inject_Z m1 * ulp_ratio).
    { rewrite Zle_Qle in Hm1. unfold ulp_ratio.
      change (inject_Z (2 ^ 52)) with (4503599627370496 # 1) in Hm1. lra. }
    nra. }
  assert (Hval : dyadic (Zpos m) e == u ∨ dyadic (Zpos m) e == u + P).
  { assert (Hs : dyadic (Zpos m) e == dyadic (Zpos m * 2 ^ (e - (ex + n))) (ex + n)).
    { rewrite dyadic_shift by lia. by replace (ex + n + (e - (ex + n)))%Z with e by lia. }
    destruct HM as [HM|HM]; rewrite HM in Hs; [by left|right].
    rewrite Hs. unfold u, P, dyadic. rewrite inject_Z_plus. ring. }
  unfold ulp_ratio in *.
  destruct Hval as [Hv|Hv]; rewrite Hv; split; lra.
Qed.

Lemma round_aux_is_near (mx ex : Z) (l : location) (t : Q) :
  (2 ^ 52 <= mx)%Z ->
  (emin prec emax + prec <= Zdigits2 mx + ex)%Z -> (Zdigits2 mx + ex <= emax - 1)%Z ->
  dyadic mx ex <= t -> t <= dyadic (mx + 1) ex ->
  near (binary_round_aux prec emax false mx ex l) t.
Proof.
  intros Hmx Hlo Hhi Ht1 Ht2.
  destruct (round_aux_near mx ex l t Hmx Hlo Hhi Ht1 Ht2) as (m & e & -> & Hm & _ & H1 & H2).
  unfold near. cbn [pnormal val cond_Zopp]. split; [exact Hm|]. split; assumption.
Qed.

Lemma near_compat (r : number) (t t' : Q) : t == t' -> near r t -> near r t'.
Proof. unfold near. intros E (H0 & H1 & H2). rewrite <- E. done. Qed.

Lemma shl_align_dyadic (m : positive) (e e' : Z) :
  dyadic (Zpos (shl_align m e e').1) (shl_align m e e').2 == dyadic (Zpos m) e.
Proof.
  destruct (Z.le_gt_cases e' e) as [H|H].
  - destruct (shl_align_value m e e' H) as [-> ->].
    rewrite dyadic_shift by lia. by replace (e' + (e - e'))%Z with e by lia.
  - unfold shl_align. destruct (e' - e)%Z as [|d|d] eqn:Hd; try lia; reflexivity.
Qed.

Lemma Zdigits2_upper (m k : Z) : (0 < m)%Z -> (m < 2 ^ k)%Z -> (Zdigits2 m <= k)%Z.
Proof.
  intros Hm Hk. pose proof (Zdigits2_lower m Hm) as [Hl _].
  destruct (Z.le_gt_cases (Zdigits2 m) k) as [|Hgt]; [done|].
  assert ((2 ^ k <= 2 ^ (Zdigits2 m - 1))%Z); [|lia].
  apply Z.pow_le_mono_r; [lia|lia].
Qed.

(** Rounding an integer multiple of a power of two. *)
Lemma round_is_near (p : positive) (e : Z) :
  (emin prec emax + prec <= Zpos (digits2_pos p) + e)%Z ->
  (Zpos (digits2_pos p) + e <= emax - 1)%Z ->
  near (binary_round prec emax false p e) (dyadic (Zpos p) e).
Proof.
  intros Hlo Hhi. unfold binary_round.
  pose proof (shl_align_digits p e (fexp prec emax (Zpos (digits2_pos p) + e))) as Hdig.
  pose proof (shl_align_dyadic p e (fexp prec emax (Zpos (digits2_pos p) + e))) as Hval.
  assert (Hez : ((shl_align p e (fexp prec emax (Zpos (digits2_pos p) + e))).2
                 <= Zpos (digits2_pos p) + e - prec)%Z).
  { unfold shl_align, fexp. rewrite Z.max_l by lia.
    destruct (Z.pos (digits2_pos p) + e - prec - e)%Z as [|d|d] eqn:Hd; cbn [snd]; lia. }
  destruct (shl_align p e _) as [mz ez]. cbn [fst snd] in *.
  assert (Hmz : (2 ^ 52 <= Zpos mz)%Z).
  { pose proof (Zdigits2_lower (Zpos mz) ltac:(lia)) as [Hl _]. cbn [Zdigits2] in Hl.
    apply Z.le_trans with (2 ^ (Zpos (digits2_pos mz) - 1))%Z; [|exact Hl].
    apply Z.pow_le_mono_r; unfold prec in *; lia. }
  apply round_aux_is_near; cbn [Zdigits2]; try lia.
  - rewrite Hval. apply Qle_refl.
  - rewrite <- Hval. apply dyadic_le. lia.
Qed.

Lemma pnormal_form (x : number) :
  pnormal x -> ∃ m e, x = S754_finite false m e ∧ (2 ^ 52 <= Zpos m < 2 ^ 53)%Z.
Proof. destruct x as [| | |[] m e]; try done. intros H. by exists m, e. Qed.

(** The sum of two positive Numbers. *)
Lemma add_is_near (x y : number) :
  pnormal x -> pnormal y ->
  (-1000 <= expo x <= 900)%Z -> (-1000 <= expo y <= 900)%Z ->
  near (add x y) (val x + val y).
Proof.
  intros (m1 & e1 & -> & Hm1)%pnormal_form (m2 & e2 & -> & Hm2)%pnormal_form He1 He2.
  cbn [expo] in He1, He2. unfold add. cbn [SFadd cond_Zopp val].
  set (ez := Z.min e1 e2).
  destruct (shl_align_value m1 e1 ez ltac:(lia)) as [Ha _].
  destruct (shl_align_value m2 e2 ez ltac:(lia)) as [Hb _].
  rewrite Ha, Hb.
  assert (Hp1 : (0 < 2 ^ (e1 - ez))%Z) by (apply Z.pow_pos_nonneg; lia).
  assert (Hp2 : (0 < 2 ^ (e2 - ez))%Z) by (apply Z.pow_pos_nonneg; lia).
  destruct (Z.pos m1 * 2 ^ (e1 - ez) + Z.pos m2 * 2 ^ (e2 - ez))%Z as [|p|p] eqn:Hs; try nia.
  cbn [binary_normalize].
  assert (Hval : dyadic (Zpos p) ez == dyadic (Zpos m1) e1 + dyadic (Zpos m2) e2).
  { rewrite <- Hs. unfold dyadic at 1. rewrite inject_Z_plus.
    fold (dyadic (Zpos m1 * 2 ^ (e1 - ez)) ez). fold (dyadic (Zpos m2 * 2 ^ (e2 - ez)) ez).
    transitivity (dyadic (Zpos m1 * 2 ^ (e1 - ez)) ez + dyadic (Zpos m2 * 2 ^ (e2 - ez)) ez);
      [unfold dyadic; ring|].
    rewrite !dyadic_shift by lia.
    replace (ez + (e1 - ez))%Z with e1 by lia. by replace (ez + (e2 - ez))%Z with e2 by lia. }
  set (em := Z.max e1 e2).
  assert (Hlow : (2 ^ (52 + (em - ez)) <= Zpos p)%Z).
  { rewrite Z.pow_add_r by lia. unfold em.
    destruct (Z.max_spec e1 e2) as [[_ ->]|[_ ->]]; nia. }
  assert (Hup : (Zpos p < 2 ^ (54 + (em - ez)))%Z).
  { replace (54 + (em - ez))%Z with (1 + (53 + (em - ez)))%Z by lia.
    rewrite Z.pow_add_r, (Z.pow_add_r 2 53) by lia. change (2 ^ 1)%Z with 2%Z.
    assert (H1 : (2 ^ (e1 - ez) <= 2 ^ (em - ez))%Z) by (apply Z.pow_le_mono_r; lia).
    assert (H2 : (2 ^ (e2 - ez) <= 2 ^ (em - ez))%Z) by (apply Z.pow_le_mono_r; lia).
    nia. }
  apply Zdigits2_ge in Hlow; [|lia]. apply Zdigits2_upper in Hup; [|lia].
  cbn [Zdigits2] in Hlow, Hup.
  apply (near_compat _ _ _ Hval). apply round_is_near; unfold emin, prec, emax; lia.
Qed.

Lemma dyadic_lt_inv (a b e : Z) : dyadic a e < dyadic b e -> (a < b)%Z.
Proof.
  intros H. destruct (Z.lt_ge_cases a b) as [|Hge]; [done|].
  apply (dyadic_le _ _ e) in Hge. lra.
Qed.

(** The difference of two positive Numbers, the larger first. *)
Lemma sub_is_near (x y : number) :
  pnormal x -> pnormal y ->
  (-1000 <= expo x <= 900)%Z -> (-1000 <= expo y <= 900)%Z ->
  val y < val x ->
  near (sub x y) (val x - val y).
Proof.
  intros (m1 & e1 & -> & Hm1)%pnormal_form (m2 & e2 & -> & Hm2)%pnormal_form He1 He2.
  cbn [expo] in He1, He2. unfold sub. cbn [SFsub cond_Zopp val]. intros Hlt.
  set (ez := Z.min e1 e2).
  destruct (shl_align_value m1 e1 ez ltac:(lia)) as [Ha _].
  destruct (shl_align_value m2 e2 ez ltac:(lia)) as [Hb _].
  rewrite Ha, Hb.
  assert (Hp1 : (0 < 2 ^ (e1 - ez))%Z) by (apply Z.pow_pos_nonneg; lia).
  assert (Hp2 : (0 < 2 ^ (e2 - ez))%Z) by (apply Z.pow_pos_nonneg; lia).
  assert (H1 : dyadic (Zpos m1 * 2 ^ (e1 - ez)) ez == dyadic (Zpos m1) e1).
  { rewrite dyadic_shift by lia. by replace (ez + (e1 - ez))%Z with e1 by lia. }
  assert (H2 : dyadic (Zpos m2 * 2 ^ (e2 - ez)) ez == dyadic (Zpos m2) e2).
  { rewrite dyadic_shift by lia. by replace (ez + (e2 - ez))%Z with e2 by lia. }
  assert (Hgt : (Zpos m2 * 2 ^ (e2 - ez) < Zpos m1 * 2 ^ (e1 - ez))%Z).
  { apply (dyadic_lt_inv _ _ ez). by rewrite H1, H2. }
  destruct (Z.pos m1 * 2 ^ (e1 - ez) - Z.pos m2 * 2 ^ (e2 - ez))%Z as [|p|p] eqn:Hs; try lia.
  cbn [binary_normalize].
  assert (Hval : dyadic (Zpos p) ez == dyadic (Zpos m1) e1 - dyadic (Zpos m2) e2).
  { rewrite <- H1, <- H2, <- Hs. unfold dyadic, Z.sub.
    rewrite inject_Z_plus, inject_Z_opp. ring. }
  assert (Hup : (Zpos p < 2 ^ (53 + (e1 - ez)))%Z).
  { rewrite Z.pow_add_r by lia. nia. }
  apply Zdigits2_upper in Hup; [|lia]. cbn [Zdigits2] in Hup.
  pose proof (Pos2Z.is_pos (digits2_pos p)).
  apply (near_compat _ _ _ Hval). apply round_is_near; unfold emin, prec, emax; lia.
Qed.

(** The product of two positive Numbers. *)
Lemma mul_is_near (x y : number) :
  pnormal x -> pnormal y ->
  (-500 <= expo x <= 400)%Z -> (-500 <= expo y <= 400)%Z ->
  near (mul x y) (val x * val y).
Proof.
  intros (m1 & e1 & -> & Hm1)%pnormal_form (m2 & e2 & -> & Hm2)%pnormal_form He1 He2.
  cbn [expo] in He1, He2. unfold mul. cbn [SFmul cond_Zopp val xorb].
  assert (Hval : dyadic (Zpos (m1 * m2)) (e1 + e2) == dyadic (Zpos m1) e1 * dyadic (Zpos m2) e2).
  { unfold dyadic. rewrite Pos2Z.inj_mul, inject_Z_mult, pow2_add. ring. }
  assert (Hlow : (2 ^ 104 <= Zpos (m1 * m2))%Z).
  { rewrite Pos2Z.inj_mul. change (2 ^ 104)%Z with (2 ^ 52 * 2 ^ 52)%Z.
    apply Z.mul_le_mono_nonneg; lia. }
  assert (Hup : (Zpos (m1 * m2) < 2 ^ 106)%Z).
  { rewrite Pos2Z.inj_mul. change (2 ^ 106)%Z with (2 ^ 53 * 2 ^ 53)%Z.
    apply Z.mul_lt_mono_nonneg; lia. }
  pose proof (Zdigits2_ge _ 104 ltac:(lia) Hlow) as Hd1.
  pose proof (Zdigits2_upper _ 106 (Pos2Z.is_pos _) Hup) as Hd2.
  apply (near_compat _ _ _ Hval).
  apply round_aux_is_near; try (unfold emin, prec, emax; lia).
  - apply Qle_refl.
  - apply dyadic_le. lia.
Qed.

(** A positive Number over one hundred. *)
Lemma div_hundred_is_near (x : number) :
  pnormal x -> (-1000 <= expo x <= 900)%Z ->
  near (div x hundred) (val x * (1 # 100)).
Proof.
  intros (m & e & -> & Hm)%pnormal_form He. cbn [expo] in He.
  unfold div. rewrite hundred_value. cbn [SFdiv xorb val cond_Zopp].
  unfold SFdiv_core_binary.
  rewrite (Zdigits2_unique (Zpos m) 53 ltac:(lia) Hm).
  change (Zdigits2 7036874417766400) with 53%Z.
  replace (Z.min (fexp prec emax (53 + e - (53 + -46))) (e - -46)) with (e - 7)%Z
    by (unfold fexp, emin, prec, emax; lia).
  replace (e - -46 - (e - 7))%Z with 53%Z by lia.
  rewrite Z.shiftl_mul_pow2 by lia.
  pose proof (Z_div_mod (Zpos m * 2 ^ 53) 7036874417766400 ltac:(lia)) as Hdiv.
  destruct (Z.div_eucl (Zpos m * 2 ^ 53) 7036874417766400) as [q r].
  destruct Hdiv as [Hq Hr].
  assert (Hq1 : (2 ^ 52 <= q)%Z) by lia.
  assert (Hq2 : (q < 2 ^ 54)%Z) by lia.
  pose proof (Zdigits2_ge _ 52 ltac:(lia) Hq1) as Hd1.
  pose proof (Zdigits2_upper q 54 ltac:(lia) Hq2) as Hd2.
  assert (Hscale : dyadic (Zpos m) e * (1 # 100) * inject_Z 7036874417766400
                   == dyadic (Zpos m * 2 ^ 53) (e - 7)).
  { rewrite dyadic_shift by lia. unfold dyadic.
    replace (e - 7 + 53)%Z with (e + 46)%Z by lia. rewrite pow2_add.
    change (2 ^ 46) with (inject_Z 70368744177664).
    change (inject_Z 7036874417766400) with (100 * inject_Z 70368744177664). ring. }
  assert (HP : 0 < 2 ^ (e - 7)) by apply pow2_pos.
  apply round_aux_is_near; try (unfold emin, prec, emax; lia).
  - apply Qmult_le_r with (inject_Z 7036874417766400); [reflexivity|].
    rewrite Hscale. unfold dyadic.
    rewrite <- (Qmult_assoc (inject_Z q)), (Qmult_comm (2 ^ (e - 7))), Qmult_assoc.
    apply Qmult_le_compat_r; [|lra].
    rewrite <- inject_Z_mult, <- Zle_Qle. lia.
  - apply Qmult_le_r with (inject_Z 7036874417766400); [reflexivity|].
    rewrite Hscale. unfold dyadic.
    rewrite <- (Qmult_assoc (inject_Z (q + 1))), (Qmult_comm (2 ^ (e - 7))), Qmult_assoc.
    apply Qmult_le_compat_r; [|lra].
    rewrite <- inject_Z_mult, <- Zle_Qle. lia.
Qed.

(** An integer that fits the mantissa is held exactly. *)
Lemma of_Z_exact (k : Z) :
  (1 <= k < 2 ^ 53)%Z ->
  pnormal (of_Z k) ∧ val (of_Z k) == inject_Z k ∧ (-52 <= expo (of_Z k) <= 0)%Z.
Proof.
  intros Hk.
  destruct (of_Z_form k ltac:(lia) ltac:(unfold safe; lia)) as (m & -> & Hm).
  replace (k <? 0)%Z with false by (symmetry; apply Z.ltb_ge; lia).
  rewrite Z.abs_eq in Hm by lia.
  pose proof (Zdigits2_lower k ltac:(lia)) as [Hl Hu].
  pose proof (Zdigits2_ge k 0 ltac:(lia) ltac:(lia)) as Hd1.
  pose proof (Zdigits2_upper k 53 ltac:(lia) ltac:(lia)) as Hd2.
  cbn [pnormal val expo cond_Zopp]. split; [|split; [|lia]].
  - rewrite Hm. split.
    + replace 52%Z with ((Zdigits2 k - 1) + (53 - Zdigits2 k))%Z by lia.
      rewrite Z.pow_add_r by lia.
      apply Z.mul_le_mono_nonneg_r; [apply Z.pow_nonneg; lia|done].
    + replace 53%Z with (Zdigits2 k + (53 - Zdigits2 k))%Z at 2 by lia.
      rewrite Z.pow_add_r by lia.
      apply Z.mul_lt_mono_pos_r; [apply Z.pow_pos_nonneg; lia|done].
  - rewrite Hm, dyadic_shift by lia.
    replace (Zdigits2 k - 53 + (53 - Zdigits2 k))%Z with 0%Z by lia.
    unfold dyadic. change (2 ^ 0) with 1. ring.
Qed.

Lemma expo_upper (x : number) (b : Z) : pnormal x -> val x < 2 ^ b -> (expo x < b - 52)%Z.
Proof.
  intros (m & e & -> & Hm)%pnormal_form. cbn [val expo cond_Zopp]. intros H.
  assert (H2 : 2 ^ (52 + e) <= dyadic (Zpos m) e).
  { rewrite pow2_add. unfold dyadic. apply Qmult_le_compat_r; [|apply Qlt_le_weak, pow2_pos].
    change (2 ^ 52) with (inject_Z (2 ^ 52)). rewrite <- Zle_Qle. lia. }
  assert (H3 : 2 ^ (52 + e) < 2 ^ b) by lra.
  apply Qpower_lt_compat_l_inv in H3; [lia|reflexivity].
Qed.

Lemma expo_lower (x : number) (a : Z) : pnormal x -> 2 ^ a <= val x -> (a - 53 < expo x)%Z.
Proof.
  intros (m & e & -> & Hm)%pnormal_form. cbn [val expo cond_Zopp]. intros H.
  assert (H2 : dyadic (Zpos m) e < 2 ^ (53 + e)).
  { rewrite pow2_add. unfold dyadic. apply Qmult_lt_compat_r; [apply pow2_pos|].
    change (2 ^ 53) with (inject_Z (2 ^ 53)). rewrite <- Zlt_Qlt. lia. }
  assert (H3 : 2 ^ a < 2 ^ (53 + e)) by lra.
  apply Qpower_lt_compat_l_inv in H3; [lia|reflexivity].
Qed.

(** [Math.round] of a positive Number within a half of the integer [k]. *)
Lemma Math_round_near (x : number) (k : Z) :
  pnormal x -> val x < 2 ^ 52 -> (1 <= k)%Z ->
  inject_Z k - (1 # 2) <= val x -> val x < inject_Z k + (1 # 2) ->
  Math_round x = of_Z k.
Proof.
  intros Hx Hlt Hk H1 H2. pose proof (expo_upper x 52 Hx Hlt) as He.
  destruct (pnormal_form x Hx) as (m & e & -> & Hm). cbn [expo val cond_Zopp] in *.
  unfold Math_round. destruct (Z.leb_spec 0 e) as [|_]; [lia|]. cbv zeta. cbn [cond_Zopp].
  set (d := (2 ^ (- e))%Z).
  assert (Hd : (0 < d)%Z) by (apply Z.pow_pos_nonneg; lia).
  assert (HD : 0 < inject_Z d) by (change 0 with (inject_Z 0); by rewrite <- Zlt_Qlt).
  assert (Hm' : inject_Z (Zpos m) == dyadic (Zpos m) e * inject_Z d).
  { unfold dyadic, d. rewrite pow2_Z by lia. rewrite <- Qmult_assoc, <- pow2_add.
    replace (e + - e)%Z with 0%Z by lia. change (2 ^ 0) with 1. ring. }
  assert (Hz1 : ((2 * k - 1) * d <= 2 * Zpos m)%Z).
  { rewrite Zle_Qle, !inject_Z_mult, Hm'. unfold Z.sub.
    rewrite inject_Z_plus, inject_Z_mult, inject_Z_opp.
    change (inject_Z 2) with 2. change (inject_Z 1) with 1. nra. }
  assert (Hz2 : (2 * Zpos m < (2 * k + 1) * d)%Z).
  { rewrite Zlt_Qlt, !inject_Z_mult, Hm'.
    rewrite inject_Z_plus, inject_Z_mult.
    change (inject_Z 2) with 2. change (inject_Z 1) with 1. nra. }
  assert (Hq : ((2 * Zpos m + d) / (2 * d) = k)%Z).
  { symmetry. apply (Z.div_unique _ _ k (2 * Zpos m + d - 2 * d * k)); lia. }
  rewrite Hq. destruct (Z.eqb_spec k 0); [lia|reflexivity].
Qed.

Lemma pnormal_epsilon :
  pnormal Number_EPSILON ∧ val Number_EPSILON == ulp_ratio ∧ expo Number_EPSILON = (-104)%Z.
Proof. split; [|split]; [cbn; lia|reflexivity|reflexivity]. Qed.

Lemma pnormal_hundred : pnormal hundred ∧ val hundred == 100 ∧ expo hundred = (-46)%Z.
Proof. rewrite hundred_value. split; [|split]; [cbn; lia|reflexivity|reflexivity]. Qed.

(** [round2] of a positive Number within a thousandth of [k] hundredths
    is the Number nearest to [k] hundredths. *)
Lemma round2_near (x : number) (k : Z) :
  pnormal x -> (1 <= k <= 2 ^ 46)%Z ->
  inject_Z k * (1 # 100) - (1 # 1000) <= val x ->
  val x <= inject_Z k * (1 # 100) + (1 # 1000) ->
  round2 x = dec k 2.
Proof.
  intros Hx Hk H1 H2.
  assert (HK : 1 <= inject_Z k <= 70368744177664).
  { change 1 with (inject_Z 1). change 70368744177664 with (inject_Z (2 ^ 46)).
    rewrite <- !Zle_Qle. lia. }
  destruct pnormal_epsilon as (He0 & He1 & He2).
  destruct pnormal_hundred as (Hh0 & Hh1 & Hh2).
  pose proof (expo_lower x (-7) Hx ltac:(change (2 ^ (-7)) with (1 # 128); lra)) as Hxl.
  pose proof (expo_upper x 41 Hx ltac:(change (2 ^ 41) with 2199023255552; lra)) as Hxu.
  destruct (add_is_near x Number_EPSILON Hx He0 ltac:(lia) ltac:(rewrite He2; lia))
    as (Ha0 & Ha1 & Ha2).
  rewrite He1 in Ha1, Ha2. unfold ulp_ratio in Ha1, Ha2.
  pose proof (expo_lower _ (-7) Ha0 ltac:(change (2 ^ (-7)) with (1 # 128); lra)) as Hal.
  pose proof (expo_upper _ 41 Ha0 ltac:(change (2 ^ 41) with 2199023255552; lra)) as Hau.
  destruct (mul_is_near _ hundred Ha0 Hh0 ltac:(lia) ltac:(rewrite Hh2; lia))
    as (Hu0 & Hu1 & Hu2).
  rewrite Hh1 in Hu1, Hu2. unfold ulp_ratio in Hu1, Hu2.
  unfold round2.
  rewrite (Math_round_near _ k Hu0); [reflexivity| |lia| |].
  - change (2 ^ 52) with 4503599627370496. lra.
  - lra.
  - lra.
Qed.

Lemma cents_bounds (k : Z) :
  (1 <= k <= 2 ^ 46)%Z -> 1 <= inject_Z k /\ inject_Z k <= 70368744177664.
Proof.
  intros Hk. change 1 with (inject_Z 1). change 70368744177664 with (inject_Z (2 ^ 46)).
  rewrite <- !Zle_Qle. lia.
Qed.

(** [k] hundredths, as the literal [k / 100] gives them. *)
Lemma dec_is_near (k : Z) :
  (1 <= k <= 2 ^ 46)%Z ->
  near (dec k 2) (inject_Z k * (1 # 100)) ∧ (-60 <= expo (dec k 2) <= 0)%Z.
Proof.
  intros Hk. destruct (cents_bounds k Hk) as [HK1 HK2].
  destruct (of_Z_exact k ltac:(lia)) as (H0 & H1 & H2).
  change (dec k 2) with (div (of_Z k) hundred).
  assert (Hn : near (div (of_Z k) hundred) (inject_Z k * (1 # 100))).
  { apply (near_compat _ (val (of_Z k) * (1 # 100))); [by rewrite H1|].
    apply div_hundred_is_near; [done|lia]. }
  split; [exact Hn|].
  destruct Hn as (Hp & Hl & Hu). unfold ulp_ratio in *.
  pose proof (expo_lower _ (-7) Hp ltac:(change (2 ^ (-7)) with (1 # 128); lra)).
  pose proof (expo_upper _ 41 Hp ltac:(change (2 ^ 41) with 2199023255552; lra)).
  lia.
Qed.

Lemma round2_dec (k : Z) : (0 <= k <= 2 ^ 46)%Z -> round2 (dec k 2) = dec k 2.
Proof.
  intros Hk. destruct (Z.eq_dec k 0%Z) as [->|Hne]; [reflexivity|].
  destruct (cents_bounds k ltac:(lia)) as [HK1 HK2].
  destruct (dec_is_near k ltac:(lia)) as [(Hp & Hl & Hu) _]. unfold ulp_ratio in *.
  apply round2_near; [done|lia|lra|lra].
Qed.

Lemma parseFloat_pnormal (x : number) : pnormal x -> parseFloat x = x.
Proof. by intros (m & e & -> & _)%pnormal_form. Qed.

Lemma cents_of_dec (u : Z) :
  (0 <= u <= 2 ^ 46)%Z -> Math_round (mul (parseFloat (dec u 2)) hundred) = of_Z u.
Proof.
  intros Hu. destruct (Z.eq_dec u 0%Z) as [->|Hne]; [reflexivity|].
  destruct (cents_bounds u ltac:(lia)) as [HK1 HK2].
  destruct (dec_is_near u ltac:(lia)) as [(Hp & Hl & Hh) He]. unfold ulp_ratio in *.
  rewrite parseFloat_pnormal by done.
  destruct pnormal_hundred as (Hh0 & Hh1 & Hh2).
  destruct (mul_is_near _ hundred Hp Hh0 ltac:(lia) ltac:(rewrite Hh2; lia))
    as (Hu0 & Hu1 & Hu2).
  rewrite Hh1 in Hu1, Hu2. unfold ulp_ratio in Hu1, Hu2.
  apply Math_round_near; [done| |lia|lra|lra].
  change (2 ^ 52) with 4503599627370496. lra.
Qed.

Lemma sub_self (x : number) : pnormal x -> sub x x = zero.
Proof.
  intros (m & e & -> & _)%pnormal_form. unfold sub. cbn [SFsub cond_Zopp].
  by rewrite Z.sub_diag.
Qed.

Lemma or_zero_of_Z (a : Z) : (0 <= a < 2 ^ 53)%Z -> or_zero (Some (of_Z a)) = of_Z a.
Proof.
  intros Ha. destruct (Z.eq_dec a 0%Z) as [->|Hne]; [reflexivity|].
  cbn [or_zero]. rewrite truthy_of_Z; [done|done|unfold safe; lia].
Qed.

Lemma taxes_dec (a b : Z) :
  (0 <= b <= a)%Z -> (a <= 2 ^ 46)%Z ->
  round2 (sub (dec a 2) (dec b 2)) = dec (a - b) 2.
Proof.
  intros Hb Ha.
  destruct (Z.eq_dec b 0%Z) as [->|Hb0].
  { rewrite Z.sub_0_r. change (dec 0 2) with zero.
    destruct (Z.eq_dec a 0%Z) as [->|Ha0]; [reflexivity|].
    destruct (dec_is_near a ltac:(lia)) as [(Hp & _) _].
    replace (sub (dec a 2) zero) with (dec a 2).
    - apply round2_dec. lia.
    - by destruct (pnormal_form _ Hp) as (m & e & -> & _). }
  destruct (dec_is_near a ltac:(lia)) as [(Hpa & Hla & Hua) Hea].
  destruct (dec_is_near b ltac:(lia)) as [(Hpb & Hlb & Hub) Heb].
  destruct (Z.eq_dec a b) as [->|Hab].
  { rewrite Z.sub_diag, sub_self by done. reflexivity. }
  destruct (cents_bounds a ltac:(lia)) as [HA1 HA2].
  destruct (cents_bounds b ltac:(lia)) as [HB1 HB2].
  assert (HAB : inject_Z b + 1 <= inject_Z a).
  { change 1 with (inject_Z 1). rewrite <- inject_Z_plus, <- Zle_Qle. lia. }
  unfold ulp_ratio in *.
  destruct (sub_is_near _ _ Hpa Hpb ltac:(lia) ltac:(lia) ltac:(lra)) as (Hs0 & Hs1 & Hs2).
  unfold ulp_ratio in *.
  assert (HD : inject_Z (a - b) == inject_Z a - inject_Z b).
  { unfold Z.sub. rewrite inject_Z_plus, inject_Z_opp. ring. }
  apply round2_near; [done|lia|rewrite HD; lra|rewrite HD; lra].
Qed.

Lemma add_zero_l (p : number) : pnormal p -> add zero p = p.
Proof. by intros (m & e & -> & _)%pnormal_form. Qed.

Lemma tracks_weaken (s : number) (S : Z) (d d' : Q) : d <= d' -> tracks s S d -> tracks s S d'.
Proof.
  intros Hd [H|(H1 & H2 & H3 & H4)]; [by left|right].
  split; [done|]. split; [done|]. split; lra.
Qed.

(** One turn of the sum. *)
Lemma sum_step (it : Item) (l : Z * Z) (s : number) (S B : Z) (d : Q) :
  whole_line it l -> tracks s S d ->
  0 <= d -> d <= 1 # 1000 ->
  (0 <= S)%Z -> (S + l.1 * l.2 <= B)%Z -> (B <= 2 ^ 46)%Z ->
  tracks (add s (mul (div (unit_amount it) hundred) (it_quantity it)))
    (S + l.1 * l.2) (d + line_error B).
Proof.
  destruct l as [u q]. unfold whole_line. cbn [fst snd].
  intros (-> & -> & Hu & Hq) Htr Hd0 Hd1 HS HB HB2.
  assert (Huq0 : (0 <= u * q)%Z) by nia.
  assert (HBQ : 0 <= inject_Z B /\ inject_Z B <= 70368744177664).
  { change 0 with (inject_Z 0). change 70368744177664 with (inject_Z (2 ^ 46)).
    rewrite <- !Zle_Qle. lia. }
  assert (Hc : 0 <= line_error B) by (unfold line_error; lra).
  destruct (Z.eq_dec u 0%Z) as [->|Hu0].
  { change (div (of_Z 0) hundred) with zero.
    replace (mul zero (of_Z q)) with zero.
    2:{ destruct (of_Z_exact q ltac:(lia)) as (Hp & _).
        by destruct (pnormal_form _ Hp) as (m & e & -> & _). }
    rewrite Z.mul_0_l, Z.add_0_r.
    apply (tracks_weaken _ _ d); [lra|].
    destruct Htr as [[-> ->]|(H1 & H2 & H3)]; [left; split; reflexivity|].
    destruct (pnormal_form _ H2) as (m & e & Es & _). subst s.
    right. split; [exact H1|]. split; [exact H2|exact H3]. }
  assert (Huq : (1 <= u * q)%Z) by nia.
  assert (Hub : (u <= u * q)%Z) by nia.
  assert (Hqb : (q <= u * q)%Z) by nia.
  destruct (dec_is_near u ltac:(lia)) as [(Hv0 & Hv1 & Hv2) Hve].
  change (dec u 2) with (div (of_Z u) hundred) in *.
  set (v := div (of_Z u) hundred) in *.
  destruct (of_Z_exact q ltac:(lia)) as (Hq0 & Hq1 & Hqe).
  destruct (mul_is_near v (of_Z q) Hv0 Hq0 ltac:(lia) ltac:(lia)) as (Hp0 & Hp1 & Hp2).
  set (p := mul v (of_Z q)) in *.
  set (W := inject_Z (u * q)).
  assert (HW : 1 <= W /\ W <= inject_Z B).
  { unfold W. change 1 with (inject_Z 1). rewrite <- !Zle_Qle. lia. }
  assert (HQ : 1 <= inject_Z q).
  { change 1 with (inject_Z 1). rewrite <- Zle_Qle. lia. }
  assert (HWeq : W == inject_Z u * inject_Z q) by (unfold W; rewrite inject_Z_mult; reflexivity).
  unfold ulp_ratio in *.
  set (T := val v * val (of_Z q)) in *.
  assert (HT1 : W * (1 # 100) * (1 - (1 # 4503599627370496)) <= T).
  { assert (E : W * (1 # 100) * (1 - (1 # 4503599627370496))
                == inject_Z u * (1 # 100) * (1 - (1 # 4503599627370496)) * inject_Z q)
      by (rewrite HWeq; ring).
    rewrite E. unfold T. rewrite Hq1.
    apply Qmult_le_compat_r; [exact Hv1|lra]. }
  assert (HT2 : T <= W * (1 # 100) * (1 + (1 # 4503599627370496))).
  { assert (E : W * (1 # 100) * (1 + (1 # 4503599627370496))
                == inject_Z u * (1 # 100) * (1 + (1 # 4503599627370496)) * inject_Z q)
      by (rewrite HWeq; ring).
    rewrite E. unfold T. rewrite Hq1.
    apply Qmult_le_compat_r; [exact Hv2|lra]. }
  clearbody T.
  pose proof (expo_lower p (-7) Hp0 ltac:(change (2 ^ (-7)) with (1 # 128); lra)) as Hpl.
  pose proof (expo_upper p 41 Hp0 ltac:(change (2 ^ 41) with 2199023255552; lra)) as Hpu.
  assert (HSW : inject_Z (S + u * q) == inject_Z S + W) by (unfold W; rewrite inject_Z_plus; reflexivity).
  unfold line_error.
  destruct Htr as [[-> ->]|(H1 & H2 & H3 & H4)].
  - rewrite add_zero_l by done. right. rewrite Z.add_0_l.
    split; [done|]. split; [done|]. fold W. split; lra.
  - assert (HSQ : 1 <= inject_Z S).
    { change 1 with (inject_Z 1). rewrite <- Zle_Qle. lia. }
    assert (HSB : inject_Z S + W <= inject_Z B).
    { rewrite <- HSW, <- Zle_Qle. lia. }
    pose proof (expo_lower s (-7) H2 ltac:(change (2 ^ (-7)) with (1 # 128); lra)) as Hsl.
    pose proof (expo_upper s 41 H2 ltac:(change (2 ^ 41) with 2199023255552; lra)) as Hsu.
    destruct (add_is_near s p H2 Hp0 ltac:(lia) ltac:(lia)) as (Ha0 & Ha1 & Ha2).
    unfold ulp_ratio in *. right.
    split; [lia|]. split; [done|]. rewrite HSW. split; lra.
Qed.

Lemma sum_tracks (B : Z) (its : list Item) (lines : list (Z * Z)) :
  Forall2 whole_line its lines -> (B <= 2 ^ 46)%Z ->
  ∀ (s : number) (S : Z) (d : Q),
    (0 <= S)%Z -> (S + total_cents lines <= B)%Z ->
    0 <= d -> d + inject_Z (Z.of_nat (length its)) * line_error B <= 1 # 1000 ->
    tracks s S d ->
    tracks
      (fold_left (fun s it => add s (mul (div (unit_amount it) hundred) (it_quantity it)))
         its s)
      (S + total_cents lines)
      (d + inject_Z (Z.of_nat (length its)) * line_error B).
Proof.
  intros Hall HB. induction Hall as [|it l its lines Hl Hall IH]; intros s S d HS Htot Hd Hsmall Htr.
  - cbn [fold_left total_cents foldr length]. rewrite Z.add_0_r.
    apply (tracks_weaken _ _ d); [|done]. change (inject_Z (Z.of_nat 0)) with 0. lra.
  - assert (Hc : 0 <= line_error B).
    { unfold line_error.
      assert (0 <= inject_Z B); [|lra].
      change 0 with (inject_Z 0). rewrite <- Zle_Qle.
      destruct Hl as (_ & _ & ? & ?). 
      assert (0 <= total_cents lines)%Z; [|cbn [total_cents foldr] in Htot; fold (total_cents lines) in Htot; nia].
      clear -Hall. induction Hall as [|? ? ? ? (_ & _ & ? & ?) _ IH']; cbn; [lia|].
      fold (total_cents l'). nia. }
    assert (Hlen : inject_Z (Z.of_nat (length (it :: its)))
                   == inject_Z (Z.of_nat (length its)) + 1).
    { cbn [length]. rewrite Nat2Z.inj_succ. unfold Z.succ. by rewrite inject_Z_plus. }
    assert (Hn0 : 0 <= inject_Z (Z.of_nat (length its))).
    { change 0 with (inject_Z 0). rewrite <- Zle_Qle. lia. }
    assert (Hnn : 0 <= inject_Z (Z.of_nat (length its)) * line_error B).
    { by apply Qmult_le_0_compat. }
    rewrite Hlen in Hsmall.
    cbn [fold_left total_cents foldr] in *. fold (total_cents lines) in *.
    assert (Hrest : (0 <= total_cents lines)%Z).
    { clear -Hall. induction Hall as [|? ? ? ? (_ & _ & ? & ?) _ IH']; cbn; [lia|].
      fold (total_cents l'). nia. }
    destruct Hl as (Hl1 & Hl2 & Hl3 & Hl4).
    assert (Hstep := sum_step it l s S B d (conj Hl1 (conj Hl2 (conj Hl3 Hl4))) Htr Hd
                       ltac:(lra) HS ltac:(nia) HB).
    assert (H0 : (0 <= S + l.1 * l.2)%Z) by nia.
    assert (H1 : (S + l.1 * l.2 + total_cents lines <= B)%Z) by lia.
    assert (H2 : 0 <= d + line_error B) by lra.
    assert (H3 : d + line_error B + inject_Z (Z.of_nat (length its)) * line_error B
                 <= 1 # 1000) by lra.
    specialize (IH _ _ _ H0 H1 H2 H3 Hstep).
    replace (S + (l.1 * l.2 + total_cents lines))%Z
      with (S + l.1 * l.2 + total_cents lines)%Z by lia.
    apply (tracks_weaken _ _
             (d + line_error B + inject_Z (Z.of_nat (length its)) * line_error B));
      [rewrite Hlen; lra|exact IH].
Qed.

(** The subtotal of whole lines is the Number nearest to their cents over 100. *)
Lemma subtotal_whole (its : list Item) (lines : list (Z * Z)) :
  Forall2 whole_line its lines ->
  (Z.of_nat (length its) * (total_cents lines + 100) <= 2 ^ 46)%Z ->
  round2 (items_sum its) = dec (total_cents lines) 2.
Proof.
  intros Hall Hsize.
  assert (Hpos : (0 <= total_cents lines)%Z).
  { clear -Hall. induction Hall as [|? ? ? ? (_ & _ & ? & ?) _ IH']; cbn; [lia|].
    fold (total_cents l'). nia. }
  destruct its as [|it its].
  { inversion Hall. subst. reflexivity. }
  set (n := Z.of_nat (length (it :: its))) in *.
  assert (Hn : (1 <= n)%Z) by (unfold n; cbn [length]; lia).
  set (B := total_cents lines) in *.
  assert (HB : (B <= 2 ^ 46)%Z) by nia.
  assert (Hsmall : inject_Z n * line_error B <= 1 # 1000).
  { unfold line_error.
    assert (H : inject_Z n * (inject_Z B + 100) <= 70368744177664).
    { change 100 with (inject_Z 100). change 70368744177664 with (inject_Z (2 ^ 46)).
      rewrite <- inject_Z_plus, <- inject_Z_mult, <- Zle_Qle. exact Hsize. }
    lra. }
  pose proof (sum_tracks B (it :: its) lines Hall HB zero 0 0 ltac:(lia) ltac:(lia)
                ltac:(lra) ltac:(fold n; lra) ltac:(by left)) as Htr.
  rewrite Z.add_0_l in Htr. fold n in Htr. fold (items_sum (it :: its)) in Htr.
  destruct Htr as [[E ->]|(H1 & H2 & H3 & H4)].
  - unfold B. rewrite E. reflexivity.
  - fold B in H1, H3, H4. apply round2_near; [done|lia|lra|lra].
Qed.

End Accuracy.

(** ** The outcomes of a run *)

Section Outcomes.

Variable env : Env.

Lemma checkout_runs (req : CheckoutRequest) (w : World) :
  checkout_run env req w (createCheckoutSession env req w).
Proof.
  destruct (String.eqb (method req) "POST") eqn:Hm.
  2:{ assert (createCheckoutSession env req w = (send 405 "Method Not Allowed", w)) as ->.
      { unfold createCheckoutSession, createCheckoutSession_body. by rewrite Hm. }
      apply run_method. by apply String.eqb_neq. }
  apply String.eqb_eq in Hm.
  destruct (cart req) as [c|] eqn:Hc.
  2:{ assert (createCheckoutSession env req w = (json_error 400 "Payload invalide", w)) as ->.
      { unfold createCheckoutSession, createCheckoutSession_body.
        by rewrite Hm, Hc. }
      apply run_payload; auto. }
  destruct (String.eqb (user_uid req) "" || String.eqb (user_email req) "") eqn:Hu.
  { assert (createCheckoutSession env req w = (json_error 400 "Payload invalide", w)) as ->.
    { unfold createCheckoutSession, createCheckoutSession_body.
      by rewrite Hm, Hc, Hu. }
    apply run_payload; [done|]. right.
    apply orb_true_iff in Hu as [H|H]; apply String.eqb_eq in H; auto. }
  apply orb_false_iff in Hu as [Hu He].
  apply String.eqb_neq in Hu, He.
  assert (Hwf : well_formed req c) by done.
  destruct (existsb (short_of_stock env (products w)) c) eqn:Hs.
  { destruct (existsb_find _ _ Hs) as (i & Hi).
    destruct (checkout_short env req c w i Hwf Hi) as (p & Hp & ->).
    by eapply run_stock. }
  destruct (retained env (products w) c) as [|it its] eqn:Hr.
  { rewrite (checkout_empty env req c w Hwf Hs Hr). by eapply run_empty. }
  assert (Hne : retained env (products w) c ≠ []) by (by rewrite Hr).
  rewrite (checkout_placed env req c w Hwf Hs Hne). cbv zeta.
  destruct (sessions_create env _) as [msg|s] eqn:Ec.
  - by eapply run_processor.
  - by eapply run_linked.
Qed.

Lemma webhook_runs (req : WebhookRequest) (w : World) :
  webhook_run env req w (stripeWebhook env req w).
Proof.
  destruct (constructEvent env (rawBody req) (stripe_signature req) (WH_SECRET env))
    as [msg|ev] eqn:Hv.
  { rewrite (webhook_rejected env req w msg Hv). by apply run_rejected. }
  destruct (decide (type ev = "checkout.session.completed")) as [Ht|Ht].
  2:{ rewrite (webhook_unmatched env req w ev Hv); [|by intros (? & _)].
      eapply run_ignored; [exact Hv|]. by intros (? & _). }
  destruct (decide (metadata_firebaseOrderId (data_object ev) = "")) as [Hk|Hk].
  { rewrite (webhook_unmatched env req w ev Hv); [|by intros (_ & ? & _)].
    eapply run_ignored; [exact Hv|]. by intros (_ & ? & _). }
  destruct (orders w !! metadata_firebaseOrderId (data_object ev)) as [o|] eqn:Ho.
  2:{ assert (Hn : ¬ reconcilable ev w).
      { intros (_ & _ & Hs). rewrite Ho in Hs. by destruct Hs. }
      rewrite (webhook_unmatched env req w ev Hv Hn). by eapply run_ignored. }
  assert (Hrec : reconcilable ev w) by (repeat split; [done..|by rewrite Ho]).
  rewrite (webhook_matched env req w ev o Hv Ht Hk Ho).
  destruct (products_exist (products w) (items o)) eqn:Hp.
  - by eapply run_settled.
  - by eapply run_refused.
Qed.

End Outcomes.

(** ** What the handlers answer, and what they leave alone *)

Lemma compare_flip (a b : number) :
  SFcompare a b = Some Lt -> SFcompare b a = Some Gt.
Proof.
  destruct a as [sa|sa| |sa ma ea], b as [sb|sb| |sb mb eb];
    cbn [SFcompare]; try discriminate;
    repeat match goal with s : bool |- _ => destruct s end;
    try (discriminate || reflexivity);
    rewrite (Z.compare_antisym ea eb);
    (destruct (ea ?= eb)%Z; cbn [CompOpp]; try (discriminate || reflexivity));
    change (Pcompare mb ma Eq) with (mb ?= ma)%positive;
    change (Pcompare ma mb Eq) with (ma ?= mb)%positive;
    rewrite (Pos.compare_antisym ma mb);
    destruct (ma ?= mb)%positive; cbn [CompOpp]; (discriminate || reflexivity).
Qed.

(** The clamped quantity is never below 1 and never zero. *)
Lemma Math_max_one_floor (n : number) :
  lt (Math_max one n) one = false ∧ is_zero (Math_max one n) = false.
Proof.
  unfold lt, SFltb, Math_max.
  destruct (SFcompare one n) as [[]|] eqn:E.
  - change one with (S754_finite false 4503599627370496 (-52)). by split.
  - rewrite (compare_flip _ _ E). split; [done|].
    by destruct n as [s|s| |s m e].
  - change one with (S754_finite false 4503599627370496 (-52)). by split.
  - by split.
Qed.

Section Frames.

Variable env : Env.

(** X1.  [createCheckoutSession] answers 200, 400, 405 or 500 and
    nothing else; it answers 405 exactly when the method is not POST;
    and a run that answers 400 or 405 leaves the world as it was: no
    document is written and the processor is not called. *)
Theorem checkout_answers (req : CheckoutRequest) (w : World) :
  let run := createCheckoutSession env req w in
  (code run.1 = 200 ∨ code run.1 = 400 ∨ code run.1 = 405 ∨ code run.1 = 500)%Z
  ∧ (code run.1 = 405%Z ↔ method req ≠ "POST")
  ∧ (code run.1 = 400%Z ∨ code run.1 = 405%Z -> run.2 = w).
Proof.
  cbv zeta.
  destruct (checkout_runs env req w)
    as [Hm|Hm Hp|c i p (Hm & _) _ _|c (Hm & _) _ _|c msg (Hm & _) _ _ _|c s (Hm & _) _ _ _];
    cbn [fst snd code send json_error].
  - split; [auto|]. split; [done|]. done.
  - split; [auto|]. split; [|done]. split; [discriminate|done].
  - split; [auto|]. split; [|done]. split; [discriminate|done].
  - split; [auto|]. split; [|done]. split; [discriminate|done].
  - split; [auto|]. split; [|intros [|]; discriminate]. split; [discriminate|done].
  - split; [auto|]. split; [|intros [|]; discriminate]. split; [discriminate|done].
Qed.

(** X2.  When the call to the processor throws, the handler does not
    undo what it did.  Take a request that gets as far as the call (a
    POST with a buyer, whose cart has no entry short of stock and gives
    at least one line), the store taking the order as everywhere in this
    development.  If [stripe.checkout.sessions.create] throws [msg] on
    the session asked for, the answer is 500 with body
    ["Erreur serveur: " + msg], and the order added just before is left
    in the store under its identifier, still pending, with the lines of
    the cart and without a session identifier; the effects of the run
    are the creation and the call, and no update.  (A 500 may have other
    causes; this is what this one leaves behind.) *)
Theorem processor_failure_leaves_pending_order (req : CheckoutRequest) (c : list CartEntry)
  (w : World) (msg : string) :
  well_formed req c ->
  existsb (short_of_stock env (products w)) c = false ->
  retained env (products w) c ≠ [] ->
  sessions_create env
    (session_params req (retained env (products w) c) (fresh (dom (orders w)))) = inl msg ->
  let run := createCheckoutSession env req w in
  let k := fresh (dom (orders w)) in
  run.1 = json_error 500 ("Erreur serveur: " +:+ msg)
  ∧ orders w !! k = None
  ∧ (∃ o, orders run.2 = <[k := o]> (orders w)
          ∧ status o = pending ∧ stripeSessionId o = None
          ∧ items o = order_item <$> retained env (products w) c)
  ∧ products run.2 = products w
  ∧ effects run.2
    = effects w ++ [OrderAdded k;
                    SessionCreateCalled
                      (session_params req (retained env (products w) c) k)].
Proof.
  intros Hwf Hs Hr Hc. cbv zeta.
  rewrite (checkout_placed env req c w Hwf Hs Hr). cbv zeta. rewrite Hc.
  cbn [fst snd]. split; [reflexivity|]. split; [apply fresh_order_id|].
  unfold order_placed, log, set_orders; cbn [orders effects products].
  split; [eexists; split; [reflexivity|]; by repeat split|].
  split; [reflexivity|]. by rewrite <- app_assoc.
Qed.

(** X3.  Whatever the request and the processor,
    [createCheckoutSession] leaves the products and the clock as they
    were, keeps every order document that existed unchanged, adds at most
    one order (under the identifier [add] answers), and only appends to
    the effects. *)
Theorem checkout_keeps_the_store (req : CheckoutRequest) (w : World) :
  let w' := (createCheckoutSession env req w).2 in
  products w' = products w
  ∧ clock w' = clock w
  ∧ orders w ⊆ orders w'
  ∧ (∀ k, k ∈ dom (orders w') -> k ∈ dom (orders w) ∨ k = fresh (dom (orders w)))
  ∧ ∃ l, effects w' = effects w ++ l.
Proof.
  cbv zeta. destruct (checkout_runs env req w); cbn [snd];
    unfold session_linked, order_placed, log, set_orders; cbn [products orders clock effects].
  1-4: (split; [done|]; split; [done|]; split; [done|]; split; [auto|];
        exists []; by rewrite app_nil_r).
  - split; [done|]. split; [done|].
    split; [apply insert_subseteq, fresh_order_id|].
    split.
    + intros k. rewrite dom_insert, elem_of_union, elem_of_singleton. tauto.
    + rewrite <- app_assoc. by eexists.
  - split; [done|]. split; [done|]. rewrite insert_insert_eq.
    split; [apply insert_subseteq, fresh_order_id|].
    split.
    + intros k. rewrite dom_insert, elem_of_union, elem_of_singleton. tauto.
    + rewrite <- !app_assoc. by eexists.
Qed.

End Frames.

Section WebhookFrames.

Variable env : Env.

(** X4.  [stripeWebhook] answers 200, 400 or 500 and nothing else; it
    answers 400 exactly when the processor's library rejects the
    payload; and a run that does not answer 200 leaves the world as it
    was. *)
Theorem webhook_answers (req : WebhookRequest) (w : World) :
  let run := stripeWebhook env req w in
  (code run.1 = 200 ∨ code run.1 = 400 ∨ code run.1 = 500)%Z
  ∧ (code run.1 = 400%Z
     ↔ ∃ msg, constructEvent env (rawBody req) (stripe_signature req) (WH_SECRET env)
               = inl msg)
  ∧ (code run.1 ≠ 200%Z -> run.2 = w).
Proof.
  cbv zeta.
  destruct (webhook_runs env req w) as [msg Hv|ev Hv _|ev o Hv _ _ _|ev o Hv _ _ _];
    cbn [fst snd code send end_]; unfold verified in *.
  - split; [auto|]. split; [|done]. split; [by exists msg|done].
  - split; [auto|]. split; [|done].
    split; [discriminate|]. intros (msg & H). rewrite Hv in H. discriminate.
  - split; [auto|]. split; [|done].
    split; [discriminate|]. intros (msg & H). rewrite Hv in H. discriminate.
  - split; [auto|]. split; [|done].
    split; [discriminate|]. intros (msg & H). rewrite Hv in H. discriminate.
Qed.

Lemma decrement_all_identity (its : list OrderItem) (ps : gmap string Product) (j : string)
  (p : Product) :
  ps !! j = Some p ->
  ∃ p', decrement_all its ps !! j = Some p' ∧ product_identity p' = product_identity p.
Proof.
  intros Hp. rewrite decrement_all_lookup, Hp. cbn. by eexists.
Qed.

Lemma decrement_all_dom (its : list OrderItem) (ps : gmap string Product) :
  dom (decrement_all its ps) = dom ps.
Proof.
  apply set_eq. intros j. rewrite !elem_of_dom, decrement_all_lookup.
  apply fmap_is_Some.
Qed.

(** X5.  [stripeWebhook] creates and deletes no document: the products
    and the orders have the same identifiers after the run as before,
    and the clock is untouched.  Of a product it changes the stock only
    (name, price and image are kept); an order is left as it was or
    becomes paid, and keeps its buyer, date, lines, subtotal and time
    of creation. *)
Theorem webhook_keeps_the_documents (req : WebhookRequest) (w : World) :
  let w' := (stripeWebhook env req w).2 in
  dom (products w') = dom (products w)
  ∧ dom (orders w') = dom (orders w)
  ∧ clock w' = clock w
  ∧ (∀ j p, products w !! j = Some p ->
       ∃ p', products w' !! j = Some p' ∧ product_identity p' = product_identity p)
  ∧ (∀ k o, orders w !! k = Some o ->
       ∃ o', orders w' !! k = Some o' ∧ order_identity o' = order_identity o
             ∧ (o' = o ∨ status o' = paid)).
Proof.
  cbv zeta.
  destruct (webhook_runs env req w) as [msg Hv|ev Hv _|ev o Hv _ _ _|ev o Hv _ Ho _];
    cbn [snd].
  1-3: (split; [done|]; split; [done|]; split; [done|]; split;
        [intros j p Hp; by exists p|intros k o' Ho'; exists o'; auto]).
  unfold settled, log, set_store; cbn [products orders clock].
  split; [apply decrement_all_dom|].
  split.
  { rewrite dom_insert_L. apply subseteq_union_1_L, singleton_subseteq_l.
    by apply elem_of_dom_2 in Ho. }
  split; [done|].
  split; [intros j p Hp; by apply decrement_all_identity|].
  intros k o' Ho'.
  destruct (decide (metadata_firebaseOrderId (data_object ev) = k)) as [<-|Hne].
  - rewrite lookup_insert_eq. eexists. split; [reflexivity|].
    rewrite Ho in Ho'. injection Ho' as <-. split; [reflexivity|by right].
  - rewrite lookup_insert_ne by done. exists o'. auto.
Qed.

End WebhookFrames.

Lemma step_keeps (w w1 : World) :
  step w w1 ->
  (∀ j p, products w !! j = Some p ->
     ∃ p', products w1 !! j = Some p' ∧ product_identity p' = product_identity p)
  ∧ (∀ k o, orders w !! k = Some o ->
       ∃ o', orders w1 !! k = Some o' ∧ order_identity o' = order_identity o
             ∧ (status o = paid -> status o' = paid)).
Proof.
  intros [env req w0|env req w0|t w0].
  - destruct (checkout_runs env req w0); cbn [snd];
      unfold session_linked, order_placed, log, set_orders; cbn [products orders];
      rewrite ?insert_insert_eq;
      (split; [intros j q Hq; by exists q|]); intros k o Ho; exists o;
      (split; [|done]); try done;
      (rewrite lookup_insert_ne; [done|]); intros Hk; subst k;
      rewrite fresh_order_id in Ho; discriminate.
  - destruct (webhook_runs env req w0) as [msg Hv|ev Hv _|ev o Hv _ _ _|ev o Hv _ Ho _];
      cbn [snd].
    1-3: (split; [intros j p Hp; by exists p|intros k o' Ho'; by exists o']).
    unfold settled, log, set_store; cbn [products orders].
    split; [intros j p Hp; by apply decrement_all_identity|].
    intros k o' Ho'.
    destruct (decide (metadata_firebaseOrderId (data_object ev) = k)) as [<-|Hne].
    + rewrite lookup_insert_eq. eexists. split; [reflexivity|].
      rewrite Ho in Ho'. injection Ho' as <-. by split.
    + rewrite lookup_insert_ne by done. by exists o'.
  - split; [intros j p Hp; by exists p|intros k o Ho; by exists o].
Qed.

(** X6.  Over any sequence of calls of the two handlers, by any
    callers and with any processor, and however time passes: a product
    document that exists keeps existing with its name, price and image;
    an order document that exists keeps existing with its buyer, date,
    lines, subtotal and time of creation; and an order that is paid
    stays paid. *)
Theorem documents_outlive_every_call (w w' : World) :
  rtc step w w' ->
  (∀ j p, products w !! j = Some p ->
     ∃ p', products w' !! j = Some p' ∧ product_identity p' = product_identity p)
  ∧ (∀ k o, orders w !! k = Some o ->
       ∃ o', orders w' !! k = Some o' ∧ order_identity o' = order_identity o
             ∧ (status o = paid -> status o' = paid)).
Proof.
  intros Hrtc. induction Hrtc as [w|w w1 w2 Hstep Hrest [IHp IHo]].
  - split; [intros j p Hp; by exists p|intros k o Ho; by exists o].
  - destruct (step_keeps w w1 Hstep) as [Hp Ho]. split.
    + intros j q Hj. destruct (Hp j q Hj) as (q1 & Hj1 & Hid1).
      destruct (IHp j q1 Hj1) as (q2 & Hj2 & Hid2).
      exists q2. split; [done|]. by rewrite Hid2.
    + intros k o Hk. destruct (Ho k o Hk) as (o1 & Hk1 & Hid1 & Hst1).
      destruct (IHo k o1 Hk1) as (o2 & Hk2 & Hid2 & Hst2).
      exists o2. split; [done|]. split; [by rewrite Hid2|auto].
Qed.

(** ** The identifier of a new order is not empty *)

Lemma pretty_N_go_length (x : N) (s : string) :
  (String.length s <= String.length (pretty_N_go x s))%nat.
Proof.
  revert s. induction (N.lt_wf_0 x) as [x _ IH]. intros s.
  destruct (decide (x = 0%N)) as [->|Hx].
  - by rewrite pretty_N_go_0.
  - rewrite pretty_N_go_step by lia.
    etrans; [|apply IH; apply N.div_lt; lia]. cbn. lia.
Qed.

Lemma pretty_nat_nonempty (n : nat) : pretty n ≠ "".
Proof.
  unfold pretty, pretty_nat, pretty, pretty_N.
  destruct (decide _); [done|].
  rewrite pretty_N_go_step by lia.
  intros H. pose proof (pretty_N_go_length (N.of_nat n `div` 10)
    (String (pretty_N_char (N.of_nat n `mod` 10)) "")) as Hl.
  rewrite H in Hl. cbn in Hl. lia.
Qed.

Lemma search_pretty (xs : list string) (n : nat) acc :
  ∃ m : nat, Fix_F (fun _ => string) (search_infinite_go pretty xs) (x := n) acc = pretty m.
Proof.
  revert xs n acc.
  fix FIX 3; intros xs n [?]; simpl; unfold search_infinite_go at 1; simpl.
  destruct (decide _); eauto.
Qed.

Lemma fresh_string_pretty (X : gset string) : ∃ n : nat, fresh X = pretty n.
Proof. apply search_pretty. Qed.

Lemma fresh_order_id_nonempty (w : World) : fresh (dom (orders w)) ≠ "".
Proof.
  destruct (fresh_string_pretty (dom (orders w))) as [n ->]. apply pretty_nat_nonempty.
Qed.

(** ** The order that is placed *)

Section Placed.

Variable env : Env.

Lemma or_else_nonempty (a b : string) : b ≠ "" -> or_else a b ≠ "".
Proof.
  unfold or_else. destruct (String.eqb a "") eqn:E; [done|].
  intros _. by apply String.eqb_neq.
Qed.

Lemma retained_checked (ps : gmap string Product) (c : list CartEntry) :
  existsb (short_of_stock env ps) c = false ->
  Forall (checked_line ps) (order_item <$> retained env ps c).
Proof.
  induction c as [|i c IH]; [constructor|].
  cbn [existsb]. intros [Hi Hc]%orb_false_iff.
  rewrite retained_cons, fmap_app. apply Forall_app. split; [|by apply IH].
  unfold short_of_stock in Hi.
  destruct (reaches_lookup i) eqn:Hr; [|constructor].
  destruct (ps !! entry_id i) as [p|] eqn:Hp; [|constructor].
  cbn [andb] in Hi. constructor; [|constructor].
  exists p. cbn [order_item make_item productId item_name price qty it_id it_name
                 unit_amount it_quantity].
  unfold reaches_lookup in Hr. apply andb_true_iff in Hr as [Hid _].
  cbn [truthy] in Hid. apply negb_true_iff, String.eqb_neq in Hid.
  repeat split; try done; apply Math_max_one_floor.
Qed.

(** X7.  The order document a run of [createCheckoutSession] adds is
    pending, carries no payment yet, is stamped with the server's time,
    names the buyer of the request (identifier, e-mail and a name that
    is never empty), and has at least one line.  Every line names a
    product that exists, with that product's name and its price in
    cents over 100, a stock that was not below the quantity, and a
    quantity that is neither below 1 nor zero. *)
Theorem placed_order_is_checked (req : CheckoutRequest) (w : World) (k : string) (o : Order) :
  orders w !! k = None ->
  orders (createCheckoutSession env req w).2 !! k = Some o ->
  status o = pending ∧ paidAt o = None ∧ stripePaymentIntentId o = None
  ∧ createdAt o = clock w
  ∧ userUID o = user_uid req ∧ userEmail o = user_email req
  ∧ userUID o ≠ "" ∧ userEmail o ≠ "" ∧ userName o ≠ ""
  ∧ items o ≠ []
  ∧ Forall (checked_line (products w)) (items o).
Proof.
  intros Hk.
  destruct (checkout_runs env req w) as [| | | |c msg Hwf Hs Hr Hc|c s Hwf Hs Hr Hc];
    cbn [snd]; try (intros Ho; rewrite Hk in Ho; discriminate);
    unfold session_linked, order_placed, log, set_orders; cbn [orders];
    rewrite ?insert_insert_eq; intros Ho;
    apply lookup_insert_Some in Ho as [[_ <-]|[_ Ho]];
    try (rewrite Hk in Ho; discriminate);
    destruct Hwf as (_ & _ & Hu & He);
    cbn [with_session pending_order status paidAt stripePaymentIntentId createdAt
         userUID userEmail userName items];
    repeat (split; [done|]);
    (split; [by apply or_else_nonempty|]);
    (split; [by intros ?%fmap_nil_inv|]);
    by apply retained_checked.
Qed.


End Placed.

(** ** The origin of the request *)

Lemma strip_final_slash_app (s : string) : strip_final_slash (s +:+ "/") = s.
Proof.
  induction s as [|c r IH]; [reflexivity|].
  change (String c r +:+ "/") with (String c (r +:+ "/")).
  cbn [strip_final_slash].
  replace (String.eqb (r +:+ "/") "") with false by (by destruct r).
  cbn [andb]. by rewrite IH.
Qed.

Lemma strip_final_slash_other (s : string) (c : ascii) :
  c ≠ "/"%char -> strip_final_slash (s +:+ String c "") = s +:+ String c "".
Proof.
  intros Hc. induction s as [|d r IH].
  - change ("" +:+ String c "") with (String c "").
    cbn [strip_final_slash]. apply Ascii.eqb_neq in Hc.
    by rewrite String.eqb_refl, Hc.
  - change (String d r +:+ String c "") with (String d (r +:+ String c "")).
    cbn [strip_final_slash].
    replace (String.eqb (r +:+ String c "") "") with false by (by destruct r).
    cbn [andb]. by rewrite IH.
Qed.

(** X9.  The origin the return addresses are built on is never empty.
    It is ["http://localhost:5000"] when the request has neither an
    [Origin] nor a [Referer] header (or the header is a lone slash);
    otherwise it is the [Origin] header, or the [Referer] when there is
    no [Origin], less one final slash if it ends with one. *)
Theorem request_origin_cases (req : CheckoutRequest) (h : string) :
  h = or_else (origin_header req) (referer_header req) ->
  request_origin req ≠ ""
  ∧ (h = "" ∨ h = "/" -> request_origin req = "http://localhost:5000")
  ∧ (∀ s, s ≠ "" -> h = s +:+ "/" -> request_origin req = s)
  ∧ (∀ s c, c ≠ "/"%char -> h = s +:+ String c "" -> request_origin req = h).
Proof.
  intros Hh. unfold request_origin. rewrite <- Hh. clear Hh.
  split; [by apply or_else_nonempty|].
  split; [by intros [->| ->]|].
  split.
  - intros s Hs ->. rewrite strip_final_slash_app. unfold or_else.
    apply String.eqb_neq in Hs. by rewrite Hs.
  - intros s c Hc ->. rewrite strip_final_slash_other by done. unfold or_else.
    replace (String.eqb (s +:+ String c "") "") with false by (by destruct s).
    done.
Qed.

(** ** From the cart to the payment *)

Section Flow.

Variable env : Env.

Lemma integral_effective_quantity (ps : gmap string Product) (i : CartEntry) (k a : Z) :
  integral_entry ps i k a ->
  reaches_lookup i = true ∧ effective_quantity env (quantity i) = of_Z (Z.max 1 k).
Proof.
  intros (Hid & Hq & Hk0 & Hk & _). unfold reaches_lookup, effective_quantity.
  rewrite Hq, (truthy_of_Z k Hk0 Hk). cbn [truthy parseInt].
  apply String.eqb_neq in Hid. rewrite Hid.
  by rewrite parseInt_number_of_Z, Math_max_one_of_Z.
Qed.

(** The lines a cart of integral entries gives. *)
Lemma integral_lines (ps : gmap string Product) (c : list CartEntry) :
  (∀ i, i ∈ c -> ∃ k a, integral_entry ps i k a) ->
  productId <$> (order_item <$> retained env ps c) = entry_id <$> c
  ∧ Forall (fun it => counted it = true ∧ is_Some (ps !! productId it))
      (order_item <$> retained env ps c)
  ∧ ∀ i k a, i ∈ c -> integral_entry ps i k a ->
      ∃ it, it ∈ order_item <$> retained env ps c
            ∧ productId it = entry_id i ∧ qty it = of_Z (Z.max 1 k).
Proof.
  induction c as [|i c IH]; intros Hall.
  - split; [done|]. split; [constructor|]. intros i k a Hi. by apply elem_of_nil in Hi.
  - destruct IH as (IH1 & IH2 & IH3).
    { intros j Hj. apply Hall. by right. }
    destruct (Hall i) as (k & a & Hi); [by left|].
    destruct (integral_effective_quantity ps i k a Hi) as [Hr Hq].
    pose proof Hi as (Hid & Hqi & Hk0 & Hk & Ha & p & Hp & Hs).
    rewrite retained_cons, Hr, Hp. cbn [app fmap list_fmap].
    fold (list_fmap Item OrderItem order_item). fold (list_fmap OrderItem string productId).
    fold (list_fmap CartEntry string entry_id).
    split; [cbn [order_item make_item productId it_id]; by f_equal|].
    split.
    + constructor; [|exact IH2]. unfold counted.
      cbn [order_item make_item productId it_id qty it_quantity].
      rewrite Hq, Hp. cbn [truthy]. apply String.eqb_neq in Hid. rewrite Hid.
      split; [|done]. apply (truthy_of_Z (Z.max 1 k)); unfold safe in *; lia.
    + intros j k' a' Hj Hint. apply elem_of_cons in Hj as [->|Hj].
      * eexists. split; [by left|]. split; [reflexivity|].
        cbn [order_item make_item qty it_quantity].
        by destruct (integral_effective_quantity ps i k' a' Hint) as [_ ->].
      * destruct (IH3 j k' a' Hj Hint) as (it & Hin & Hit). exists it. split; [by right|done].
Qed.

Lemma filter_other (its : list OrderItem) (j : string) :
  j ∉ productId <$> its ->
  filter (fun it' => counted it' && bool_decide (productId it' = j) = true) its = [].
Proof.
  induction its as [|a its IH]; [done|].
  cbn [fmap list_fmap]. intros Hj. apply not_elem_of_cons in Hj as [Hne Hj].
  rewrite filter_cons. destruct (decide _) as [Hd|_]; [|by apply IH].
  apply andb_true_iff in Hd as [_ Hd]. apply bool_decide_eq_true in Hd. done.
Qed.

Lemma filter_single (its : list OrderItem) (it : OrderItem) :
  NoDup (productId <$> its) -> it ∈ its ->
  Forall (fun it' => counted it' = true) its ->
  filter (fun it' => counted it' && bool_decide (productId it' = productId it) = true) its
  = [it].
Proof.
  induction its as [|a its IH]; intros Hnd Hin Hc; [by apply elem_of_nil in Hin|].
  cbn [fmap list_fmap] in Hnd. apply NoDup_cons in Hnd as [Ha Hnd].
  apply Forall_cons in Hc as [Hca Hc].
  rewrite filter_cons. apply elem_of_cons in Hin as [->|Hin].
  - rewrite Hca, bool_decide_eq_true_2 by done. cbn [andb].
    destruct (decide _); [|done]. f_equal. by apply filter_other.
  - destruct (decide _) as [Hd|_]; [|by apply IH].
    apply andb_true_iff in Hd as [_ Hd]. apply bool_decide_eq_true in Hd.
    destruct Ha. rewrite Hd. by apply list_elem_of_fmap_2.
Qed.

(** X10.  From the cart to the payment.  Take a request whose cart
    names distinct products, each with a whole quantity and a whole
    stock, none short of stock.  The checkout adds an order (whether or
    not the processor then answers).  Let the verified completion event
    for that order arrive in a world [w2] where the order still has its
    lines and where the stock of each product of the cart is still what
    it was at the checkout: no payment of another order has touched
    these products in between.  Then the webhook answers 200, the order
    is paid, and each product of the cart is left with its stock minus
    the larger of 1 and the quantity asked for, which is not negative.
    (Without the condition on [w2] the stock can go below zero, as
    with the two buyers of C6.) *)
Theorem checkout_then_payment (req : CheckoutRequest) (c : list CartEntry) (w w2 : World)
  (wreq : WebhookRequest) (ev : Event) :
  well_formed req c ->
  c ≠ [] ->
  NoDup (entry_id <$> c) ->
  (∀ i, i ∈ c -> ∃ k a, integral_entry (products w) i k a) ->
  existsb (short_of_stock env (products w)) c = false ->
  let placed := createCheckoutSession env req w in
  items <$> orders w2 !! fresh (dom (orders w))
  = items <$> orders placed.2 !! fresh (dom (orders w)) ->
  (∀ i, i ∈ c ->
     prod_stock <$> products w2 !! entry_id i = prod_stock <$> products w !! entry_id i) ->
  verified env wreq ev ->
  type ev = "checkout.session.completed" ->
  metadata_firebaseOrderId (data_object ev) = fresh (dom (orders w)) ->
  let settled_ := stripeWebhook env wreq w2 in
  (code placed.1 = 200 ∨ code placed.1 = 500)%Z
  ∧ settled_.1 = end_ 200
  ∧ status <$> orders settled_.2 !! fresh (dom (orders w)) = Some paid
  ∧ ∀ i k a, i ∈ c -> integral_entry (products w) i k a ->
      (0 <= a - Z.max 1 k)%Z
      ∧ prod_stock <$> products settled_.2 !! entry_id i
        = Some (Some (of_Z (a - Z.max 1 k))).
Proof.
  intros Hwf Hne Hnd Hall Hshort. cbv zeta. intros Horder Hstocks Hv Ht Hid.
  destruct (integral_lines (products w) c Hall) as (Hids & Hcounted & Hline).
  assert (Hret : retained env (products w) c ≠ []).
  { intros E. rewrite E in Hids. destruct c; [done|discriminate]. }
  set (its := retained env (products w) c) in *.
  set (k0 := fresh (dom (orders w))) in *.
  assert (Hplaced : ∃ o, orders (createCheckoutSession env req w).2 !! k0 = Some o
                         ∧ items o = order_item <$> its
                         ∧ (code (createCheckoutSession env req w).1 = 200
                            ∨ code (createCheckoutSession env req w).1 = 500)%Z).
  { rewrite (checkout_placed env req c w Hwf Hshort Hret). cbv zeta.
    fold its k0. destruct (sessions_create env _) as [msg|s]; cbn [fst snd code json_error];
      unfold session_linked, order_placed, log, set_orders; cbn [orders products];
      eexists; (split; [apply lookup_insert_eq|]); split; auto. }
  destruct Hplaced as (o & Ho & Hitems & Hcode).
  split; [exact Hcode|].
  rewrite Ho in Horder. cbn in Horder.
  destruct (orders w2 !! k0) as [o2|] eqn:Ho2; [|discriminate].
  cbn in Horder. injection Horder as Hitems2. rewrite Hitems in Hitems2.
  assert (Hentry : ∀ it, it ∈ order_item <$> its -> ∃ i, i ∈ c ∧ entry_id i = productId it).
  { intros it Hin. apply (list_elem_of_fmap_2 productId) in Hin. rewrite Hids in Hin.
    apply list_elem_of_fmap in Hin as (i & E & Hi). by exists i. }
  assert (Hex : products_exist (products w2) (items o2) = true).
  { rewrite Hitems2. unfold products_exist. apply forallb_forall.
    intros it Hin%list_elem_of_In. rewrite Forall_forall in Hcounted.
    destruct (Hcounted it Hin) as [_ Hsome].
    destruct (Hentry it Hin) as (i & Hi & E).
    rewrite bool_decide_eq_true_2; [apply orb_true_r|].
    apply (fmap_is_Some prod_stock). rewrite <- E, (Hstocks i Hi), E.
    by apply fmap_is_Some. }
  rewrite <- Hid in Ho2.
  rewrite (webhook_matched env wreq _ ev o2 Hv Ht
             ltac:(rewrite Hid; apply fresh_order_id_nonempty) Ho2), Hex.
  cbn [fst snd]. split; [reflexivity|].
  unfold settled, log, set_store; cbn [orders products].
  split; [by rewrite <- Hid, lookup_insert_eq|].
  intros i k a Hi Hint.
  destruct (Hline i k a Hi Hint) as (it & Hin & Hpid & Hqty).
  pose proof Hint as (Hid' & Hqi & Hk0 & Hk & Ha & p & Hp & Hs).
  pose proof (short_of_stock_integers env (products w) i p a k Hid' Hp Hs Hqi Ha Hk Hk0)
    as Hcmp.
  assert (Hi' : short_of_stock env (products w) i = false).
  { revert Hshort. rewrite <- not_true_iff_false, existsb_exists.
    intros Hn. apply not_true_iff_false. intros Hs'. apply Hn. exists i.
    split; [by apply list_elem_of_In|done]. }
  rewrite Hi' in Hcmp. symmetry in Hcmp. apply Z.ltb_ge in Hcmp.
  split; [lia|].
  pose proof (Hstocks i Hi) as Hst2. rewrite Hp in Hst2. cbn in Hst2. rewrite Hs in Hst2.
  destruct (products w2 !! entry_id i) as [p2|] eqn:Hp2; [|discriminate].
  cbn in Hst2. injection Hst2 as Hs2.
  rewrite Hitems2, <- Hpid.
  rewrite (stock_after_single_lookup (order_item <$> its) (products w2) (productId it) it p2
             (of_Z a)); [|by rewrite Hpid|done|].
  - rewrite Hqty, decrement_of_Z; [done|done|unfold safe in *; lia|unfold safe in *; lia].
  - apply filter_single; [by rewrite Hids|done|].
    eapply Forall_impl; [exact Hcounted|]. by intros ? [? _].
Qed.

End Flow.

(** ** Amounts in whole cents *)

Section Cents.

Variable env : Env.

Local Open Scope Q_scope.

(** X11.  [round2] snaps to the cent: a positive Number within a
    thousandth of [k] hundredths, for [k] from 1 to [2^46], is rounded to
    the Number nearest to [k / 100], that is to the literal [k / 100]
    itself; and rounding that result again changes nothing. *)
Theorem round2_snaps_to_cents (x : number) (k : Z) :
  pnormal x -> (1 <= k <= 2 ^ 46)%Z ->
  inject_Z k * (1 # 100) - (1 # 1000) <= val x ->
  val x <= inject_Z k * (1 # 100) + (1 # 1000) ->
  round2 x = dec k 2 ∧ round2 (round2 x) = round2 x.
Proof.
  intros Hx Hk H1 H2. rewrite (round2_near x k Hx Hk H1 H2).
  split; [reflexivity|]. apply round2_dec. lia.
Qed.

(** X12.  A price of [u] whole cents, [u] up to [2^46], is read back as
    exactly [u] cents, and the price the order line records,
    [unit_amount / 100], is the product's price again. *)
Theorem whole_cent_price (p : Product) (u : Z) :
  (0 <= u <= 2 ^ 46)%Z -> prod_price p = dec u 2 ->
  unit_cents p = of_Z u ∧ div (unit_cents p) hundred = prod_price p.
Proof.
  intros Hu Hp. unfold unit_cents. rewrite Hp, cents_of_dec by done. by split.
Qed.

(** X13.  When the event reports a total of [a] cents and a subtotal of
    [b] cents, [0 <= b <= a <= 2^46], the total the webhook persists is
    the literal [a / 100] and the taxes are the literal [(a - b) / 100]:
    the subtraction of the two rounded amounts loses nothing that
    [round2] does not restore. *)
Theorem taxes_in_cents (session : Session) (a b : Z) :
  amount_total session = Some (of_Z a) -> amount_subtotal session = Some (of_Z b) ->
  (0 <= b <= a)%Z -> (a <= 2 ^ 46)%Z ->
  session_total session = dec a 2 ∧ session_taxes session = dec (a - b) 2.
Proof.
  intros Ha Hb Hab Hmax. unfold session_taxes, session_total.
  rewrite Ha, Hb, !or_zero_of_Z by lia.
  split; [reflexivity|]. by apply taxes_dec.
Qed.

(** X14.  For line items of [u_i] whole cents taken [q_i] times, the
    subtotal stored with the order, [round2] of the sum of
    [(u_i / 100) * q_i], is the literal [(sum of u_i * q_i) / 100],
    provided the number of lines times the total in cents (plus 100) is
    at most [2^46]. *)
Theorem subtotal_in_cents (req : CheckoutRequest) (its : list Item) (lines : list (Z * Z))
  (now : Z) :
  Forall2 whole_line its lines ->
  (Z.of_nat (length its) * (total_cents lines + 100) <= 2 ^ 46)%Z ->
  subtotal (pending_order env req its now) = dec (total_cents lines) 2.
Proof. intros Hall Hsize. by apply subtotal_whole. Qed.

Lemma whole_quantity (i : CartEntry) (k : Z) :
  entry_id i ≠ "" -> quantity i = VNumber (of_Z k) -> k ≠ 0%Z -> safe k ->
  reaches_lookup i = true ∧ effective_quantity env (quantity i) = of_Z (Z.max 1 k).
Proof.
  intros Hid Hq Hk0 Hk. unfold reaches_lookup, effective_quantity.
  rewrite Hq, (truthy_of_Z k Hk0 Hk). cbn [truthy parseInt].
  apply String.eqb_neq in Hid. rewrite Hid.
  by rewrite parseInt_number_of_Z, Math_max_one_of_Z.
Qed.

Lemma priced_lines (ps : gmap string Product) (c : list CartEntry) (lines : list (Z * Z)) :
  Forall2 (priced_entry ps) c lines -> Forall2 whole_line (retained env ps c) lines.
Proof.
  induction 1 as [|i l c lines (Hid & k & p & Hq & Hk0 & Hk & Hp & Hprice & Hu & Hl) _ IH];
    [constructor|].
  destruct (whole_quantity i k Hid Hq Hk0 Hk) as [Hr Hq'].
  rewrite retained_cons, Hr, Hp. cbn [app]. constructor; [|exact IH].
  unfold whole_line. cbn [make_item unit_amount it_quantity].
  unfold unit_cents. rewrite Hprice, cents_of_dec, Hq', Hl by done.
  unfold safe in Hk. repeat split; lia.
Qed.

(** X15.  A cart of whole quantities on products priced in whole cents,
    none short of stock: the order placed has one line for each entry,
    with the product's price and the clamped quantity, and its subtotal
    is the literal of the exact total in cents over 100. *)
Theorem placed_subtotal_in_cents (req : CheckoutRequest) (c : list CartEntry) (w : World)
  (lines : list (Z * Z)) :
  well_formed req c -> c ≠ [] ->
  existsb (short_of_stock env (products w)) c = false ->
  Forall2 (priced_entry (products w)) c lines ->
  (Z.of_nat (length lines) * (total_cents lines + 100) <= 2 ^ 46)%Z ->
  ∃ o, orders (createCheckoutSession env req w).2 !! fresh (dom (orders w)) = Some o
    ∧ (fun it => (price it, qty it)) <$> items o
      = (fun l => (dec l.1 2, of_Z l.2)) <$> lines
    ∧ subtotal o = dec (total_cents lines) 2.
Proof.
  intros Hwf Hne Hshort Hall Hsize.
  pose proof (priced_lines _ _ _ Hall) as Hlines.
  assert (Hlen : length (retained env (products w) c) = length lines)
    by (by apply Forall2_length in Hlines).
  assert (Hret : retained env (products w) c ≠ []).
  { intros E. rewrite E in Hlen. apply Forall2_length in Hall.
    destruct c; [done|]. destruct lines; discriminate. }
  assert (Hitems :
    (fun it => (price it, qty it)) <$> (order_item <$> retained env (products w) c)
    = (fun l => (dec l.1 2, of_Z l.2)) <$> lines).
  { clear -Hlines. induction Hlines as [|it l its lines (Hu & Hq & _) _ IH]; [done|].
    cbn [fmap list_fmap]. f_equal; [|exact IH].
    cbn [order_item price qty]. by rewrite Hu, Hq. }
  rewrite (checkout_placed env req c w Hwf Hshort Hret). cbv zeta.
  destruct (sessions_create env _) as [msg|s]; cbn [snd];
    unfold session_linked, order_placed, log, set_orders; cbn [orders];
    eexists; (split; [apply lookup_insert_eq|]);
    cbn [with_session pending_order items subtotal];
    (split; [exact Hitems|]); apply subtotal_whole; [done|lia|done|lia].
Qed.

End Cents.

(** ** A product without a stock field *)

Section Untracked.

Variable env : Env.

(** X16.  A product whose document has no numeric [stock] passes every
    stock check; once an order with one counted line of [q] units on it
    is settled, its stock is the Number [-q], and from then on every
    entry of whole quantity on it is short of stock. *)
Theorem untracked_product_sells_once (req : WebhookRequest) (w : World) (ev : Event)
  (o : Order) (it : OrderItem) (p : Product) (q : Z) :
  verified env req ev ->
  type ev = "checkout.session.completed" ->
  metadata_firebaseOrderId (data_object ev) ≠ "" ->
  orders w !! metadata_firebaseOrderId (data_object ev) = Some o ->
  products_exist (products w) (items o) = true ->
  filter (fun it' => counted it' && bool_decide (productId it' = productId it) = true)
    (items o) = [it] ->
  products w !! productId it = Some p -> prod_stock p = None ->
  qty it = of_Z q -> (1 <= q)%Z -> safe q ->
  let w' := (stripeWebhook env req w).2 in
  (∀ i, entry_id i = productId it -> short_of_stock env (products w) i = false)
  ∧ prod_stock <$> products w' !! productId it = Some (Some (of_Z (- q)))
  ∧ ∀ i k, entry_id i = productId it -> quantity i = VNumber (of_Z k) -> k ≠ 0%Z ->
      safe k -> short_of_stock env (products w') i = true.
Proof.
  intros Hv Ht Hk Ho Hex Hone Hp Hs Hq Hq1 Hsafe. cbv zeta.
  rewrite (webhook_matched env req w ev o Hv Ht Hk Ho), Hex. cbn [snd].
  unfold settled, log, set_store; cbn [products].
  assert (Hstock : prod_stock <$> decrement_all (items o) (products w) !! productId it
                   = Some (Some (of_Z (- q)))).
  { rewrite decrement_all_lookup, Hp. cbn.
    rewrite (stock_after_single (items o) (productId it) it _ Hone), Hs, Hq.
    cbn [increment]. rewrite neg_of_Z; [done|lia|done]. }
  split; [|split; [exact Hstock|]].
  - intros i Hi. unfold short_of_stock, stock_below. rewrite Hi, Hp, Hs.
    by destruct (reaches_lookup i).
  - intros i k Hi Hqi Hk0 Hksafe.
    destruct (decrement_all (items o) (products w) !! productId it) as [p'|] eqn:Hp';
      [|discriminate].
    cbn in Hstock. injection Hstock as Hs'.
    assert (Hid : entry_id i ≠ "").
    { rewrite Hi. intros E.
      assert (Hin : it ∈ filter (fun it' => counted it' && bool_decide (productId it' = productId it) = true) (items o))
        by (rewrite Hone; by left).
      apply list_elem_of_filter in Hin as [Hc _]. apply andb_true_iff in Hc as [Hc _].
      unfold counted in Hc. apply andb_true_iff in Hc as [Hc _].
      cbn [truthy] in Hc. rewrite E in Hc. discriminate. }
    rewrite <- Hi in Hp'.
    rewrite (short_of_stock_integers env _ i p' (- q) k Hid Hp' Hs' Hqi
               ltac:(unfold safe in *; lia) Hksafe Hk0).
    apply Z.ltb_lt. lia.
Qed.

End Untracked.

(** ** The properties on the example *)

(** A GET is answered 405 and changes nothing. *)
Lemma checkout_answers_example :
  code (createCheckoutSession env1 get_request world0).1 = 405%Z
  ∧ (createCheckoutSession env1 get_request world0).2 = world0.
Proof.
  destruct (checkout_answers env1 get_request world0) as (_ & H405 & Hsame).
  assert (Hc : code (createCheckoutSession env1 get_request world0).1 = 405%Z)
    by (apply H405; discriminate).
  split; [exact Hc|]. apply Hsame. by right.
Defined.

(** The processor is down: the answer is 500 and order "0" stays in the
    store, pending and without a session. *)
Lemma processor_failure_example :
  failed_checkout.1 = json_error 500 "Erreur serveur: api_connection_error"
  ∧ ∃ o, orders failed_checkout.2 !! "0" = Some o
         ∧ status o = pending ∧ stripeSessionId o = None.
Proof.
  destruct (processor_failure_leaves_pending_order failing_env (checkout cart1) cart1 world0
              "api_connection_error" (checkout_is_well_formed cart1) eq_refl
              ltac:(discriminate) eq_refl)
    as (Hr & _ & (o & Ho & Hst & Hsid & _) & _).
  change (createCheckoutSession failing_env (checkout cart1) world0)
    with failed_checkout in Hr, Ho.
  split; [exact Hr|]. exists o. split; [|by split].
  rewrite Ho. apply lookup_insert_eq.
Defined.

(** The checkout of the example leaves the product and the clock alone. *)
Lemma checkout_keeps_the_store_example :
  products after_checkout.2 = products world0 ∧ clock after_checkout.2 = clock world0
  ∧ dom (orders after_checkout.2) ⊆ {[ "0" ]}.
Proof.
  destruct (checkout_keeps_the_store env1 (checkout cart1) world0) as (Hp & Hc & _ & Hd & _).
  split; [exact Hp|]. split; [exact Hc|].
  intros k Hk. destruct (Hd k Hk) as [H|H].
  - by apply elem_of_dom in H as [? ?].
  - rewrite H. by apply elem_of_singleton.
Defined.

(** A bad signature is answered 400 and changes nothing. *)
Lemma webhook_answers_example :
  code (stripeWebhook env1 unsigned after_checkout.2).1 = 400%Z
  ∧ (stripeWebhook env1 unsigned after_checkout.2).2 = after_checkout.2.
Proof.
  destruct (webhook_answers env1 unsigned after_checkout.2) as (_ & H400 & Hsame).
  assert (Hc : code (stripeWebhook env1 unsigned after_checkout.2).1 = 400%Z)
    by (apply H400; by eexists).
  split; [exact Hc|]. apply Hsame. rewrite Hc. discriminate.
Defined.

(** The payment of the example keeps the product's name, price and image. *)
Lemma webhook_keeps_the_documents_example :
  dom (products after_payment.2) = dom (products after_checkout.2)
  ∧ ∃ p', products after_payment.2 !! "p1" = Some p'
          ∧ product_identity p' = product_identity p1.
Proof.
  destruct (webhook_keeps_the_documents env1 signed after_checkout.2)
    as (Hd & _ & _ & Hp & _).
  split; [exact Hd|]. apply (Hp "p1" p1). reflexivity.
Defined.

(** The order of the example, once paid, is still there and still paid
    after an hour and a second delivery. *)
Lemma documents_outlive_example :
  ∃ o', orders after_replay.2 !! "0" = Some o'
        ∧ order_identity o' = order_identity order0 ∧ status o' = paid.
Proof.
  assert (Hsteps : rtc step after_payment.2 after_replay.2).
  { eapply rtc_l; [apply (step_clock 4600)|].
    eapply rtc_l; [apply (step_webhook env1 signed)|]. apply rtc_refl. }
  destruct (documents_outlive_every_call _ _ Hsteps) as [_ Ho].
  destruct (Ho "0" (mark_paid (dec 26 1) (dec 2258 2) (Some "pi_1") 1000 order0))
    as (o' & Hk & Hid & Hst); [vm_compute; reflexivity|].
  exists o'. split; [exact Hk|]. split; [exact Hid|]. by apply Hst.
Defined.

(** The order of the example: one checked line of two widgets. *)
Lemma placed_order_example :
  status order0 = pending ∧ userName order0 ≠ ""
  ∧ Forall (checked_line (products world0)) (items order0).
Proof.
  destruct (placed_order_is_checked env1 (checkout cart1) world0 "0" order0 eq_refl)
    as (Hst & _ & _ & _ & _ & _ & _ & _ & Hn & _ & Hl); [vm_compute; reflexivity|].
  by repeat split.
Defined.


(** The origin of the example loses its final slash. *)
Lemma request_origin_example : request_origin (checkout cart1) = "https://shop.example".
Proof.
  destruct (request_origin_cases (checkout cart1) "https://shop.example/" eq_refl)
    as (_ & _ & H & _).
  apply H; [discriminate|reflexivity].
Defined.

(** The example from the cart to the payment: the stock goes from 5 to 3. *)
Lemma checkout_then_payment_example :
  after_payment.1 = end_ 200
  ∧ status <$> orders after_payment.2 !! "0" = Some paid
  ∧ prod_stock <$> products after_payment.2 !! "p1" = Some (Some (of_Z 3)).
Proof.
  assert (Hint : integral_entry (products world0) (entry "p1" (VNumber (of_Z 2))) 2 5).
  { split; [discriminate|]. split; [reflexivity|]. split; [discriminate|].
    split; [reflexivity|]. split; [reflexivity|]. exists p1. by split. }
  destruct (checkout_then_payment env1 (checkout cart1) cart1 world0 after_checkout.2
              signed ev1
              (checkout_is_well_formed cart1) ltac:(discriminate)
              ltac:(apply NoDup_singleton)
              ltac:(intros i ->%list_elem_of_singleton; by exists 2%Z, 5%Z)
              eq_refl eq_refl
              ltac:(intros i ->%list_elem_of_singleton; reflexivity)
              eq_refl eq_refl eq_refl)
    as (_ & Hr & Hst & Hstock).
  split; [exact Hr|]. split; [exact Hst|].
  apply (Hstock (entry "p1" (VNumber (of_Z 2))) 2%Z 5%Z); [by left|exact Hint].
Defined.

(** 22.58 - 19.98 is not 2.6 as a Number, and [round2] makes it 2.6. *)
Lemma round2_snaps_example : raw_taxes ≠ dec 260 2 ∧ round2 raw_taxes = dec 260 2.
Proof.
  split; [vm_compute; discriminate|].
  apply (round2_snaps_to_cents raw_taxes 260).
  - vm_compute. split; [discriminate|reflexivity].
  - lia.
  - apply Qle_bool_iff. vm_compute. reflexivity.
  - apply Qle_bool_iff. vm_compute. reflexivity.
Defined.

(** The price 9.99 is read as 999 cents. *)
Lemma whole_cent_price_example : unit_cents p1 = of_Z 999.
Proof. apply (whole_cent_price p1 999); [lia|reflexivity]. Defined.

(** The event of the example: total 22.58, taxes 2.60. *)
Lemma taxes_in_cents_example :
  session_total (data_object ev1) = dec 2258 2
  ∧ session_taxes (data_object ev1) = dec 260 2.
Proof. apply (taxes_in_cents (data_object ev1) 2258 1998); [reflexivity|reflexivity|lia|lia]. Defined.

(** Two widgets at 999 cents: 19.98. *)
Lemma subtotal_in_cents_example :
  subtotal (pending_order env1 (checkout cart1) (retained env1 (products world0) cart1) 1000)
  = dec 1998 2.
Proof.
  apply (subtotal_in_cents env1 (checkout cart1) _ [(999, 2)%Z] 1000).
  - constructor; [|constructor]. unfold whole_line. cbn [fst snd].
    split; [vm_compute; reflexivity|]. split; [vm_compute; reflexivity|]. lia.
  - vm_compute. discriminate.
Defined.

(** The same through the handler. *)
Lemma placed_subtotal_example :
  ∃ o, orders after_checkout.2 !! "0" = Some o
       ∧ (fun it => (price it, qty it)) <$> items o = [(dec 999 2, of_Z 2)]
       ∧ subtotal o = dec 1998 2.
Proof.
  apply (placed_subtotal_in_cents env1 (checkout cart1) cart1 world0 [(999, 2)%Z]
           (checkout_is_well_formed cart1) ltac:(discriminate) eq_refl).
  - constructor; [|constructor]. split; [discriminate|].
    exists 2%Z, p1. cbn [fst snd]. repeat split; try reflexivity; try lia; discriminate.
  - vm_compute. discriminate.
Defined.

(** A gift card without a stock field: sold once, its stock is -1 and a
    second buyer is refused. *)
Lemma untracked_product_example :
  code untracked_checkout.1 = 200%Z
  ∧ prod_stock <$> products untracked_sold.2 !! "p2" = Some (Some (of_Z (-1)))
  ∧ createCheckoutSession env1 (checkout cart2) untracked_sold.2
    = (json_error 400 "Stock insuffisant: Gift card", untracked_sold.2).
Proof.
  destruct (untracked_product_sells_once env1 signed untracked_checkout.2 ev1 order2 line2 p2 1
              eq_refl eq_refl ltac:(discriminate) eq_refl eq_refl eq_refl eq_refl eq_refl
              eq_refl ltac:(lia) eq_refl)
    as (_ & Hstock & Hshort).
  split; [reflexivity|]. split; [exact Hstock|].
  assert (Hsh : short_of_stock env1 (products untracked_sold.2)
                  (entry "p2" (VNumber (of_Z 1))) = true).
  { apply (Hshort _ 1%Z); [reflexivity|reflexivity|discriminate|reflexivity]. }
  assert (Hi : find (short_of_stock env1 (products untracked_sold.2)) cart2
               = Some (entry "p2" (VNumber (of_Z 1)))).
  { unfold cart2. cbn [find]. rewrite Hsh. reflexivity. }
  destruct (checkout_short env1 (checkout cart2) cart2 untracked_sold.2 _
              (checkout_is_well_formed cart2) Hi) as (p & Hp & Hrun).
  rewrite Hrun. vm_compute in Hp. injection Hp as <-. reflexivity.
Defined.
